(** * PokerStars hand-history parser: a shallow embedding and its properties

    The development follows [poker/room/pokerstars.py]: the Python
    primitives the parser leans on (string searching and slicing, list
    indexing, [int], [Decimal], [re]), then the [_Flop] sub-parser, then
    the [PokerStarsHandHistory] stages, and finally the theorems. *)

From Stdlib Require Import ZArith String Ascii List Bool Lia.
From stdpp Require Import base option list strings gmap.

Local Open Scope string_scope.
Local Open Scope Z_scope.

(* Appending to a string that starts with a known character computes. *)
#[local] Arguments String.append !s1 s2 : simpl nomatch.

(** ** Python primitives *)

Module Py.

(** The exceptions the parser can run into.  [RuntimeError] is what a
    bare [raise] outside an [except] block produces. *)
Inductive exception : Set :=
| AttributeError   (* [None.group(..)], reading an attribute never set *)
| IndexError       (* list subscript out of range *)
| ValueError       (* [list.index] miss, [int('')], enum lookup miss *)
| InvalidOperation (* [Decimal] on a malformed numeral *)
| Overflow         (* a [Decimal] result above the largest exponent *)
| RuntimeError.    (* bare [raise] with no active exception *)

Inductive result (A : Type) : Type :=
| OK (a : A)
| Raise (e : exception).
Arguments OK {A} a.
Arguments Raise {A} e.

Definition bind {A B} (m : result A) (k : A -> result B) : result B :=
  match m with
  | OK a => k a
  | Raise e => Raise e
  end.

(** Python integers index strings and lists; a negative index counts from
    the end and a slice bound is clamped to the sequence. *)
Definition slice_bound (len : Z) (i : Z) : Z :=
  if i <? 0 then Z.max 0 (i + len) else Z.min i len.

(** [s[lo:hi]]; [None] stands for an omitted bound. *)
Definition str_slice (s : string) (lo hi : option Z) : string :=
  let len := Z.of_nat (String.length s) in
  let a := match lo with Some i => slice_bound len i | None => 0 end in
  let b := match hi with Some i => slice_bound len i | None => len end in
  String.substring (Z.to_nat a) (Z.to_nat (b - a)) s.

(** Whether [s] begins with [p]. *)
Fixpoint has_prefix (p s : string) : bool :=
  match p with
  | EmptyString => true
  | String a p' =>
      match s with
      | String b s' => Ascii.eqb b a && has_prefix p' s'
      | EmptyString => false
      end
  end.

(** [s.startswith(p)] *)
Definition startswith (s p : string) : bool := has_prefix p s.

(** [sub in s] *)
Fixpoint contains (sub s : string) : bool :=
  has_prefix sub s ||
  match s with
  | EmptyString => false
  | String _ s' => contains sub s'
  end.

(** The scan behind [s.find(sub, start)]: [i] is the index of the head of
    [s] in the whole string and [skip] the characters still to pass over
    before the search starts. *)
Fixpoint find_aux (sub s : string) (i : Z) (skip : nat) : Z :=
  match skip with
  | S k =>
      match s with
      | EmptyString => -1
      | String _ s' => find_aux sub s' (i + 1) k
      end
  | O =>
      if has_prefix sub s then i
      else match s with
           | EmptyString => -1
           | String _ s' => find_aux sub s' (i + 1) O
           end
  end.

(** [s.find(sub)] and [s.find(sub, start)]: lowest index, or -1. *)
Definition find (s sub : string) : Z := find_aux sub s 0 O.

Definition find_from (s sub : string) (start : Z) : Z :=
  let len := Z.of_nat (String.length s) in
  let st := if start <? 0 then Z.max 0 (start + len) else start in
  find_aux sub s 0 (Z.to_nat st).

(** [l[i]] *)
Definition getitem {A} (l : list A) (i : Z) : result A :=
  let len := Z.of_nat (List.length l) in
  let j := if i <? 0 then i + len else i in
  if (0 <=? j) && (j <? len) then
    match l !! Z.to_nat j with
    | Some x => OK x
    | None => Raise IndexError
    end
  else Raise IndexError.

(** [l[i] = x] *)
Definition setitem {A} (l : list A) (i : Z) (x : A) : result (list A) :=
  let len := Z.of_nat (List.length l) in
  let j := if i <? 0 then i + len else i in
  if (0 <=? j) && (j <? len) then OK (<[Z.to_nat j := x]> l)
  else Raise IndexError.

(** [l[lo:hi]] and [l[lo:]] *)
Definition list_slice {A} (l : list A) (lo : Z) (hi : option Z) : list A :=
  let len := Z.of_nat (List.length l) in
  let a := slice_bound len lo in
  let b := match hi with Some i => slice_bound len i | None => len end in
  take (Z.to_nat (b - a)) (drop (Z.to_nat a) l).

(** [x in l] for a list of strings *)
Definition list_contains (x : string) (l : list string) : bool :=
  existsb (String.eqb x) l.

(** The scan behind [l.index(x, start)]. *)
Fixpoint index_aux (x : string) (l : list string) (i : Z) (skip : nat)
  : result Z :=
  match l with
  | [] => Raise ValueError
  | y :: l' =>
      match skip with
      | S k => index_aux x l' (i + 1) k
      | O => if String.eqb y x then OK i else index_aux x l' (i + 1) O
      end
  end.

(** [l.index(x)] and [l.index(x, start)] *)
Definition list_index (l : list string) (x : string) : result Z :=
  index_aux x l 0 O.

Definition list_index_from (l : list string) (x : string) (start : Z)
  : result Z :=
  let len := Z.of_nat (List.length l) in
  let st := if start <? 0 then Z.max 0 (start + len) else start in
  index_aux x l 0 (Z.to_nat st).

(** Characters.  Strings are sequences of code points below 256; among
    those the decimal digits are exactly ['0'..'9']. *)
Definition is_digit (c : ascii) : bool :=
  let n := nat_of_ascii c in
  (Nat.leb 48 n) && (Nat.leb n 57).

Definition digit_val (c : ascii) : Z := Z.of_nat (nat_of_ascii c) - 48.

Fixpoint all_digits (s : string) : bool :=
  match s with
  | EmptyString => true
  | String c s' => is_digit c && all_digits s'
  end.

(** Value of a digit string read left to right, [acc] being the value of
    the digits already read. *)
Fixpoint digits_val (s : string) (acc : Z) : Z :=
  match s with
  | EmptyString => acc
  | String c s' => digits_val s' (10 * acc + digit_val c)
  end.

(** [int(s)] on what the grammars' [\d] and [\d*] groups can hold: a
    string of digits.  The empty string is a [ValueError]. *)
Definition int (s : string) : result Z :=
  match s with
  | EmptyString => Raise ValueError
  | _ => if all_digits s then OK (digits_val s 0) else Raise ValueError
  end.

(** [decimal.Decimal] values: coefficient and exponent, so that ["10.00"]
    is [1000 * 10^-2] and stays distinct from ["10"].  A negative zero is
    not told apart from zero. *)
Record decimal : Set := Dec { coef : Z; expo : Z }.

(** The part of a numeral before the first ['.'] and, when there is one,
    the part after it. *)
Fixpoint split_dot (s : string) : string * option string :=
  match s with
  | EmptyString => (EmptyString, None)
  | String c s' =>
      if Ascii.eqb c "." then (EmptyString, Some s')
      else let '(a, b) := split_dot s' in (String c a, b)
  end.

(** [Decimal(s)] on plain numerals: an optional sign, then digits with an
    optional fraction ("10", "10.00", "10.", ".50").  The other spellings
    CPython accepts (exponent notation, Infinity and NaN, underscores,
    surrounding blanks) do not occur in the room's format and are not
    modelled: here they raise like any malformed numeral. *)
Definition Decimal (s : string) : result decimal :=
  let '(sgn, body) :=
    match s with
    | String c r =>
        if Ascii.eqb c "-" then (-1, r)
        else if Ascii.eqb c "+" then (1, r)
        else (1, s)
    | EmptyString => (1, s)
    end in
  let '(ip, fp) := split_dot body in
  let fr := match fp with Some f => f | None => EmptyString end in
  let ds := (ip ++ fr)%string in
  if all_digits ds && negb (String.eqb ds EmptyString)
  then OK (Dec (sgn * digits_val ds 0) (- Z.of_nat (String.length fr)))
  else Raise InvalidOperation.

(** An [int] where a [Decimal] is expected ([0 + Decimal(..)]). *)
Definition dec_of_int (n : Z) : decimal := Dec n 0.

(** The default context of the [decimal] module: 28 significant digits,
    rounding to the nearest with ties to the even digit, exponents between
    [Emin] and [Emax]; of the signals only the overflow is trapped (with
    the invalid operation and the division by zero). *)
Definition prec : Z := 28.
Definition Emax : Z := 999999.
Definition Emin : Z := -999999.
Definition Etiny : Z := Emin - prec + 1.
Definition Etop : Z := Emax - prec + 1.

(** The number of decimal digits of a positive integer; [fuel] bounds the
    number of divisions by ten. *)
Fixpoint digits_aux (fuel : nat) (n : Z) : Z :=
  match fuel with
  | O => 1
  | S f => if n <? 10 then 1 else 1 + digits_aux f (n / 10)
  end.

Definition ndigits (n : Z) : Z := digits_aux (Z.to_nat (Z.log2 n)) n.

(** What the context makes of the exact value [c * 10^e]: a zero keeps
    its exponent as far as the range allows; a coefficient of more than
    28 digits, or an exponent below [Etiny], is rounded half-even to the
    digits that fit, a carry out of the 28 digits dropping one more; an
    exponent left beyond the range raises. *)
Definition dec_fix (c e : Z) : result decimal :=
  if c =? 0 then OK (Dec 0 (Z.min (Z.max e Etiny) Emax))
  else
    let m := Z.abs c in
    let exp_min := ndigits m + e - prec in
    if Etop <? exp_min then Raise Overflow
    else
      let exp_min := Z.max exp_min Etiny in
      if e <? exp_min then
        let k := exp_min - e in
        let q := m / 10 ^ k in
        let r := m mod 10 ^ k in
        let half := 5 * 10 ^ (k - 1) in
        let q := if (half <? r) || ((r =? half) && Z.odd q)
                 then q + 1 else q in
        let '(q, exp_min) :=
          if 10 ^ prec <=? q then (q / 10, exp_min + 1) else (q, exp_min) in
        if Etop <? exp_min then Raise Overflow
        else OK (Dec (Z.sgn c * q) exp_min)
      else OK (Dec c e).

(** [a + b] in the default context: the exact sum, with the smaller of
    the two exponents, brought into the context. *)
Definition dec_add (a b : decimal) : result decimal :=
  let e := Z.min (expo a) (expo b) in
  dec_fix (coef a * 10 ^ (expo a - e) + coef b * 10 ^ (expo b - e)) e.

End Py.

Import Py.

#[global] Instance result_bind : MBind result :=
  fun A B k m => Py.bind m k.
#[global] Instance result_ret : MRet result := @OK.

(** ** Regular expressions

    The patterns of the parser use literals, the classes [.], [\d] and
    bracket sets, a greedy star over a class, an alternation of literals,
    unnested groups, the anchors [^] and [$], and one-character
    look-behind and look-ahead.  A pattern is the list of its nodes, a
    group being marked by the two nodes that open and close it. *)

Module Re.

Inductive cls : Set :=
| CAny                    (* [.]: anything but a newline *)
| CDigit                  (* [\d] *)
| CSet (l : list ascii).  (* [[...]] *)

Definition newline : ascii := "010"%char.

Definition in_cls (k : cls) (c : ascii) : bool :=
  match k with
  | CAny => negb (Ascii.eqb c newline)
  | CDigit => is_digit c
  | CSet l => existsb (Ascii.eqb c) l
  end.

Inductive node : Set :=
| NChar (c : ascii)         (* a literal character *)
| NCls (k : cls)            (* one character of a class *)
| NStar (k : cls)           (* [k*], greedy *)
| NAlt (alts : list string) (* [lit1|lit2|...], tried in order *)
| NOpen                     (* [(] *)
| NClose                    (* [)] *)
| NBol                      (* [^] *)
| NEol                      (* [$] *)
| NBehind (k : cls)         (* [(?<=k)] *)
| NAhead (k : cls).         (* [(?=k)] *)

Definition lit (s : string) : list node := map NChar (list_ascii_of_string s).

(** [s] without the prefix [w], when it has it. *)
Fixpoint eat (w s : string) : option string :=
  match w with
  | EmptyString => Some s
  | String c w' =>
      match s with
      | String a s' => if Ascii.eqb a c then eat w' s' else None
      | EmptyString => None
      end
  end.

Fixpoint last_char (w : string) (d : option ascii) : option ascii :=
  match w with
  | EmptyString => d
  | String c w' => last_char w' (Some c)
  end.

(** [$] holds at the end of the string and just before a final newline. *)
Definition at_eol (s : string) : bool :=
  match s with
  | EmptyString => true
  | String c EmptyString => Ascii.eqb c newline
  | _ => false
  end.

(** The backtracking matcher.  [prev] is the character before the current
    position, [s] what is left of the subject and [pos] the current
    offset.  [cur] collects the text consumed since the last group was
    opened and [caps] the text of the groups closed so far, latest
    first.  The result is the captures and the end offset of the first
    match in backtracking order. *)
Fixpoint go (ns : list node) (prev : option ascii) (s : string) (pos : nat)
    (cur : string) (caps : list string) {struct ns}
  : option (list string * nat) :=
  match ns with
  | [] => Some (caps, pos)
  | NChar c :: ns' =>
      match s with
      | String a s' =>
          if Ascii.eqb a c
          then go ns' (Some a) s' (S pos) (cur ++ String a EmptyString) caps
          else None
      | EmptyString => None
      end
  | NCls k :: ns' =>
      match s with
      | String a s' =>
          if in_cls k a
          then go ns' (Some a) s' (S pos) (cur ++ String a EmptyString) caps
          else None
      | EmptyString => None
      end
  | NStar k :: ns' =>
      (fix star (prev : option ascii) (s : string) (pos : nat) (cur : string)
         {struct s} : option (list string * nat) :=
         match s with
         | String a s' =>
             if in_cls k a then
               match star (Some a) s' (S pos) (cur ++ String a EmptyString)
               with
               | Some r => Some r
               | None => go ns' prev s pos cur caps
               end
             else go ns' prev s pos cur caps
         | EmptyString => go ns' prev s pos cur caps
         end) prev s pos cur
  | NAlt alts :: ns' =>
      (fix alt (l : list string) : option (list string * nat) :=
         match l with
         | [] => None
         | w :: l' =>
             match eat w s with
             | Some s' =>
                 match go ns' (last_char w prev) s'
                         (pos + String.length w) (cur ++ w) caps with
                 | Some r => Some r
                 | None => alt l'
                 end
             | None => alt l'
             end
         end) alts
  | NOpen :: ns' => go ns' prev s pos EmptyString caps
  | NClose :: ns' => go ns' prev s pos cur (cur :: caps)
  | NBol :: ns' => if Nat.eqb pos 0 then go ns' prev s pos cur caps else None
  | NEol :: ns' => if at_eol s then go ns' prev s pos cur caps else None
  | NBehind k :: ns' =>
      match prev with
      | Some a => if in_cls k a then go ns' prev s pos cur caps else None
      | None => None
      end
  | NAhead k :: ns' =>
      match s with
      | String a _ => if in_cls k a then go ns' prev s pos cur caps else None
      | EmptyString => None
      end
  end.

(** [pattern.match(line)]: a match anchored at offset 0, as the list of
    its groups, group 0 (the whole match) first; [None] when there is no
    match. *)
Definition re_match (r : list node) (line : string) : option (list string) :=
  match go r None line 0 EmptyString [] with
  | Some (caps, e) => Some (String.substring 0 e line :: rev caps)
  | None => None
  end.

(** [m.group(i)] *)
Definition group (m : list string) (i : nat) : string := nth i m EmptyString.

(** The scan behind [pattern.findall(line)] for a pattern with one group
    that matches no empty string: [s] is the subject from offset [pos]
    on, [skip] the characters of the last match still to pass over. *)
Fixpoint findall_aux (r : list node) (prev : option ascii) (s : string)
    (pos : nat) (skip : nat) : list string :=
  match s with
  | EmptyString => []
  | String a s' =>
      match skip with
      | S k => findall_aux r (Some a) s' (S pos) k
      | O =>
          match go r prev s pos EmptyString [] with
          | Some (caps, e) =>
              group (rev caps) 0
                :: findall_aux r (Some a) s' (S pos) (e - pos - 1)
          | None => findall_aux r (Some a) s' (S pos) O
          end
      end
  end.

Definition findall (r : list node) (line : string) : list string :=
  findall_aux r None line 0 0.

(** What a pattern accepts, without the order in which the matcher tries
    things: every result of [go] is one of these. *)
Fixpoint all_cls (k : cls) (w : string) : bool :=
  match w with
  | EmptyString => true
  | String a w' => in_cls k a && all_cls k w'
  end.

Fixpoint sem (ns : list node) (prev : option ascii) (s : string) (pos : nat)
    (cur : string) (caps : list string) (r : list string * nat) : Prop :=
  match ns with
  | [] => r = (caps, pos)
  | NChar c :: ns' =>
      exists s', s = String c s' /\
        sem ns' (Some c) s' (S pos) (cur ++ String c EmptyString) caps r
  | NCls k :: ns' =>
      exists a s', s = String a s' /\ in_cls k a = true /\
        sem ns' (Some a) s' (S pos) (cur ++ String a EmptyString) caps r
  | NStar k :: ns' =>
      exists w s', s = (w ++ s')%string /\ all_cls k w = true /\
        sem ns' (last_char w prev) s' (pos + String.length w) (cur ++ w)
          caps r
  | NAlt alts :: ns' =>
      exists w s', In w alts /\ s = (w ++ s')%string /\
        sem ns' (last_char w prev) s' (pos + String.length w) (cur ++ w)
          caps r
  | NOpen :: ns' => sem ns' prev s pos EmptyString caps r
  | NClose :: ns' => sem ns' prev s pos cur (cur :: caps) r
  | NBol :: ns' => pos = O /\ sem ns' prev s pos cur caps r
  | NEol :: ns' => at_eol s = true /\ sem ns' prev s pos cur caps r
  | NBehind k :: ns' =>
      exists a, prev = Some a /\ in_cls k a = true /\
        sem ns' prev s pos cur caps r
  | NAhead k :: ns' =>
      exists a s', s = String a s' /\ in_cls k a = true /\
        sem ns' prev s pos cur caps r
  end.

End Re.

Import Re.

(** ** The rest of the package

    [pokerstars.py] imports its records, enumerations and base classes
    from sibling modules.  What the parser uses of them is gathered here. *)

(** [handhistory._Player]: the namedtuple built in [_parse_players] and
    updated by [_replace] in [_parse_hero]. *)
Record _Player {Combo : Type} : Type := mk_Player {
  name : string;
  stack : Z;
  seat : Z;
  combo : option Combo
}.
Arguments _Player : clear implicits.
Arguments mk_Player {Combo} name stack seat combo.

(** [hero._replace(combo=c)] *)
Definition _replace_combo {Combo} (p : _Player Combo) (c : Combo)
  : _Player Combo :=
  mk_Player (name p) (stack p) (seat p) (Some c).

(** Modelled from the spec: what [pokerstars.py] imports from the modules
    [card], [hand], [constants] and [handhistory].  The constructors
    [Card] and [Combo], the enumeration lookups and [_parse_date] (the
    value it stores in [date]) are taken as they come, and any of them
    may raise; of [Action] only the three members the parser names are
    known.  [_init_seats] gives "a fixed-size player array sized to
    max-seat-count" whose entries are the "unfilled placeholders", and
    [_get_hero_from_players] "locates the existing Player entry by name
    equality", returning the entry and the index it sits at. *)
Class Package : Type := {
  Card : Type;
  Card_of : string -> result Card;
  Combo : Type;
  Combo_of : string -> result Combo;
  Action : Type;
  RETURN : Action;
  WIN : Action;
  MUCK : Action;
  Action_of : string -> result Action;
  GameType : Type;
  GameType_of : string -> result GameType;
  Game : Type;
  Game_of : string -> result Game;
  Limit : Type;
  Limit_of : string -> result Limit;
  Currency : Type;
  Currency_of : string -> result Currency;
  datetime : Type;
  _parse_date : string -> result datetime;
  _init_seats : Z -> list (_Player Combo);
  _init_seats_length :
    forall n, 0 <= n -> Z.of_nat (List.length (_init_seats n)) = n;
  _get_hero_from_players :
    list (_Player Combo) -> string -> result (_Player Combo * Z);
  _get_hero_from_players_found :
    forall ps nm p i,
      _get_hero_from_players ps nm = OK (p, i) ->
      0 <= i /\ ps !! Z.to_nat i = Some p /\ name p = nm
}.

(** ** [class _Flop] *)

Module Flop.
Section Flop.
Context {pkg : Package}.

(** An entry of [actions]: [(name, action)] or [(name, action, amount)]. *)
Definition action : Type := string * Action * option decimal.

Record _Flop : Type := mk_Flop {
  _initial_pot : decimal;
  pot : decimal;
  actions : option (list action);
  cards : Card * Card * Card
}.

Definition _parse_cards (boardline : string) : result (Card * Card * Card) :=
  c1 ← Card_of (str_slice boardline (Some 1) (Some 3));
  c2 ← Card_of (str_slice boardline (Some 4) (Some 6));
  c3 ← Card_of (str_slice boardline (Some 7) (Some 9));
  mret (c1, c2, c3).

Definition _parse_uncalled (line : string) : result action :=
  let first_paren_index := find line "(" in
  let second_paren_index := find line ")" in
  let amount :=
    str_slice line (Some (first_paren_index + 1)) (Some second_paren_index) in
  let name_start_index := find line "to " + 3 in
  let name := str_slice line (Some name_start_index) None in
  a ← Decimal amount;
  mret (name, RETURN, Some a).

(** The name and the amount token [_parse_collected] cuts out of a line. *)
Definition collected_name (line : string) : string :=
  let first_space_index := find line " " in
  str_slice line None (Some first_space_index).

Definition collected_amount (line : string) : string :=
  let first_space_index := find line " " in
  let second_space_index := find_from line " " (first_space_index + 1) in
  let third_space_index := find_from line " " (second_space_index + 1) in
  str_slice line (Some (second_space_index + 1)) (Some third_space_index).

(** Returns the action and the new value of [self.pot]. *)
Definition _parse_collected (initial_pot : decimal) (line : string)
  : result (action * decimal) :=
  let name := collected_name line in
  let amount := collected_amount line in
  a ← Decimal amount;
  pot ← dec_add initial_pot a;
  mret ((name, WIN, Some pot), pot).

Definition _parse_muck (line : string) : result action :=
  let colon_index := find line ":" in
  let name := str_slice line None (Some colon_index) in
  mret (name, MUCK, None).

Definition _parse_player_action (line : string) : result action :=
  let colon_index := find line ":" in
  let name := str_slice line None (Some colon_index) in
  let end_action_index :=
    let i := find_from line " " (colon_index + 2) in
    if i =? -1 then None else Some i in
  act ← Action_of (str_slice line (Some (colon_index + 2)) end_action_index);
  match end_action_index with
  | Some i =>
      if i =? 0 then mret (name, act, None)
      else
        a ← Decimal (str_slice line (Some (i + 1)) None);
        mret (name, act, Some a)
  | None => mret (name, act, None)
  end.

(** One turn of the loop of [_parse_actions]: the action appended and the
    value of [self.pot] afterwards. *)
Definition parse_action_line (initial_pot pot : decimal) (line : string)
  : result (action * decimal) :=
  if startswith line "Uncalled bet" then
    a ← _parse_uncalled line; mret (a, pot)
  else if contains "collected" line then
    _parse_collected initial_pot line
  else if contains "doesn't show hand" line then
    a ← _parse_muck line; mret (a, pot)
  else if contains ":" line then
    a ← _parse_player_action line; mret (a, pot)
  else Raise RuntimeError.

(** The loop of [_parse_actions]. *)
Fixpoint parse_action_lines (initial_pot pot : decimal)
    (actionlines : list string) : result (list action * decimal) :=
  match actionlines with
  | [] => OK ([], pot)
  | line :: rest =>
      '(a, pot1) ← parse_action_line initial_pot pot line;
      '(acts, pot2) ← parse_action_lines initial_pot pot1 rest;
      mret (a :: acts, pot2)
  end.

(** [_parse_actions]: the value of [self.actions] and of [self.pot]. *)
Definition _parse_actions (initial_pot pot : decimal)
    (actionlines : list string)
  : result (option (list action) * decimal) :=
  '(acts, pot') ← parse_action_lines initial_pot pot actionlines;
  mret (match acts with [] => None | _ => Some acts end, pot').

(** A line of none of the four shapes. *)
Definition unrecognized (line : string) : Prop :=
  startswith line "Uncalled bet" = false /\
  contains "collected" line = false /\
  contains "doesn't show hand" line = false /\
  contains ":" line = false.

(** [_Flop(flop, initial_pot)] *)
Definition new_Flop (flop : list string) (initial_pot : decimal)
  : result _Flop :=
  boardline ← getitem flop 0;
  cs ← _parse_cards boardline;
  '(acts, pot') ← _parse_actions initial_pot initial_pot
                    (list_slice flop 1 None);
  mret (mk_Flop initial_pot pot' acts cs).

End Flop.
End Flop.

(** ** [class PokerStarsHandHistory] *)

Module PokerStarsHandHistory.
Section PokerStarsHandHistory.
Context {pkg : Package}.

(** The object under construction.  [_splitted] and [_sections] come from
    the base class: the lines of the hand and the indices of the empty
    ones.  Every other attribute is assigned by one of the stages below;
    [None] stands for an attribute that is unset or holds [None]. *)
Record hand : Type := mk_hand {
  _splitted : list string;
  _sections : list Z;
  game_type : option GameType;
  sb : option decimal;
  bb : option decimal;
  buyin : option decimal;
  rake : option decimal;
  date : option datetime;
  game : option Game;
  limit : option Limit;
  ident : option string;
  tournament_ident : option string;
  tournament_level : option string;
  currency : option Currency;
  header_parsed : bool;
  _table_match : option (list string);
  table_name : option string;
  max_players : option Z;
  players : option (list (_Player Combo));
  button : option (_Player Combo);
  hero : option (_Player Combo);
  preflop_actions : option (list string);
  flop : option Flop._Flop;
  turn : option Card;
  river : option Card;
  turn_actions : option (list string);
  river_actions : option (list string);
  show_down : option bool;
  total_pot : option Z;
  winners : option (list string)
}.

(** Assignment to one attribute; all the others are kept. *)
Definition set_game_type (v : option GameType) (h : hand) : hand :=
  {| _splitted := _splitted h; _sections := _sections h; game_type := v;
     sb := sb h; bb := bb h; buyin := buyin h; rake := rake h;
     date := date h; game := game h; limit := limit h; ident := ident h;
     tournament_ident := tournament_ident h;
     tournament_level := tournament_level h; currency := currency h;
     header_parsed := header_parsed h; _table_match := _table_match h;
     table_name := table_name h; max_players := max_players h;
     players := players h; button := button h; hero := hero h;
     preflop_actions := preflop_actions h; flop := flop h; turn := turn h;
     river := river h; turn_actions := turn_actions h;
     river_actions := river_actions h; show_down := show_down h;
     total_pot := total_pot h; winners := winners h |}.

Definition set_sb (v : option decimal) (h : hand) : hand :=
  {| _splitted := _splitted h; _sections := _sections h;
     game_type := game_type h; sb := v; bb := bb h; buyin := buyin h;
     rake := rake h; date := date h; game := game h; limit := limit h;
     ident := ident h; tournament_ident := tournament_ident h;
     tournament_level := tournament_level h; currency := currency h;
     header_parsed := header_parsed h; _table_match := _table_match h;
     table_name := table_name h; max_players := max_players h;
     players := players h; button := button h; hero := hero h;
     preflop_actions := preflop_actions h; flop := flop h; turn := turn h;
     river := river h; turn_actions := turn_actions h;
     river_actions := river_actions h; show_down := show_down h;
     total_pot := total_pot h; winners := winners h |}.

Definition set_bb (v : option decimal) (h : hand) : hand :=
  {| _splitted := _splitted h; _sections := _sections h;
     game_type := game_type h; sb := sb h; bb := v; buyin := buyin h;
     rake := rake h; date := date h; game := game h; limit := limit h;
     ident := ident h; tournament_ident := tournament_ident h;
     tournament_level := tournament_level h; currency := currency h;
     header_parsed := header_parsed h; _table_match := _table_match h;
     table_name := table_name h; max_players := max_players h;
     players := players h; button := button h; hero := hero h;
     preflop_actions := preflop_actions h; flop := flop h; turn := turn h;
     river := river h; turn_actions := turn_actions h;
     river_actions := river_actions h; show_down := show_down h;
     total_pot := total_pot h; winners := winners h |}.

Definition set_buyin (v : option decimal) (h : hand) : hand :=
  {| _splitted := _splitted h; _sections := _sections h;
     game_type := game_type h; sb := sb h; bb := bb h; buyin := v;
     rake := rake h; date := date h; game := game h; limit := limit h;
     ident := ident h; tournament_ident := tournament_ident h;
     tournament_level := tournament_level h; currency := currency h;
     header_parsed := header_parsed h; _table_match := _table_match h;
     table_name := table_name h; max_players := max_players h;
     players := players h; button := button h; hero := hero h;
     preflop_actions := preflop_actions h; flop := flop h; turn := turn h;
     river := river h; turn_actions := turn_actions h;
     river_actions := river_actions h; show_down := show_down h;
     total_pot := total_pot h; winners := winners h |}.

Definition set_rake (v : option decimal) (h : hand) : hand :=
  {| _splitted := _splitted h; _sections := _sections h;
     game_type := game_type h; sb := sb h; bb := bb h; buyin := buyin h;
     rake := v; date := date h; game := game h; limit := limit h;
     ident := ident h; tournament_ident := tournament_ident h;
     tournament_level := tournament_level h; currency := currency h;
     header_parsed := header_parsed h; _table_match := _table_match h;
     table_name := table_name h; max_players := max_players h;
     players := players h; button := button h; hero := hero h;
     preflop_actions := preflop_actions h; flop := flop h; turn := turn h;
     river := river h; turn_actions := turn_actions h;
     river_actions := river_actions h; show_down := show_down h;
     total_pot := total_pot h; winners := winners h |}.

Definition set_date (v : option datetime) (h : hand) : hand :=
  {| _splitted := _splitted h; _sections := _sections h;
     game_type := game_type h; sb := sb h; bb := bb h; buyin := buyin h;
     rake := rake h; date := v; game := game h; limit := limit h;
     ident := ident h; tournament_ident := tournament_ident h;
     tournament_level := tournament_level h; currency := currency h;
     header_parsed := header_parsed h; _table_match := _table_match h;
     table_name := table_name h; max_players := max_players h;
     players := players h; button := button h; hero := hero h;
     preflop_actions := preflop_actions h; flop := flop h; turn := turn h;
     river := river h; turn_actions := turn_actions h;
     river_actions := river_actions h; show_down := show_down h;
     total_pot := total_pot h; winners := winners h |}.

Definition set_game (v : option Game) (h : hand) : hand :=
  {| _splitted := _splitted h; _sections := _sections h;
     game_type := game_type h; sb := sb h; bb := bb h; buyin := buyin h;
     rake := rake h; date := date h; game := v; limit := limit h;
     ident := ident h; tournament_ident := tournament_ident h;
     tournament_level := tournament_level h; currency := currency h;
     header_parsed := header_parsed h; _table_match := _table_match h;
     table_name := table_name h; max_players := max_players h;
     players := players h; button := button h; hero := hero h;
     preflop_actions := preflop_actions h; flop := flop h; turn := turn h;
     river := river h; turn_actions := turn_actions h;
     river_actions := river_actions h; show_down := show_down h;
     total_pot := total_pot h; winners := winners h |}.

Definition set_limit (v : option Limit) (h : hand) : hand :=
  {| _splitted := _splitted h; _sections := _sections h;
     game_type := game_type h; sb := sb h; bb := bb h; buyin := buyin h;
     rake := rake h; date := date h; game := game h; limit := v;
     ident := ident h; tournament_ident := tournament_ident h;
     tournament_level := tournament_level h; currency := currency h;
     header_parsed := header_parsed h; _table_match := _table_match h;
     table_name := table_name h; max_players := max_players h;
     players := players h; button := button h; hero := hero h;
     preflop_actions := preflop_actions h; flop := flop h; turn := turn h;
     river := river h; turn_actions := turn_actions h;
     river_actions := river_actions h; show_down := show_down h;
     total_pot := total_pot h; winners := winners h |}.

Definition set_ident (v : option string) (h : hand) : hand :=
  {| _splitted := _splitted h; _sections := _sections h;
     game_type := game_type h; sb := sb h; bb := bb h; buyin := buyin h;
     rake := rake h; date := date h; game := game h; limit := limit h;
     ident := v; tournament_ident := tournament_ident h;
     tournament_level := tournament_level h; currency := currency h;
     header_parsed := header_parsed h; _table_match := _table_match h;
     table_name := table_name h; max_players := max_players h;
     players := players h; button := button h; hero := hero h;
     preflop_actions := preflop_actions h; flop := flop h; turn := turn h;
     river := river h; turn_actions := turn_actions h;
     river_actions := river_actions h; show_down := show_down h;
     total_pot := total_pot h; winners := winners h |}.

Definition set_tournament_ident (v : option string) (h : hand) : hand :=
  {| _splitted := _splitted h; _sections := _sections h;
     game_type := game_type h; sb := sb h; bb := bb h; buyin := buyin h;
     rake := rake h; date := date h; game := game h; limit := limit h;
     ident := ident h; tournament_ident := v;
     tournament_level := tournament_level h; currency := currency h;
     header_parsed := header_parsed h; _table_match := _table_match h;
     table_name := table_name h; max_players := max_players h;
     players := players h; button := button h; hero := hero h;
     preflop_actions := preflop_actions h; flop := flop h; turn := turn h;
     river := river h; turn_actions := turn_actions h;
     river_actions := river_actions h; show_down := show_down h;
     total_pot := total_pot h; winners := winners h |}.

Definition set_tournament_level (v : option string) (h : hand) : hand :=
  {| _splitted := _splitted h; _sections := _sections h;
     game_type := game_type h; sb := sb h; bb := bb h; buyin := buyin h;
     rake := rake h; date := date h; game := game h; limit := limit h;
     ident := ident h; tournament_ident := tournament_ident h;
     tournament_level := v; currency := currency h;
     header_parsed := header_parsed h; _table_match := _table_match h;
     table_name := table_name h; max_players := max_players h;
     players := players h; button := button h; hero := hero h;
     preflop_actions := preflop_actions h; flop := flop h; turn := turn h;
     river := river h; turn_actions := turn_actions h;
     river_actions := river_actions h; show_down := show_down h;
     total_pot := total_pot h; winners := winners h |}.

Definition set_currency (v : option Currency) (h : hand) : hand :=
  {| _splitted := _splitted h; _sections := _sections h;
     game_type := game_type h; sb := sb h; bb := bb h; buyin := buyin h;
     rake := rake h; date := date h; game := game h; limit := limit h;
     ident := ident h; tournament_ident := tournament_ident h;
     tournament_level := tournament_level h; currency := v;
     header_parsed := header_parsed h; _table_match := _table_match h;
     table_name := table_name h; max_players := max_players h;
     players := players h; button := button h; hero := hero h;
     preflop_actions := preflop_actions h; flop := flop h; turn := turn h;
     river := river h; turn_actions := turn_actions h;
     river_actions := river_actions h; show_down := show_down h;
     total_pot := total_pot h; winners := winners h |}.

Definition set_header_parsed (v : bool) (h : hand) : hand :=
  {| _splitted := _splitted h; _sections := _sections h;
     game_type := game_type h; sb := sb h; bb := bb h; buyin := buyin h;
     rake := rake h; date := date h; game := game h; limit := limit h;
     ident := ident h; tournament_ident := tournament_ident h;
     tournament_level := tournament_level h; currency := currency h;
     header_parsed := v; _table_match := _table_match h;
     table_name := table_name h; max_players := max_players h;
     players := players h; button := button h; hero := hero h;
     preflop_actions := preflop_actions h; flop := flop h; turn := turn h;
     river := river h; turn_actions := turn_actions h;
     river_actions := river_actions h; show_down := show_down h;
     total_pot := total_pot h; winners := winners h |}.

Definition set__table_match (v : option (list string)) (h : hand) : hand :=
  {| _splitted := _splitted h; _sections := _sections h;
     game_type := game_type h; sb := sb h; bb := bb h; buyin := buyin h;
     rake := rake h; date := date h; game := game h; limit := limit h;
     ident := ident h; tournament_ident := tournament_ident h;
     tournament_level := tournament_level h; currency := currency h;
     header_parsed := header_parsed h; _table_match := v;
     table_name := table_name h; max_players := max_players h;
     players := players h; button := button h; hero := hero h;
     preflop_actions := preflop_actions h; flop := flop h; turn := turn h;
     river := river h; turn_actions := turn_actions h;
     river_actions := river_actions h; show_down := show_down h;
     total_pot := total_pot h; winners := winners h |}.

Definition set_table_name (v : option string) (h : hand) : hand :=
  {| _splitted := _splitted h; _sections := _sections h;
     game_type := game_type h; sb := sb h; bb := bb h; buyin := buyin h;
     rake := rake h; date := date h; game := game h; limit := limit h;
     ident := ident h; tournament_ident := tournament_ident h;
     tournament_level := tournament_level h; currency := currency h;
     header_parsed := header_parsed h; _table_match := _table_match h;
     table_name := v; max_players := max_players h; players := players h;
     button := button h; hero := hero h;
     preflop_actions := preflop_actions h; flop := flop h; turn := turn h;
     river := river h; turn_actions := turn_actions h;
     river_actions := river_actions h; show_down := show_down h;
     total_pot := total_pot h; winners := winners h |}.

Definition set_max_players (v : option Z) (h : hand) : hand :=
  {| _splitted := _splitted h; _sections := _sections h;
     game_type := game_type h; sb := sb h; bb := bb h; buyin := buyin h;
     rake := rake h; date := date h; game := game h; limit := limit h;
     ident := ident h; tournament_ident := tournament_ident h;
     tournament_level := tournament_level h; currency := currency h;
     header_parsed := header_parsed h; _table_match := _table_match h;
     table_name := table_name h; max_players := v; players := players h;
     button := button h; hero := hero h;
     preflop_actions := preflop_actions h; flop := flop h; turn := turn h;
     river := river h; turn_actions := turn_actions h;
     river_actions := river_actions h; show_down := show_down h;
     total_pot := total_pot h; winners := winners h |}.

Definition set_players (v : option (list (_Player Combo))) (h : hand) : hand :=
  {| _splitted := _splitted h; _sections := _sections h;
     game_type := game_type h; sb := sb h; bb := bb h; buyin := buyin h;
     rake := rake h; date := date h; game := game h; limit := limit h;
     ident := ident h; tournament_ident := tournament_ident h;
     tournament_level := tournament_level h; currency := currency h;
     header_parsed := header_parsed h; _table_match := _table_match h;
     table_name := table_name h; max_players := max_players h;
     players := v; button := button h; hero := hero h;
     preflop_actions := preflop_actions h; flop := flop h; turn := turn h;
     river := river h; turn_actions := turn_actions h;
     river_actions := river_actions h; show_down := show_down h;
     total_pot := total_pot h; winners := winners h |}.

Definition set_button (v : option (_Player Combo)) (h : hand) : hand :=
  {| _splitted := _splitted h; _sections := _sections h;
     game_type := game_type h; sb := sb h; bb := bb h; buyin := buyin h;
     rake := rake h; date := date h; game := game h; limit := limit h;
     ident := ident h; tournament_ident := tournament_ident h;
     tournament_level := tournament_level h; currency := currency h;
     header_parsed := header_parsed h; _table_match := _table_match h;
     table_name := table_name h; max_players := max_players h;
     players := players h; button := v; hero := hero h;
     preflop_actions := preflop_actions h; flop := flop h; turn := turn h;
     river := river h; turn_actions := turn_actions h;
     river_actions := river_actions h; show_down := show_down h;
     total_pot := total_pot h; winners := winners h |}.

Definition set_hero (v : option (_Player Combo)) (h : hand) : hand :=
  {| _splitted := _splitted h; _sections := _sections h;
     game_type := game_type h; sb := sb h; bb := bb h; buyin := buyin h;
     rake := rake h; date := date h; game := game h; limit := limit h;
     ident := ident h; tournament_ident := tournament_ident h;
     tournament_level := tournament_level h; currency := currency h;
     header_parsed := header_parsed h; _table_match := _table_match h;
     table_name := table_name h; max_players := max_players h;
     players := players h; button := button h; hero := v;
     preflop_actions := preflop_actions h; flop := flop h; turn := turn h;
     river := river h; turn_actions := turn_actions h;
     river_actions := river_actions h; show_down := show_down h;
     total_pot := total_pot h; winners := winners h |}.

Definition set_preflop_actions (v : option (list string)) (h : hand) : hand :=
  {| _splitted := _splitted h; _sections := _sections h;
     game_type := game_type h; sb := sb h; bb := bb h; buyin := buyin h;
     rake := rake h; date := date h; game := game h; limit := limit h;
     ident := ident h; tournament_ident := tournament_ident h;
     tournament_level := tournament_level h; currency := currency h;
     header_parsed := header_parsed h; _table_match := _table_match h;
     table_name := table_name h; max_players := max_players h;
     players := players h; button := button h; hero := hero h;
     preflop_actions := v; flop := flop h; turn := turn h;
     river := river h; turn_actions := turn_actions h;
     river_actions := river_actions h; show_down := show_down h;
     total_pot := total_pot h; winners := winners h |}.

Definition set_flop (v : option Flop._Flop) (h : hand) : hand :=
  {| _splitted := _splitted h; _sections := _sections h;
     game_type := game_type h; sb := sb h; bb := bb h; buyin := buyin h;
     rake := rake h; date := date h; game := game h; limit := limit h;
     ident := ident h; tournament_ident := tournament_ident h;
     tournament_level := tournament_level h; currency := currency h;
     header_parsed := header_parsed h; _table_match := _table_match h;
     table_name := table_name h; max_players := max_players h;
     players := players h; button := button h; hero := hero h;
     preflop_actions := preflop_actions h; flop := v; turn := turn h;
     river := river h; turn_actions := turn_actions h;
     river_actions := river_actions h; show_down := show_down h;
     total_pot := total_pot h; winners := winners h |}.

Definition set_turn (v : option Card) (h : hand) : hand :=
  {| _splitted := _splitted h; _sections := _sections h;
     game_type := game_type h; sb := sb h; bb := bb h; buyin := buyin h;
     rake := rake h; date := date h; game := game h; limit := limit h;
     ident := ident h; tournament_ident := tournament_ident h;
     tournament_level := tournament_level h; currency := currency h;
     header_parsed := header_parsed h; _table_match := _table_match h;
     table_name := table_name h; max_players := max_players h;
     players := players h; button := button h; hero := hero h;
     preflop_actions := preflop_actions h; flop := flop h; turn := v;
     river := river h; turn_actions := turn_actions h;
     river_actions := river_actions h; show_down := show_down h;
     total_pot := total_pot h; winners := winners h |}.

Definition set_river (v : option Card) (h : hand) : hand :=
  {| _splitted := _splitted h; _sections := _sections h;
     game_type := game_type h; sb := sb h; bb := bb h; buyin := buyin h;
     rake := rake h; date := date h; game := game h; limit := limit h;
     ident := ident h; tournament_ident := tournament_ident h;
     tournament_level := tournament_level h; currency := currency h;
     header_parsed := header_parsed h; _table_match := _table_match h;
     table_name := table_name h; max_players := max_players h;
     players := players h; button := button h; hero := hero h;
     preflop_actions := preflop_actions h; flop := flop h; turn := turn h;
     river := v; turn_actions := turn_actions h;
     river_actions := river_actions h; show_down := show_down h;
     total_pot := total_pot h; winners := winners h |}.

Definition set_turn_actions (v : option (list string)) (h : hand) : hand :=
  {| _splitted := _splitted h; _sections := _sections h;
     game_type := game_type h; sb := sb h; bb := bb h; buyin := buyin h;
     rake := rake h; date := date h; game := game h; limit := limit h;
     ident := ident h; tournament_ident := tournament_ident h;
     tournament_level := tournament_level h; currency := currency h;
     header_parsed := header_parsed h; _table_match := _table_match h;
     table_name := table_name h; max_players := max_players h;
     players := players h; button := button h; hero := hero h;
     preflop_actions := preflop_actions h; flop := flop h; turn := turn h;
     river := river h; turn_actions := v; river_actions := river_actions h;
     show_down := show_down h; total_pot := total_pot h;
     winners := winners h |}.

Definition set_river_actions (v : option (list string)) (h : hand) : hand :=
  {| _splitted := _splitted h; _sections := _sections h;
     game_type := game_type h; sb := sb h; bb := bb h; buyin := buyin h;
     rake := rake h; date := date h; game := game h; limit := limit h;
     ident := ident h; tournament_ident := tournament_ident h;
     tournament_level := tournament_level h; currency := currency h;
     header_parsed := header_parsed h; _table_match := _table_match h;
     table_name := table_name h; max_players := max_players h;
     players := players h; button := button h; hero := hero h;
     preflop_actions := preflop_actions h; flop := flop h; turn := turn h;
     river := river h; turn_actions := turn_actions h; river_actions := v;
     show_down := show_down h; total_pot := total_pot h;
     winners := winners h |}.

Definition set_show_down (v : option bool) (h : hand) : hand :=
  {| _splitted := _splitted h; _sections := _sections h;
     game_type := game_type h; sb := sb h; bb := bb h; buyin := buyin h;
     rake := rake h; date := date h; game := game h; limit := limit h;
     ident := ident h; tournament_ident := tournament_ident h;
     tournament_level := tournament_level h; currency := currency h;
     header_parsed := header_parsed h; _table_match := _table_match h;
     table_name := table_name h; max_players := max_players h;
     players := players h; button := button h; hero := hero h;
     preflop_actions := preflop_actions h; flop := flop h; turn := turn h;
     river := river h; turn_actions := turn_actions h;
     river_actions := river_actions h; show_down := v;
     total_pot := total_pot h; winners := winners h |}.

Definition set_total_pot (v : option Z) (h : hand) : hand :=
  {| _splitted := _splitted h; _sections := _sections h;
     game_type := game_type h; sb := sb h; bb := bb h; buyin := buyin h;
     rake := rake h; date := date h; game := game h; limit := limit h;
     ident := ident h; tournament_ident := tournament_ident h;
     tournament_level := tournament_level h; currency := currency h;
     header_parsed := header_parsed h; _table_match := _table_match h;
     table_name := table_name h; max_players := max_players h;
     players := players h; button := button h; hero := hero h;
     preflop_actions := preflop_actions h; flop := flop h; turn := turn h;
     river := river h; turn_actions := turn_actions h;
     river_actions := river_actions h; show_down := show_down h;
     total_pot := v; winners := winners h |}.

Definition set_winners (v : option (list string)) (h : hand) : hand :=
  {| _splitted := _splitted h; _sections := _sections h;
     game_type := game_type h; sb := sb h; bb := bb h; buyin := buyin h;
     rake := rake h; date := date h; game := game h; limit := limit h;
     ident := ident h; tournament_ident := tournament_ident h;
     tournament_level := tournament_level h; currency := currency h;
     header_parsed := header_parsed h; _table_match := _table_match h;
     table_name := table_name h; max_players := max_players h;
     players := players h; button := button h; hero := hero h;
     preflop_actions := preflop_actions h; flop := flop h; turn := turn h;
     river := river h; turn_actions := turn_actions h;
     river_actions := river_actions h; show_down := show_down h;
     total_pot := total_pot h; winners := v |}.

(** Reading an attribute that may not be there yet. *)
Definition attr {A} (o : option A) : result A :=
  match o with
  | Some a => OK a
  | None => Raise AttributeError
  end.

(** [m.group(i)] on the result of [pattern.match]: [None] has no
    [group]. *)
Definition mgroup (m : option (list string)) (i : nat) : result string :=
  match m with
  | Some g => OK (group g i)
  | None => Raise AttributeError
  end.

(** *** The patterns *)

(** The verbose pattern [_header_re]; blanks and comments of the verbose
    layout are not part of it, [[ ]] is a space. *)
Definition _header_re : list node :=
  [NBol] ++ lit "PokerStars "
  ++ lit "Hand #" ++ [NOpen; NStar CDigit; NClose] ++ lit ": "
  ++ [NOpen] ++ lit "Tournament" ++ [NClose] ++ lit " "
  ++ lit "#" ++ [NOpen; NStar CDigit; NClose] ++ lit ", "
  ++ lit "$" ++ [NOpen; NStar CDigit; NChar "."; NCls CDigit; NCls CDigit;
                 NClose] ++ lit "+"
  ++ lit "$" ++ [NOpen; NStar CDigit; NChar "."; NCls CDigit; NCls CDigit;
                 NClose] ++ lit " "
  ++ [NOpen; NAlt ["USD"; "EUR"]; NClose] ++ lit " "
  ++ [NOpen; NStar CAny; NClose] ++ lit " "
  ++ [NOpen] ++ lit "No Limit" ++ [NClose] ++ lit " "
  ++ lit "- Level " ++ [NOpen; NStar CAny; NClose] ++ lit " "
  ++ lit "(" ++ [NOpen; NStar CAny; NClose] ++ lit "/"
  ++ [NOpen; NStar CAny; NClose] ++ lit ") "
  ++ lit "- " ++ [NStar CAny] ++ lit " "
  ++ lit "[" ++ [NOpen; NStar CAny; NClose] ++ lit "]" ++ [NEol].

(** The named groups of [_header_re], by number. *)
Definition g_ident : nat := 1.
Definition g_game_type : nat := 2.
Definition g_tournament_ident : nat := 3.
Definition g_buyin : nat := 4.
Definition g_rake : nat := 5.
Definition g_currency : nat := 6.
Definition g_game : nat := 7.
Definition g_limit : nat := 8.
Definition g_tournament_level : nat := 9.
Definition g_sb : nat := 10.
Definition g_bb : nat := 11.
Definition g_date : nat := 12.

(** [_table_re], the table line: [^], "Table '", any text, "' ", one
    digit, "-max Seat #", one digit, " is the button", [$]. *)
Definition _table_re : list node :=
  [NBol] ++ lit "Table '" ++ [NOpen; NStar CAny; NClose] ++ lit "' "
  ++ [NOpen; NCls CDigit; NClose] ++ lit "-max Seat #"
  ++ [NOpen; NCls CDigit; NClose] ++ lit " is the button" ++ [NEol].

Definition g_button : nat := 3.

(** [_seat_re], a seat line: [^], "Seat ", one digit, ": ", any text,
    " (", digits, " in chips)", [$]. *)
Definition _seat_re : list node :=
  [NBol] ++ lit "Seat " ++ [NOpen; NCls CDigit; NClose] ++ lit ": "
  ++ [NOpen; NStar CAny; NClose] ++ lit " ("
  ++ [NOpen; NStar CDigit; NClose] ++ lit " in chips)" ++ [NEol].

Definition g_seat : nat := 1.
Definition g_name : nat := 2.
Definition g_stack : nat := 3.

(** [_hero_re], the hole cards of the hero: [^], "Dealt to ", any text,
    " [", two characters, " ", two characters, "]", [$]. *)
Definition _hero_re : list node :=
  [NBol] ++ lit "Dealt to " ++ [NOpen; NStar CAny; NClose] ++ lit " ["
  ++ [NOpen; NCls CAny; NCls CAny; NClose] ++ lit " "
  ++ [NOpen; NCls CAny; NCls CAny; NClose] ++ lit "]" ++ [NEol].

Definition g_hero_name : nat := 1.

(** [_pot_re], the pot line of the summary: [^], "Total pot ", digits,
    " ", any text, "| Rake ", digits, [$]. *)
Definition _pot_re : list node :=
  [NBol] ++ lit "Total pot " ++ [NOpen; NStar CDigit; NClose] ++ lit " "
  ++ [NStar CAny] ++ lit "| Rake " ++ [NOpen; NStar CDigit; NClose]
  ++ [NEol].

(** [_winner_re], a summary line of a seat that collected: [^], "Seat ",
    one digit, ": ", any text, " collected (", digits, ")", [$]. *)
Definition _winner_re : list node :=
  [NBol] ++ lit "Seat " ++ [NOpen; NCls CDigit; NClose] ++ lit ": "
  ++ [NOpen; NStar CAny; NClose] ++ lit " collected ("
  ++ [NOpen; NStar CDigit; NClose] ++ lit ")" ++ [NEol].

(** [_showdown_re], a summary line of a seat that showed and won: [^],
    "Seat ", one digit, ": ", any text, " showed ", any text,
    " and won"; there is no end anchor. *)
Definition _showdown_re : list node :=
  [NBol] ++ lit "Seat " ++ [NOpen; NCls CDigit; NClose] ++ lit ": "
  ++ [NOpen; NStar CAny; NClose] ++ lit " showed " ++ [NStar CAny]
  ++ lit " and won".

(** [_board_re]: after an opening bracket or a space, two characters,
    before a closing bracket or a space. *)
Definition _board_re : list node :=
  [NBehind (CSet ["["; " "]%char); NOpen; NCls CAny; NCls CAny; NClose;
   NAhead (CSet ["]"; " "]%char)].

(** *** The stages *)

Definition parse_header (self : hand) : result hand :=
  header_line ← getitem (_splitted self) 0;
  let match_ := re_match _header_re header_line in
  s ← mgroup match_ g_game_type; v ← GameType_of s;
  let self := set_game_type (Some v) self in
  s ← mgroup match_ g_sb; v ← Decimal s;
  let self := set_sb (Some v) self in
  s ← mgroup match_ g_bb; v ← Decimal s;
  let self := set_bb (Some v) self in
  s ← mgroup match_ g_buyin; v ← Decimal s;
  let self := set_buyin (Some v) self in
  s ← mgroup match_ g_rake; v ← Decimal s;
  let self := set_rake (Some v) self in
  s ← mgroup match_ g_date; v ← _parse_date s;
  let self := set_date (Some v) self in
  s ← mgroup match_ g_game; v ← Game_of s;
  let self := set_game (Some v) self in
  s ← mgroup match_ g_limit; v ← Limit_of s;
  let self := set_limit (Some v) self in
  s ← mgroup match_ g_ident;
  let self := set_ident (Some s) self in
  s ← mgroup match_ g_tournament_ident;
  let self := set_tournament_ident (Some s) self in
  s ← mgroup match_ g_tournament_level;
  let self := set_tournament_level (Some s) self in
  s ← mgroup match_ g_currency; v ← Currency_of s;
  let self := set_currency (Some v) self in
  mret (set_header_parsed true self).

Definition _parse_table (self : hand) : result hand :=
  line ← getitem (_splitted self) 1;
  let m := re_match _table_re line in
  let self := set__table_match m self in
  s ← mgroup m 1;
  let self := set_table_name (Some s) self in
  s ← mgroup m 2; n ← int s;
  mret (set_max_players (Some n) self).

(** One turn of the loop of [_parse_players] for a line the seat pattern
    matched with groups [m]. *)
Definition seat_player (m : list string) (ps : list (_Player Combo))
  : result (list (_Player Combo)) :=
  seat_n ← int (group m g_seat);
  let index := seat_n - 1 in
  stack_n ← int (group m g_stack);
  seat_n' ← int (group m g_seat);
  setitem ps index (mk_Player (group m g_name) stack_n seat_n' None).

(** The loop of [_parse_players]; it ends at the first line the seat
    pattern does not match. *)
Fixpoint seat_lines (lines : list string) (ps : list (_Player Combo))
  : result (list (_Player Combo)) :=
  match lines with
  | [] => OK ps
  | line :: rest =>
      match re_match _seat_re line with
      | None => OK ps
      | Some m => ps' ← seat_player m ps; seat_lines rest ps'
      end
  end.

(** What a line says when read as a seat line: the seat number and the
    player, when the seat pattern matches and both numbers decode. *)
Definition seat_line (line : string) : option (Z * _Player Combo) :=
  match re_match _seat_re line with
  | Some m =>
      match int (group m g_seat), int (group m g_stack) with
      | OK n, OK s => Some (n, mk_Player (group m g_name) s n None)
      | _, _ => None
      end
  | None => None
  end.


Definition _parse_players (self : hand) : result hand :=
  n ← attr (max_players self);
  let ps := _init_seats n in
  ps' ← seat_lines (list_slice (_splitted self) 2 None) ps;
  mret (set_players (Some ps') self).

Definition _parse_button (self : hand) : result hand :=
  s ← mgroup (_table_match self) g_button;
  button_seat ← int s;
  ps ← attr (players self);
  b ← getitem ps (button_seat - 1);
  mret (set_button (Some b) self).

Definition _parse_hero (self : hand) : result hand :=
  s0 ← getitem (_sections self) 0;
  hole_cards_line ← getitem (_splitted self) (s0 + 2);
  let m := re_match _hero_re hole_cards_line in
  hero_name ← mgroup m g_hero_name;
  ps ← attr (players self);
  '(hero0, hero_index) ← _get_hero_from_players ps hero_name;
  c1 ← mgroup m 2;
  c2 ← mgroup m 3;
  cb ← Combo_of (c1 ++ c2)%string;
  let hero1 := _replace_combo hero0 cb in
  ps' ← setitem ps hero_index hero1;
  let self := set_hero (Some hero1) (set_players (Some ps') self) in
  b ← attr (button self);
  if String.eqb (name b) (name hero1)
  then mret (set_button (Some hero1) self)
  else mret self.

(** Returns the object and [initial_pot]. *)
Definition _parse_preflop (self : hand) : result (hand * decimal) :=
  s0 ← getitem (_sections self) 0;
  s1 ← getitem (_sections self) 1;
  let start := s0 + 3 in
  let stop := s1 in
  let self :=
    set_preflop_actions
      (Some (list_slice (_splitted self) start (Some stop))) self in
  mret (self, dec_of_int 0).

Definition _parse_flop (self : hand) (initial_pot : decimal) : result hand :=
  match list_index (_splitted self) "FLOP" with
  | Raise ValueError => mret (set_flop None self)
  | Raise e => Raise e
  | OK i =>
      let start := i + 1 in
      stop ← list_index_from (_splitted self) "" start;
      let floplines := list_slice (_splitted self) start (Some stop) in
      f ← Flop.new_Flop floplines initial_pot;
      mret (set_flop (Some f) self)
  end.

(** The two streets [_parse_street] is called for, and the attributes
    [setattr] reaches through their names. *)
Inductive street : Set := turn_street | river_street.

Definition street_upper (st : street) : string :=
  match st with turn_street => "TURN" | river_street => "RIVER" end.

Definition set_street (st : street) (v : option Card) : hand -> hand :=
  match st with turn_street => set_turn v | river_street => set_river v end.

Definition set_street_actions (st : street) (v : option (list string))
  : hand -> hand :=
  match st with
  | turn_street => set_turn_actions v
  | river_street => set_river_actions v
  end.

(** [getattr(self, street)] and [getattr(self, street + '_actions')] *)
Definition get_street (st : street) (h : hand) : option Card :=
  match st with turn_street => turn h | river_street => river h end.

Definition get_street_actions (st : street) (h : hand)
  : option (list string) :=
  match st with
  | turn_street => turn_actions h
  | river_street => river_actions h
  end.

(** The body of the [try] of [_parse_street]. *)
Definition street_lines (self : hand) (st : street) : result (list string) :=
  i ← list_index (_splitted self) (street_upper st);
  let start := i + 2 in
  stop ← list_index_from (_splitted self) "" start;
  mret (list_slice (_splitted self) start (Some stop)).

Definition _parse_street (self : hand) (st : street) : result hand :=
  match street_lines self st with
  | OK street_actions =>
      mret (set_street_actions st
              (match street_actions with
               | [] => None
               | _ => Some street_actions
               end) self)
  | Raise ValueError =>
      mret (set_street_actions st None (set_street st None self))
  | Raise e => Raise e
  end.

Definition _parse_showdown (self : hand) : result hand :=
  mret (set_show_down (Some (list_contains "SHOW DOWN" (_splitted self))) self).

Definition _parse_pot (self : hand) : result hand :=
  sl ← getitem (_sections self) (-1);
  potline ← getitem (_splitted self) (sl + 2);
  let m := re_match _pot_re potline in
  s ← mgroup m 1;
  n ← int s;
  mret (set_total_pot (Some n) self).

Definition _parse_board (self : hand) : result hand :=
  sl ← getitem (_sections self) (-1);
  boardline ← getitem (_splitted self) (sl + 3);
  if negb (startswith boardline "Board") then mret self
  else
    let cards := findall _board_re boardline in
    t ← (if 3 <? Z.of_nat (List.length cards)
         then c ← getitem cards 3; k ← Card_of c; mret (Some k)
         else mret None);
    let self := set_turn t self in
    r ← (if 4 <? Z.of_nat (List.length cards)
         then c ← getitem cards 4; k ← Card_of c; mret (Some k)
         else mret None);
    mret (set_river r self).

(** One turn of the loop of [_parse_winners]. *)
Definition winner_line (self : hand) (line : string) (winners : gset string)
  : result (gset string) :=
  sd ← attr (show_down self);
  if negb sd && contains "collected" line then
    s ← mgroup (re_match _winner_re line) 2;
    mret ({[ s ]} ∪ winners)
  else
    if sd && contains "won" line then
      s ← mgroup (re_match _showdown_re line) 2;
      mret ({[ s ]} ∪ winners)
    else mret winners.

Fixpoint winner_lines (self : hand) (lines : list string)
    (winners : gset string) : result (gset string) :=
  match lines with
  | [] => OK winners
  | line :: rest =>
      w ← winner_line self line winners;
      winner_lines self rest w
  end.

Definition _parse_winners (self : hand) : result hand :=
  sl ← getitem (_sections self) (-1);
  let start := sl + 4 in
  w ← winner_lines self (list_slice (_splitted self) start None) ∅;
  mret (set_winners (Some (elements w)) self).


(** The marker and the pattern of the branch [_parse_winners] takes. *)
Definition winner_marker (sd : bool) : string :=
  if sd then "won" else "collected".

Definition winner_pattern (sd : bool) : list node :=
  if sd then _showdown_re else _winner_re.

(** [nm] is captured from [line], a line that carries the marker. *)
Definition captured (sd : bool) (line nm : string) : Prop :=
  contains (winner_marker sd) line = true /\
  exists m, re_match (winner_pattern sd) line = Some m /\ group m 2 = nm.

(** The card at index [i] of the tokens, or nothing when there are not
    that many: [Card(cards[i]) if len(cards) > i else None]. *)
Definition card_at (cards : list string) (i : nat) : result (option Card) :=
  match cards !! i with
  | Some c => k ← Card_of c; mret (Some k)
  | None => OK None
  end.

(** A token of the board line: two characters between a bracket or space
    and a bracket or space. *)
Definition board_token (line t : string) : Prop :=
  exists pre a c1 c2 b post,
    line = (pre ++ String a (String c1 (String c2 (String b post))))%string /\
    t = String c1 (String c2 EmptyString) /\
    (a = "["%char \/ a = " "%char) /\ (b = "]"%char \/ b = " "%char).

(** Two objects that agree on every attribute but [total_pot]. *)
Definition same_but_total_pot (h h' : hand) : Prop :=
  _splitted h' = _splitted h /\ _sections h' = _sections h /\
  game_type h' = game_type h /\ sb h' = sb h /\ bb h' = bb h /\
  buyin h' = buyin h /\ rake h' = rake h /\ date h' = date h /\
  game h' = game h /\ limit h' = limit h /\ ident h' = ident h /\
  tournament_ident h' = tournament_ident h /\
  tournament_level h' = tournament_level h /\ currency h' = currency h /\
  header_parsed h' = header_parsed h /\ _table_match h' = _table_match h /\
  table_name h' = table_name h /\ max_players h' = max_players h /\
  players h' = players h /\ button h' = button h /\ hero h' = hero h /\
  preflop_actions h' = preflop_actions h /\ flop h' = flop h /\
  turn h' = turn h /\ river h' = river h /\
  turn_actions h' = turn_actions h /\ river_actions h' = river_actions h /\
  show_down h' = show_down h /\ winners h' = winners h.

End PokerStarsHandHistory.
End PokerStarsHandHistory.

(** ** A package to run the parser with

    Cards, combos and enumeration members are kept as the text they are
    built from; an empty seat is a player without a name; the hero is
    the first player of that name. *)

Fixpoint find_player {Combo} (ps : list (_Player Combo)) (nm : string)
    (i : Z) : result (_Player Combo * Z) :=
  match ps with
  | [] => Raise ValueError
  | p :: ps' =>
      if String.eqb (name p) nm then OK (p, i) else find_player ps' nm (i + 1)
  end.

Definition empty_seat : _Player string := mk_Player "" 0 0 None.

Program Definition sample_package : Package := {|
  Card := string; Card_of := OK;
  Combo := string; Combo_of := OK;
  Action := string;
  RETURN := "return"; WIN := "win"; MUCK := "muck";
  Action_of := OK;
  GameType := string; GameType_of := OK;
  Game := string; Game_of := OK;
  Limit := string; Limit_of := OK;
  Currency := string; Currency_of := OK;
  datetime := string; _parse_date := OK;
  _init_seats := fun n => replicate (Z.to_nat n) empty_seat;
  _get_hero_from_players := fun ps nm => find_player ps nm 0
|}.
Next Obligation. intros n Hn. simpl. rewrite length_replicate. lia. Qed.
Next Obligation.
  intros ps nm.
  assert (H : forall i p j, 0 <= i -> find_player ps nm i = OK (p, j) ->
            i <= j /\ ps !! Z.to_nat (j - i) = Some p /\ name p = nm).
  { induction ps as [|q ps IH]; intros i p j Hi H; simpl in H;
      [discriminate|].
    destruct (String.eqb_spec (name q) nm) as [E|E].
    - inversion H; subst. replace (j - j) with 0 by lia. simpl.
      auto with lia.
    - apply IH in H; [|lia]. destruct H as (H1 & H2 & H3).
      split; [lia|]. split; [|exact H3].
      replace (Z.to_nat (j - i)) with (S (Z.to_nat (j - (i + 1)))) by lia.
      exact H2. }
  intros p i Hf. apply H in Hf; [|lia].
  replace (i - 0) with i in Hf by lia. destruct Hf as (H1 & H2 & H3). auto.
Qed.

Section SampleHands.
#[local] Existing Instance sample_package.
Import PokerStarsHandHistory.

(** An object on which no stage has run yet. *)
Definition blank_hand (lines : list string) (secs : list Z) : hand :=
  mk_hand lines secs None None None None None None None None None None None
    None false None None None None None None None None None None None None
    None None None.

Definition run_stage (r : result hand) (d : hand) : hand :=
  match r with OK h => h | Raise _ => d end.

(** A hand that ends on the flop, without show-down. *)
Definition sample_lines : list string :=
  ["PokerStars Hand #105024000105: Tournament #797469411, $3.19+$0.31 USD Hold'em No Limit - Level I (10/20) - 2013/10/04 19:18:18 CET [2013/10/04 13:18:18 ET]";
   "Table '797469411 15' 9-max Seat #1 is the button";
   "Seat 1: flettl2 (1500 in chips)";
   "Seat 2: santy312 (3000 in chips)";
   "Seat 5: W2lkm2n (3000 in chips)";
   "santy312: posts small blind 10";
   "";
   "HOLE CARDS";
   "Dealt to W2lkm2n [Ac Jh]";
   "flettl2: folds";
   "W2lkm2n: raises 40 to 60";
   "santy312: calls 50";
   "";
   "FLOP";
   "[2s 6d 6h]";
   "W2lkm2n: bets 80";
   "santy312: folds";
   "Uncalled bet (80) returned to W2lkm2n";
   "W2lkm2n collected 150 from pot";
   "W2lkm2n: doesn't show hand";
   "";
   "SUMMARY";
   "Total pot 150 | Rake 0";
   "Board [2s 6d 6h]";
   "Seat 1: flettl2 (button) folded before Flop (didn't bet)";
   "Seat 5: W2lkm2n collected (150)"].

Definition sample_hand : hand := blank_hand sample_lines [6; 12; 20].

(** The sample hand once the table line has been read. *)
Definition seated_hand : hand := set_max_players (Some 9) sample_hand.

(** ... and once the show-down flag has been set. *)
Definition flagged_hand : hand := set_show_down (Some false) sample_hand.

(** A table of nine where the first seat line names seat 10. *)
Definition late_seat_hand : hand :=
  set_max_players (Some 9)
    (blank_hand
       ["PokerStars Hand #1: Tournament #2, $3.19+$0.31 USD Hold'em No Limit - Level I (10/20) - 2013/10/04 19:18:18 CET [2013/10/04 13:18:18 ET]";
        "Table '797469411 15' 9-max Seat #1 is the button";
        "Seat 10: STBIJUJA (1500 in chips)";
        "Seat 1: flettl2 (1500 in chips)"] []).

(** ... and once the header has been read. *)
Definition headed_hand : hand :=
  Eval vm_compute in run_stage (parse_header sample_hand) sample_hand.

Definition ten_dollar_header : string :=
  "PokerStars Hand #105024000105: Tournament #797469411, $10.00+$1.00 USD Hold'em No Limit - Level I (10/20) - 2013/10/04 19:18:18 CET [2013/10/04 13:18:18 ET]".

Definition ten_dollar_hand : hand := blank_hand [ten_dollar_header] [].

(** A hand that goes to the river and is split at the show-down; the
    hero is on the button. *)
Definition showdown_lines : list string :=
  ["PokerStars Hand #105024000105: Tournament #797469411, $3.19+$0.31 USD Hold'em No Limit - Level I (10/20) - 2013/10/04 19:18:18 CET [2013/10/04 13:18:18 ET]";
   "Table '797469411 15' 9-max Seat #5 is the button";
   "Seat 2: santy312 (3000 in chips)";
   "Seat 5: W2lkm2n (3000 in chips)";
   "santy312: posts small blind 10";
   "";
   "HOLE CARDS";
   "Dealt to W2lkm2n [Ac Jh]";
   "W2lkm2n: calls 10";
   "santy312: checks";
   "";
   "FLOP";
   "[2s 6d 6h]";
   "santy312: checks";
   "W2lkm2n: checks";
   "";
   "TURN";
   "[2s 6d 6h] [4s]";
   "santy312: checks";
   "W2lkm2n: checks";
   "";
   "RIVER";
   "[2s 6d 6h 4s] [Kc]";
   "santy312: bets 55";
   "W2lkm2n: calls 55";
   "";
   "SHOW DOWN";
   "santy312: shows [Ad Js] (a pair of Sixes)";
   "W2lkm2n: shows [Ac Jh] (a pair of Sixes)";
   "santy312 collected 75 from pot";
   "W2lkm2n collected 75 from pot";
   "";
   "SUMMARY";
   "Total pot 150 | Rake 0";
   "Board [2s 6d 6h 4s Kc]";
   "Seat 2: santy312 (small blind) showed [Ad Js] and won (75) with a pair of Sixes";
   "Seat 5: W2lkm2n (button) showed [Ac Jh] and won (75) with a pair of Sixes"].

Definition showdown_hand : hand :=
  blank_hand showdown_lines [5; 10; 15; 20; 25; 31].

(** The show-down hand after the stages up to [_parse_button], ... *)
Definition showdown_seated : hand :=
  Eval vm_compute in
    run_stage
      (h ← parse_header showdown_hand; h ← _parse_table h;
       h ← _parse_players h; _parse_button h)
      showdown_hand.

(** ... after [_parse_hero], ... *)
Definition showdown_dealt : hand :=
  Eval vm_compute in run_stage (_parse_hero showdown_seated) showdown_hand.

(** ... after the stages up to [_parse_pot], ... *)
Definition showdown_summed : hand :=
  Eval vm_compute in
    run_stage
      ('(h, ip) ← _parse_preflop showdown_dealt;
       h ← _parse_flop h ip;
       h ← _parse_street h turn_street;
       h ← _parse_street h river_street;
       h ← _parse_showdown h;
       _parse_pot h)
      showdown_hand.

(** ... after [_parse_board] and after [_parse_winners]. *)
Definition showdown_boarded : hand :=
  Eval vm_compute in run_stage (_parse_board showdown_summed) showdown_hand.

Definition showdown_parsed : hand :=
  Eval vm_compute in run_stage (_parse_winners showdown_boarded) showdown_hand.

End SampleHands.


(** ** Lines in the room's format *)

Section Formats.
Context {pkg : Package}.
Import PokerStarsHandHistory.

(** [l] is the summary line "Seat d: nm collected (amt)": a seat digit,
    a text without line break and an amount in digits. *)
Definition collected_summary (d : ascii) (nm amt l : string) : Prop :=
  is_digit d = true /\ all_cls CAny nm = true /\ all_digits amt = true /\
  l = ("Seat " ++ String d (": " ++ nm ++ " collected (" ++ amt ++ ")"))%string.

End Formats.

(** A line that takes the collect branch of [_parse_actions]. *)
Definition collects (line : string) : bool :=
  negb (startswith line "Uncalled bet") && contains "collected" line.

(** Two objects with the same lines and the same section boundaries. *)
Definition same_lines {pkg : Package}
    (h h' : PokerStarsHandHistory.hand) : Prop :=
  PokerStarsHandHistory._splitted h' = PokerStarsHandHistory._splitted h /\
  PokerStarsHandHistory._sections h' = PokerStarsHandHistory._sections h.

(** A card as the board line shows it: two characters, neither a space,
    a bracket nor a line break. *)
Definition plain (c : ascii) : bool :=
  negb (existsb (Ascii.eqb c) ["["; " "; "]"; newline]%char).

Definition card_text (c : string) : Prop :=
  exists a b, c = String a (String b "") /\ plain a = true /\ plain b = true.

(** The cards separated by single spaces. *)
Fixpoint spaced (cs : list string) : string :=
  match cs with
  | [] => ""
  | [c] => c
  | c :: cs' => c ++ " " ++ spaced cs'
  end.

(** ** [class Notes]

    Of the notes, kept in an XML tree, only the colour check of
    [add_label] stands on its own. *)
Module Notes.

(** [[0-9A-F]] *)
Definition hex : cls :=
  CSet ["0"; "1"; "2"; "3"; "4"; "5"; "6"; "7"; "8"; "9";
        "A"; "B"; "C"; "D"; "E"; "F"]%char.

(** [_color_re]: [^], six characters of [[0-9A-F]], [$]. *)
Definition _color_re : list node :=
  [NBol; NCls hex; NCls hex; NCls hex; NCls hex; NCls hex; NCls hex; NEol].

(** The test of [add_label] on the upper-cased colour: whether
    [_color_re.match] finds a match. *)
Definition color_matches (color_upper : string) : bool :=
  match re_match _color_re color_upper with
  | Some _ => true
  | None => false
  end.

End Notes.

(** ** More sample data *)

Section MoreSamples.
#[local] Existing Instance sample_package.
Import PokerStarsHandHistory.

(** A flop on which two players collect one after the other. *)
Definition split_flop_lines : list string :=
  ["[2s 6d 6h]";
   "santy312 collected 10 from pot";
   "W2lkm2n: checks";
   "W2lkm2n collected 5 from pot";
   "W2lkm2n: doesn't show hand"].

Definition split_flop : Flop._Flop :=
  Eval vm_compute in
    match Flop.new_Flop split_flop_lines (Dec 100 0) with
    | OK f => f
    | Raise _ => Flop.mk_Flop (Dec 100 0) (Dec 100 0) None ("", "", "")
    end.

(** Lines that end in the middle of the turn, with no empty line after
    the flop. *)
Definition cut_short_hand : hand :=
  blank_hand
    ["FLOP"; "[2s 6d 6h]"; "santy312: checks";
     "TURN"; "[2s 6d 6h] [4s]"; "santy312: checks"] [].

(** A summary after a show-down in which a player who folded has "won"
    in the name. *)
Definition wonder_hand : hand :=
  set_show_down (Some true)
    (blank_hand
       [""; "SUMMARY"; "Total pot 150 | Rake 0"; "Board [2s 6d 6h 4s Kc]";
        "Seat 3: wonder folded before Flop (didn't bet)";
        "Seat 5: W2lkm2n (button) showed [Ac Jh] and won (150) with a pair of Sixes"]
       [0]).

(** A hole cards line that shows three cards. *)
Definition three_card_hand : hand :=
  blank_hand [""; "HOLE CARDS"; "Dealt to W2lkm2n [Ac Jh Td]"] [0].

(** The show-down hand with a line of no known shape among the actions
    before the flop and among those of the turn. *)
Definition chatty_lines : list string :=
  (take 10 showdown_lines ++ ["the dealer shuffles"]
   ++ take 9 (drop 10 showdown_lines) ++ ["the dealer shuffles"]
   ++ drop 19 showdown_lines)%list.

Definition chatty_hand : hand :=
  blank_hand chatty_lines [5; 11; 16; 22; 27; 33].

(** Modelled from the spec: the driver that calls the stages belongs to
    the base class, which is not among the sources.  The object "is
    built once, front-to-back, in pipeline order": header, table and
    seats, hero, streets and actions, board and pot, winners (the
    show-down flag first). *)
Definition all_stages (h : hand) : result hand :=
  h ← parse_header h; h ← _parse_table h; h ← _parse_players h;
  h ← _parse_button h; h ← _parse_hero h;
  '(h, ip) ← _parse_preflop h;
  h ← _parse_flop h ip;
  h ← _parse_street h turn_street; h ← _parse_street h river_street;
  h ← _parse_pot h; h ← _parse_board h;
  h ← _parse_showdown h; _parse_winners h.

(** A hand that ends before the flop: its summary has no board line, and
    the seat lines follow the pot line at once. *)
Definition folded_lines : list string :=
  ["PokerStars Hand #105024000105: Tournament #797469411, $3.19+$0.31 USD Hold'em No Limit - Level I (10/20) - 2013/10/04 19:18:18 CET [2013/10/04 13:18:18 ET]";
   "Table '797469411 15' 9-max Seat #1 is the button";
   "Seat 1: flettl2 (1500 in chips)";
   "Seat 2: santy312 (3000 in chips)";
   "Seat 5: W2lkm2n (3000 in chips)";
   "santy312: posts small blind 10";
   "W2lkm2n: posts big blind 20";
   "";
   "HOLE CARDS";
   "Dealt to W2lkm2n [Ac Jh]";
   "flettl2: raises 40 to 60";
   "santy312: folds";
   "W2lkm2n: folds";
   "Uncalled bet (40) returned to flettl2";
   "flettl2 collected 50 from pot";
   "flettl2: doesn't show hand";
   "";
   "SUMMARY";
   "Total pot 50 | Rake 0";
   "Seat 1: flettl2 (button) collected (50)";
   "Seat 2: santy312 (small blind) folded before Flop";
   "Seat 5: W2lkm2n (big blind) folded before Flop"].

Definition folded_hand : hand := blank_hand folded_lines [7; 16].

(** A header whose small blind is spelled out. *)
Definition worded_blinds_header : string :=
  "PokerStars Hand #105024000105: Tournament #797469411, $10.00+$1.00 USD Hold'em No Limit - Level I (ten/20) - 2013/10/04 19:18:18 CET [2013/10/04 13:18:18 ET]".

End MoreSamples.

(** * Properties *)

Import PokerStarsHandHistory.

(** ** The error monad *)

Lemma bind_OK {A B} (m : result A) (k : A -> result B) (b : B) :
  (x ← m; k x) = OK b -> exists a, m = OK a /\ k a = OK b.
Proof.
  unfold mbind, result_bind, Py.bind. destruct m as [a|e]; [eauto|discriminate].
Qed.

Lemma bind_OK_eq {A B} (m : result A) (k : A -> result B) (a : A) :
  m = OK a -> (x ← m; k x) = k a.
Proof. intros ->. reflexivity. Qed.

Lemma attr_OK {A} (o : option A) (a : A) : attr o = OK a -> o = Some a.
Proof. destruct o; simpl; congruence. Qed.

Lemma mgroup_OK (m : option (list string)) i s :
  mgroup m i = OK s -> exists g, m = Some g /\ s = group g i.
Proof. destruct m; simpl; [|discriminate]. intros [= <-]. eauto. Qed.

Ltac unfold_monad :=
  unfold mbind, result_bind, Py.bind, mret, result_ret in *.

(** ** Strings *)

Lemma substring_0_app (a b : string) :
  String.substring 0 (String.length a) (a ++ b) = a.
Proof.
  induction a as [|c a IH]; simpl; [destruct b; reflexivity|].
  now rewrite IH.
Qed.

Lemma length_app_string (a b : string) :
  String.length (a ++ b) = (String.length a + String.length b)%nat.
Proof. induction a; simpl; auto. Qed.

(** The first occurrence of a space is right after a prefix without one. *)
Lemma find_aux_space (nm rest : string) (i : Z) :
  contains " " nm = false ->
  find_aux " " (nm ++ String " " rest) i 0 = i + Z.of_nat (String.length nm).
Proof.
  revert i. induction nm as [|c nm IH]; intros i H.
  - simpl. lia.
  - simpl in H. apply orb_false_iff in H as [Hc Hn].
    rewrite andb_true_r in Hc.
    simpl. rewrite Hc. simpl. rewrite IH by exact Hn. lia.
Qed.

Lemma str_slice_head (nm rest : string) :
  str_slice (nm ++ rest) None (Some (Z.of_nat (String.length nm))) = nm.
Proof.
  unfold str_slice, slice_bound.
  destruct (Z.ltb_spec (Z.of_nat (String.length nm)) 0); [lia|].
  rewrite length_app_string, Z.min_l, Z.sub_0_r, Nat2Z.id by lia.
  apply substring_0_app.
Qed.

(** ** Decimals *)




Lemma digits_aux_pos (fuel : nat) (n : Z) : 1 <= digits_aux fuel n.
Proof.
  revert n. induction fuel as [|f IH]; intros n; simpl; [lia|].
  destruct (n <? 10); [lia|]. specialize (IH (n / 10)). lia.
Qed.

(** With the fuel [ndigits] gives it, [digits_aux] counts the digits. *)
Lemma digits_aux_spec (fuel : nat) :
  forall n, 0 < n < 2 ^ (Z.of_nat fuel + 1) ->
    10 ^ (digits_aux fuel n - 1) <= n < 10 ^ digits_aux fuel n.
Proof.
  induction fuel as [|f IH]; intros n Hn.
  - simpl in *. lia.
  - simpl digits_aux. destruct (Z.ltb_spec n 10) as [H10|H10].
    + simpl. lia.
    + assert (Hp : 2 ^ (Z.of_nat (S f) + 1) = 2 * 2 ^ (Z.of_nat f + 1))
        by (rewrite <- Z.pow_succ_r by lia; f_equal; lia).
      assert (Hq : 0 < n / 10 < 2 ^ (Z.of_nat f + 1))
        by (split; [apply Z.div_str_pos; lia
                   |apply Z.div_lt_upper_bound; lia]).
      specialize (IH (n / 10) Hq).
      pose proof (digits_aux_pos f (n / 10)) as Hd.
      set (d := digits_aux f (n / 10)) in *.
      replace (1 + d - 1) with (Z.succ (d - 1)) by lia.
      replace (1 + d) with (Z.succ d) by lia.
      rewrite !Z.pow_succ_r by lia.
      pose proof (Z.div_mod n 10 ltac:(lia)) as E.
      pose proof (Z.mod_pos_bound n 10 ltac:(lia)) as B.
      lia.
Qed.

Lemma ndigits_spec (n : Z) :
  0 < n -> 10 ^ (ndigits n - 1) <= n < 10 ^ ndigits n.
Proof.
  intros Hn. apply digits_aux_spec. split; [exact Hn|].
  rewrite Z2Nat.id by apply Z.log2_nonneg.
  replace (Z.log2 n + 1) with (Z.succ (Z.log2 n)) by lia.
  now apply Z.log2_spec.
Qed.





(** ** The action lines of a street *)

(** [l[1:]] of a list with a head is its tail. *)
Lemma list_slice_rest {A} (x : A) (l : list A) :
  list_slice (x :: l) 1 None = l.
Proof.
  unfold list_slice, slice_bound.
  change (1 <? 0) with false. cbv iota.
  rewrite Z.min_l by (simpl List.length; lia).
  replace (Z.to_nat (Z.of_nat (List.length (x :: l)) - 1))
    with (List.length l) by (simpl List.length; lia).
  change (drop (Z.to_nat 1) (x :: l)) with l. apply firstn_all.
Qed.

Section FlopProperties.
Context {pkg : Package}.
Import Flop.

Lemma parse_action_lines_app ip pot (pre post : list string) :
  parse_action_lines ip pot (pre ++ post) =
  ('(acts1, pot1) ← parse_action_lines ip pot pre;
   '(acts2, pot2) ← parse_action_lines ip pot1 post;
   mret ((acts1 ++ acts2)%list, pot2)).
Proof.
  revert pot. induction pre as [|l pre IH]; intros pot; simpl.
  - unfold_monad.
    destruct (parse_action_lines ip pot post) as [[acts2 pot2]|e]; reflexivity.
  - unfold_monad.
    destruct (parse_action_line ip pot l) as [[a pot1]|e]; [|reflexivity].
    rewrite IH.
    destruct (parse_action_lines ip pot1 pre) as [[acts1 pot1']|e];
      [|reflexivity].
    destruct (parse_action_lines ip pot1' post) as [[acts2 pot2]|e];
      reflexivity.
Qed.

Lemma parse_action_lines_length ip pot lines acts pot' :
  parse_action_lines ip pot lines = OK (acts, pot') ->
  List.length acts = List.length lines.
Proof.
  revert pot acts pot'.
  induction lines as [|l lines IH]; intros pot acts pot' H.
  - simpl in H. now inversion H.
  - simpl in H. apply bind_OK in H as ([a pot1] & _ & H).
    apply bind_OK in H as ([acts1 pot2] & H1 & H).
    inversion H; subst. simpl. f_equal. eapply IH, H1.
Qed.

Lemma unrecognized_raises ip pot line :
  unrecognized line -> parse_action_line ip pot line = Raise RuntimeError.
Proof.
  intros (H1 & H2 & H3 & H4). unfold parse_action_line.
  now rewrite H1, H2, H3, H4.
Qed.

Lemma unrecognized_aborts ip pot (pre : list string) line post :
  unrecognized line ->
  (forall r, parse_action_lines ip pot (pre ++ line :: post) <> OK r) /\
  (forall r, parse_action_lines ip pot pre = OK r ->
     parse_action_lines ip pot (pre ++ line :: post) = Raise RuntimeError).
Proof.
  intros U. rewrite parse_action_lines_app. split.
  - intros r H. apply bind_OK in H as ([acts1 pot1] & _ & H).
    apply bind_OK in H as ([acts2 pot2] & H & _).
    simpl in H. now rewrite unrecognized_raises in H.
  - intros [acts1 pot1] ->. simpl. now rewrite unrecognized_raises.
Qed.

Lemma collected_name_head (nm rest : string) :
  contains " " nm = false ->
  collected_name (nm ++ String " " rest) = nm.
Proof.
  intros H. unfold collected_name, find.
  rewrite find_aux_space by exact H. simpl (0 + _).
  apply str_slice_head.
Qed.


(** C2, as amended.  On the action lines of the flop, the only ones that
    are classified, the four shapes are tried in a fixed order and the
    first that fits decides: the uncalled-bet prefix, then "collected",
    then the no-show marker, then a colon, whatever later tests would
    say.  A line of none of the four shapes raises (the bare [raise], a
    RuntimeError): a list of action lines that holds such a line never
    parses (nor does [_parse_actions] on it, nor is a flop object built
    from it), the error is that one as soon as the lines before it
    parse, and a list that parses yields one action per line. *)
Theorem action_line_precedence (ip pot : decimal) (line : string) :
  (startswith line "Uncalled bet" = true ->
   parse_action_line ip pot line = (a ← _parse_uncalled line; mret (a, pot)))
  /\ (startswith line "Uncalled bet" = false ->
      contains "collected" line = true ->
      parse_action_line ip pot line = _parse_collected ip line)
  /\ (startswith line "Uncalled bet" = false ->
      contains "collected" line = false ->
      contains "doesn't show hand" line = true ->
      parse_action_line ip pot line = (a ← _parse_muck line; mret (a, pot)))
  /\ (startswith line "Uncalled bet" = false ->
      contains "collected" line = false ->
      contains "doesn't show hand" line = false ->
      contains ":" line = true ->
      parse_action_line ip pot line
        = (a ← _parse_player_action line; mret (a, pot)))
  /\ (unrecognized line ->
      parse_action_line ip pot line = Raise RuntimeError
      /\ (forall pot0 (pre post : list string) r,
            parse_action_lines ip pot0 (pre ++ line :: post) <> OK r)
      /\ (forall pot0 (pre post : list string) r,
            parse_action_lines ip pot0 pre = OK r ->
            parse_action_lines ip pot0 (pre ++ line :: post)
              = Raise RuntimeError)
      /\ (forall pot0 (pre post : list string) r,
            _parse_actions ip pot0 (pre ++ line :: post) <> OK r)
      /\ (forall boardline (pre post : list string) f,
            new_Flop (boardline :: pre ++ line :: post) ip <> OK f))
  /\ (forall pot0 (lines : list string) acts pot',
        parse_action_lines ip pot0 lines = OK (acts, pot') ->
        List.length acts = List.length lines).
Proof.
  unfold parse_action_line.
  split; [intros ->; reflexivity|].
  split; [intros -> ->; reflexivity|].
  split; [intros -> -> ->; reflexivity|].
  split; [intros -> -> -> ->; reflexivity|].
  split.
  - intros U.
    assert (Hacts : forall pot0 (pre post : list string) r,
              _parse_actions ip pot0 (pre ++ line :: post) <> OK r).
    { intros pot0 pre post r H. unfold _parse_actions in H.
      apply bind_OK in H as (r' & H & _).
      now apply (proj1 (unrecognized_aborts ip pot0 pre line post U) r'). }
    split; [|split; [|split; [|split]]].
    + now apply unrecognized_raises.
    + intros pot0 pre post. now apply unrecognized_aborts.
    + intros pot0 pre post. now apply unrecognized_aborts.
    + exact Hacts.
    + intros boardline pre post f H. unfold new_Flop in H.
      apply bind_OK in H as (b & _ & H).
      apply bind_OK in H as (cs & _ & H).
      apply bind_OK in H as (r & H & _).
      rewrite list_slice_rest in H. now apply (Hacts ip pre post r).
  - intros pot0 lines acts pot'. apply parse_action_lines_length.
Qed.

End FlopProperties.



Lemma action_line_precedence_witness :
  @Flop.parse_action_line sample_package (Dec 0 0) (Dec 0 0)
     "the dealer shuffles" = Raise RuntimeError
  /\ @Flop.parse_action_lines sample_package (Dec 0 0) (Dec 0 0)
       ["W2lkm2n: bets 80"; "the dealer shuffles"; "santy312: folds"]
     = Raise RuntimeError
  /\ @Flop.parse_action_line sample_package (Dec 0 0) (Dec 0 0)
       "Uncalled bet (80) returned to collected: x"
     = OK (("collected: x", "return", Some (Dec 80 0)), Dec 0 0).
Proof.
  pose proof (@action_line_precedence sample_package (Dec 0 0) (Dec 0 0)
                "the dealer shuffles") as (_ & _ & _ & _ & H & _).
  pose proof (@action_line_precedence sample_package (Dec 0 0) (Dec 0 0)
                "Uncalled bet (80) returned to collected: x") as (Hu & _).
  destruct H as (H1 & _ & H3 & _).
  - repeat split; reflexivity.
  - split; [exact H1|]. split.
    + exact (H3 (Dec 0 0) ["W2lkm2n: bets 80"] ["santy312: folds"]
                _ eq_refl).
    + rewrite (Hu eq_refl). reflexivity.
Defined.

(** ** The stages of the hand history *)

Section HandProperties.
Context {pkg : Package}.
Import PokerStarsHandHistory.

Lemma index_aux_absent (x : string) (l : list string) (i : Z) :
  ~ In x l -> index_aux x l i 0 = Raise ValueError.
Proof.
  revert i. induction l as [|y l IH]; intros i H; simpl; [reflexivity|].
  destruct (String.eqb_spec y x) as [->|_].
  - exfalso. apply H. now left.
  - apply IH. intros Hx. apply H. now right.
Qed.

(** C6.  When the line sequence does not hold the keyword of a street,
    parsing that street succeeds and leaves the street and its actions
    unset: [flop] (whose actions live in the flop object) for "FLOP",
    [turn] and [turn_actions] for "TURN", [river] and [river_actions]
    for "RIVER". *)
Theorem absent_street_unset (self : hand) :
  (forall ip, ~ In "FLOP" (_splitted self) ->
     exists self',
       _parse_flop self ip = OK self' /\ flop self' = None /\
       self' = set_flop None self)
  /\ (forall st, ~ In (street_upper st) (_splitted self) ->
        exists self',
          _parse_street self st = OK self' /\
          get_street st self' = None /\ get_street_actions st self' = None /\
          self' = set_street_actions st None (set_street st None self)).
Proof.
  split.
  - intros ip H. exists (set_flop None self). split; [|split].
    + unfold _parse_flop, list_index. now rewrite index_aux_absent.
    + reflexivity.
    + reflexivity.
  - intros st H.
    exists (set_street_actions st None (set_street st None self)).
    split; [|split; [|split]].
    + unfold _parse_street, street_lines, list_index.
      now rewrite index_aux_absent.
    + now destruct st.
    + now destruct st.
    + reflexivity.
Qed.

End HandProperties.

Lemma absent_street_unset_witness :
  exists self',
    @_parse_street sample_package sample_hand turn_street = OK self' /\
    turn self' = None /\ turn_actions self' = None.
Proof.
  destruct (proj2 (@absent_street_unset sample_package sample_hand)
              turn_street) as (self' & H1 & H2 & H3 & _).
  - vm_compute. intuition congruence.
  - exists self'. auto.
Defined.

(** ** The matcher against what a pattern accepts *)

Lemma append_nil_r (s : string) : (s ++ "")%string = s.
Proof. induction s as [|c s IH]; simpl; [reflexivity|now rewrite IH]. Qed.

Lemma append_assoc_string (a b c : string) :
  ((a ++ b) ++ c)%string = (a ++ (b ++ c))%string.
Proof. induction a as [|x a IH]; simpl; [reflexivity|now rewrite IH]. Qed.

Lemma eat_app (w s s' : string) : eat w s = Some s' -> s = (w ++ s')%string.
Proof.
  revert s. induction w as [|c w IH]; intros s H; simpl in *.
  - congruence.
  - destruct s as [|a s]; [discriminate|].
    destruct (Ascii.eqb_spec a c) as [->|_]; [|discriminate].
    f_equal. now apply IH.
Qed.

Lemma go_sem (ns : list node) :
  forall prev s pos cur caps r,
    go ns prev s pos cur caps = Some r -> sem ns prev s pos cur caps r.
Proof.
  induction ns as [|n ns IH]; intros prev s pos cur caps r H.
  - simpl in *. congruence.
  - destruct n; simpl in H |- *.
    + destruct s as [|a s]; [discriminate|].
      destruct (Ascii.eqb_spec a c) as [->|_]; [|discriminate]. eauto.
    + destruct s as [|a s]; [discriminate|].
      destruct (in_cls k a) eqn:E; [|discriminate]. eauto 6.
    + revert prev pos cur H. induction s as [|a s IHs]; intros prev pos cur H.
      * exists EmptyString, EmptyString. simpl. rewrite append_nil_r.
        rewrite Nat.add_0_r. auto.
      * destruct (in_cls k a) eqn:E.
        -- match type of H with
           | match ?x with _ => _ end = _ => destruct x as [r'|] eqn:Es
           end.
           ++ injection H as ->. apply IHs in Es as (w & s' & -> & Hw & Hs).
              exists (String a w), s'. simpl. rewrite E, Hw.
              rewrite append_assoc_string in Hs. simpl in Hs.
              rewrite Nat.add_succ_r. auto.
           ++ exists EmptyString, (String a s). simpl. rewrite append_nil_r.
              rewrite Nat.add_0_r. auto.
        -- exists EmptyString, (String a s). simpl. rewrite append_nil_r.
           rewrite Nat.add_0_r. auto.
    + induction alts as [|w alts IHa]; [discriminate|].
      destruct (eat w s) as [s'|] eqn:Ee.
      * match type of H with
        | match ?x with _ => _ end = _ => destruct x as [r'|] eqn:Es
        end.
        -- injection H as ->. apply eat_app in Ee.
           exists w, s'. simpl. auto.
        -- destruct (IHa H) as (w' & s'' & Hin & Hrest).
           exists w', s''. simpl. auto.
      * destruct (IHa H) as (w' & s'' & Hin & Hrest).
        exists w', s''. simpl. auto.
    + auto.
    + auto.
    + destruct (Nat.eqb_spec pos 0); [|discriminate]. auto.
    + destruct (at_eol s) eqn:E; [|discriminate]. auto.
    + destruct prev as [a|]; [|discriminate].
      destruct (in_cls k a) eqn:E; [|discriminate]. eauto.
    + destruct s as [|a s]; [discriminate|].
      destruct (in_cls k a) eqn:E; [|discriminate]. eauto 6.
Qed.

Ltac destruct_sem H :=
  simpl in H;
  repeat match goal with
         | H : exists _, _ |- _ => destruct H
         | H : _ /\ _ |- _ => destruct H
         end;
  subst.

Ltac finish_shape H :=
  injection H as -> ->; simpl;
  repeat match goal with
         | |- exists _, _ => eexists
         | |- _ /\ _ => split
         end; try reflexivity; try eassumption.

(** Drops the equal heads of an equation between two lists. *)
Ltac peel E :=
  repeat match type of E with
         | ?a :: _ = ?a :: _ => injection E as E
         end.

Section GrammarProperties.
Import PokerStarsHandHistory.

(** What the table pattern accepts, and the groups it captures. *)
Lemma table_match_shape (line : string) (m : list string) :
  re_match _table_re line = Some m ->
  exists w d1 d2 tail,
    line = ("Table '" ++ w ++ "' " ++ String d1 ("-max Seat #"
              ++ String d2 (" is the button" ++ tail)))%string /\
    is_digit d1 = true /\ is_digit d2 = true /\ at_eol tail = true /\
    group m 1 = w /\ group m 2 = String d1 "" /\ group m 3 = String d2 "".
Proof.
  unfold re_match.
  destruct (go _ _ _ _ _ _) as [[caps e]|] eqn:E; [|discriminate].
  intros [= <-]. apply go_sem in E. unfold _table_re in E.
  destruct_sem E.
  match goal with H : (_, _) = (_, _) |- _ => finish_shape H end.
Qed.

(** What the seat pattern accepts, and the groups it captures. *)
Lemma seat_match_shape (line : string) (m : list string) :
  re_match _seat_re line = Some m ->
  exists d w st tail,
    line = ("Seat " ++ String d (": " ++ w ++ " (" ++ st ++ " in chips)"
              ++ tail))%string /\
    is_digit d = true /\ all_cls CDigit st = true /\ at_eol tail = true /\
    group m g_seat = String d "" /\ group m g_name = w /\
    group m g_stack = st.
Proof.
  unfold re_match.
  destruct (go _ _ _ _ _ _) as [[caps e]|] eqn:E; [|discriminate].
  intros [= <-]. apply go_sem in E. unfold _seat_re in E.
  destruct_sem E.
  match goal with H : (_, _) = (_, _) |- _ => finish_shape H end.
Qed.

Lemma lst_app (a b : string) :
  list_ascii_of_string (a ++ b)
  = (list_ascii_of_string a ++ list_ascii_of_string b)%list.
Proof. induction a as [|c a IH]; simpl; [reflexivity|now rewrite IH]. Qed.

Lemma lst_length (s : string) :
  List.length (list_ascii_of_string s) = String.length s.
Proof. induction s; simpl; auto. Qed.

Lemma all_digits_Forall (s : string) :
  all_digits s = true ->
  Forall (fun c => is_digit c = true) (list_ascii_of_string s).
Proof.
  induction s as [|c s IH]; simpl; intros H; [constructor|].
  apply andb_true_iff in H as [H1 H2]. constructor; auto.
Qed.

Lemma table_line_single_digits (name mx bt w : string) (d1 d2 : ascii)
    (tail : string) :
  all_digits mx = true -> all_digits bt = true ->
  is_digit d1 = true -> is_digit d2 = true -> at_eol tail = true ->
  ("Table '" ++ name ++ "' " ++ mx ++ "-max Seat #" ++ bt
     ++ " is the button")%string
  = ("Table '" ++ w ++ "' " ++ String d1 ("-max Seat #"
       ++ String d2 (" is the button" ++ tail)))%string ->
  String.length mx = 1%nat /\ String.length bt = 1%nat.
Proof.
  intros Hmx Hbt Hd1 Hd2 Heol E.
  apply all_digits_Forall, Forall_rev in Hmx.
  apply all_digits_Forall, Forall_rev in Hbt.
  rewrite <- (lst_length mx), <- (lst_length bt).
  rewrite <- (length_rev (list_ascii_of_string mx)).
  rewrite <- (length_rev (list_ascii_of_string bt)).
  apply (f_equal list_ascii_of_string) in E.
  repeat (simpl in E; rewrite ?lst_app in E).
  peel E.
  apply (f_equal (@rev ascii)) in E.
  destruct tail as [|c [|c' tail]]; simpl in Heol; try discriminate.
  - repeat (rewrite ?rev_app_distr, <- ?app_assoc in E; simpl in E).
    peel E.
    destruct (rev (list_ascii_of_string bt)) as [|x [|y B]]; simpl in E.
    + injection E as <- _. discriminate Hd2.
    + injection E as -> E. peel E.
      destruct (rev (list_ascii_of_string mx)) as [|x' [|y' M]]; simpl in E.
      * injection E as <- _. discriminate Hd1.
      * split; reflexivity.
      * injection E as _ -> _. apply Forall_cons in Hmx as [_ Hmx].
        apply Forall_cons in Hmx as [Hmx _]. discriminate Hmx.
    + injection E as _ -> _. apply Forall_cons in Hbt as [_ Hbt].
      apply Forall_cons in Hbt as [Hbt _]. discriminate Hbt.
  - repeat (rewrite ?rev_app_distr, <- ?app_assoc in E; simpl in E).
    destruct (Ascii.eqb_spec c "010"%char) as [->|]; [|discriminate].
    discriminate E.
Qed.

Lemma int_digit (d : ascii) :
  is_digit d = true ->
  int (String d "") = OK (digit_val d) /\ 0 <= digit_val d <= 9.
Proof.
  intros H. unfold int. simpl. rewrite H. simpl. split; [reflexivity|].
  unfold is_digit in H. apply andb_true_iff in H as [H1 H2].
  apply Nat.leb_le in H1, H2. unfold digit_val. lia.
Qed.

Context {pkg : Package}.

(** C9, as amended.  The table and the seat pattern take one digit, no
    more, for the seat count, the button seat and the seat number: what
    they accept decodes to a number from 0 to 9, so a parsed table has
    at most nine seats.  A table line or a seat line that writes one of
    these values with two digits or more is not matched.  For the table
    line the stage then raises (there is no match object to read the
    groups from); for a seat line nothing is raised: the scan of the
    seats ends there and no player is produced from it or from the
    lines after it. *)
Theorem single_digit_seat_grammar :
  (forall line m,
     re_match _table_re line = Some m ->
     exists n b,
       int (group m 2) = OK n /\ int (group m g_button) = OK b /\
       0 <= n <= 9 /\ 0 <= b <= 9)
  /\ (forall line m,
        re_match _seat_re line = Some m ->
        exists n, int (group m g_seat) = OK n /\ 0 <= n <= 9)
  /\ (forall name mx bt : string,
        all_digits mx = true -> all_digits bt = true ->
        (2 <= String.length mx \/ 2 <= String.length bt)%nat ->
        re_match _table_re
          ("Table '" ++ name ++ "' " ++ mx ++ "-max Seat #" ++ bt
             ++ " is the button")%string = None
        /\ forall self : hand,
             getitem (_splitted self) 1
             = OK ("Table '" ++ name ++ "' " ++ mx ++ "-max Seat #" ++ bt
                     ++ " is the button")%string ->
             _parse_table self = Raise AttributeError)
  /\ (forall sd name stk : string,
        all_digits sd = true -> (2 <= String.length sd)%nat ->
        re_match _seat_re
          ("Seat " ++ sd ++ ": " ++ name ++ " (" ++ stk ++ " in chips)")%string
        = None
        /\ forall rest ps,
             seat_lines
               (("Seat " ++ sd ++ ": " ++ name ++ " (" ++ stk
                   ++ " in chips)")%string :: rest) ps = OK ps)
  /\ (forall self self' : hand,
        _parse_table self = OK self' ->
        exists n, max_players self' = Some n /\ 0 <= n <= 9).
Proof.
  assert (Htable : forall line m,
     re_match _table_re line = Some m ->
     exists n b,
       int (group m 2) = OK n /\ int (group m g_button) = OK b /\
       0 <= n <= 9 /\ 0 <= b <= 9).
  { intros line m H. unfold g_button.
    apply table_match_shape in H
      as (w & d1 & d2 & tail & _ & H1 & H2 & _ & _ & -> & ->).
    destruct (int_digit d1 H1) as [E1 B1], (int_digit d2 H2) as [E2 B2].
    eauto 8. }
  split; [exact Htable|]. split; [|split; [|split; [|]]].
  - intros line m H.
    apply seat_match_shape in H
      as (d & w & st & tail & _ & H1 & _ & _ & -> & _).
    destruct (int_digit d H1) as [E1 B1]. eauto.
  - intros name mx bt Hmx Hbt Hlen.
    assert (Hnone : re_match _table_re
          ("Table '" ++ name ++ "' " ++ mx ++ "-max Seat #" ++ bt
             ++ " is the button")%string = None).
    { destruct (re_match _ _) as [m|] eqn:E; [|reflexivity].
      apply table_match_shape in E
        as (w & d1 & d2 & tail & E & H1 & H2 & He & _).
      destruct (table_line_single_digits _ _ _ _ _ _ _ Hmx Hbt H1 H2 He E).
      lia. }
    split; [exact Hnone|].
    intros self Hl. unfold _parse_table. rewrite Hl.
    unfold mbind, result_bind, Py.bind. now rewrite Hnone.
  - intros sd name stk Hsd Hlen.
    assert (Hnone : re_match _seat_re
          ("Seat " ++ sd ++ ": " ++ name ++ " (" ++ stk ++ " in chips)")%string
        = None).
    { destruct (re_match _ _) as [m|] eqn:E; [|reflexivity].
      apply seat_match_shape in E
        as (d & w & st & tail & E & _).
      destruct sd as [|a [|b sd]]; simpl in Hlen; try lia.
      simpl in E. injection E as _ -> _.
      simpl in Hsd. rewrite andb_false_r in Hsd. discriminate. }
    split; [exact Hnone|]. intros rest ps.
    cbn [seat_lines]. now rewrite Hnone.
  - intros self self' H. unfold _parse_table in H.
    apply bind_OK in H as (line & Hl & H).
    apply bind_OK in H as (s1 & Hs1 & H).
    apply bind_OK in H as (s2 & Hs2 & H).
    apply bind_OK in H as (n & Hn & H).
    apply mgroup_OK in Hs2 as (m & Hm & ->).
    destruct (Htable _ _ Hm) as (n' & b & Hn' & _ & Hb & _).
    injection H as <-. exists n. split; [now destruct self|].
    congruence.
Qed.

End GrammarProperties.

Lemma single_digit_seat_grammar_witness :
  re_match PokerStarsHandHistory._table_re
    "Table '797469411 15' 10-max Seat #1 is the button" = None
  /\ re_match PokerStarsHandHistory._seat_re
       "Seat 10: STBIJUJA (1500 in chips)" = None.
Proof.
  destruct (@single_digit_seat_grammar sample_package)
    as (_ & _ & Ht & Hs & _).
  split.
  - apply (Ht "797469411 15" "10" "1")%string; [reflexivity|reflexivity|].
    left. simpl. lia.
  - apply (Hs "10" "STBIJUJA" "1500")%string; [reflexivity|simpl; lia].
Defined.

(** ** Seats *)

Section SeatProperties.
Context {pkg : Package}.
Import PokerStarsHandHistory.









End SeatProperties.



(** ** Winners *)

Section WinnerProperties.
Context {pkg : Package}.
Import PokerStarsHandHistory.

Lemma list_contains_In (x : string) (l : list string) :
  list_contains x l = true <-> In x l.
Proof.
  unfold list_contains. rewrite existsb_exists. split.
  - intros (y & Hy & E). apply String.eqb_eq in E. now subst.
  - intros H. exists x. split; [exact H|apply String.eqb_refl].
Qed.

Lemma winner_line_spec (self : hand) (sd : bool) (line : string)
    (w w' : gset string) :
  show_down self = Some sd ->
  winner_line self line w = OK w' ->
  forall nm, nm ∈ w' <-> nm ∈ w \/ captured sd line nm.
Proof.
  intros Hsd H nm. unfold winner_line in H. rewrite Hsd in H. simpl in H.
  unfold captured, winner_marker, winner_pattern.
  destruct sd; simpl in H.
  - destruct (contains "won" line) eqn:Ec.
    + apply bind_OK in H as (s & Hs & H). injection H as <-.
      apply mgroup_OK in Hs as (m & Hm & ->).
      rewrite elem_of_union, elem_of_singleton. split.
      * intros [->|Hin]; [right; eauto|now left].
      * intros [Hin|(_ & m' & Hm' & <-)]; [now right|left; congruence].
    + injection H as <-. split; [now left|].
      intros [Hin|(Hc & _)]; [exact Hin|discriminate].
  - destruct (contains "collected" line) eqn:Ec.
    + apply bind_OK in H as (s & Hs & H). injection H as <-.
      apply mgroup_OK in Hs as (m & Hm & ->).
      rewrite elem_of_union, elem_of_singleton. split.
      * intros [->|Hin]; [right; eauto|now left].
      * intros [Hin|(_ & m' & Hm' & <-)]; [now right|left; congruence].
    + injection H as <-. split; [now left|].
      intros [Hin|(Hc & _)]; [exact Hin|discriminate].
Qed.

Lemma winner_lines_spec (self : hand) (sd : bool) (lines : list string) :
  show_down self = Some sd ->
  forall w w', winner_lines self lines w = OK w' ->
  forall nm, nm ∈ w' <->
             nm ∈ w \/ exists line, In line lines /\ captured sd line nm.
Proof.
  intros Hsd. induction lines as [|l lines IH]; intros w w' H nm.
  - simpl in H. injection H as <-. split; [now left|].
    intros [Hin|(line & [] & _)]. exact Hin.
  - simpl in H. apply bind_OK in H as (w1 & H1 & H).
    rewrite (IH _ _ H), (winner_line_spec _ _ _ _ _ Hsd H1). split.
    + intros [[Hin|Hc]|(line & Hin & Hc)]; [now left|right..].
      * exists l. split; [now left|exact Hc].
      * exists line. split; [now right|exact Hc].
    + intros [Hin|(line & [<-|Hin] & Hc)].
      * left. now left.
      * left. now right.
      * right. eauto.
Qed.

Lemma winner_lines_total (self : hand) (sd : bool) (lines : list string) :
  show_down self = Some sd ->
  (forall line, In line lines ->
                contains (winner_marker sd) line = true ->
                re_match (winner_pattern sd) line <> None) ->
  forall w, exists w', winner_lines self lines w = OK w'.
Proof.
  intros Hsd. induction lines as [|l lines IH]; intros Hall w; simpl;
    [eauto|].
  assert (exists w1, winner_line self l w = OK w1) as (w1 & ->).
  { unfold winner_line. rewrite Hsd. simpl.
    specialize (Hall l (or_introl eq_refl)).
    unfold winner_marker, winner_pattern in Hall.
    destruct sd; simpl.
    - destruct (contains "won" l); [|eauto].
      destruct (re_match _showdown_re l); [simpl; eauto|].
      now destruct Hall.
    - destruct (contains "collected" l); [|eauto].
      destruct (re_match _winner_re l); [simpl; eauto|].
      now destruct Hall. }
  simpl. apply IH. intros line Hin. apply Hall. now right.
Qed.

(** The show-down flag is true exactly when "SHOW DOWN" is one of the
    lines.  Among the lines from the fourth after the last section
    boundary on (the line before them, where a board line stands when
    there is one, is not read), the winners are exactly the
    names captured, as group 2, by the seat pattern from the lines that
    contain "collected" when the flag is false, and by the show-down
    pattern from the lines that contain "won" when it is true; no name
    is listed twice.  Winner resolution succeeds as soon as every line
    that carries the marker is matched by its pattern. *)
Theorem winners_resolved (self : hand) :
  (exists b,
     _parse_showdown self = OK (set_show_down (Some b) self) /\
     show_down (set_show_down (Some b) self) = Some b /\
     (b = true <-> In "SHOW DOWN" (_splitted self)))
  /\ (forall sd sl self',
        show_down self = Some sd ->
        getitem (_sections self) (-1) = OK sl ->
        _parse_winners self = OK self' ->
        exists ws,
          winners self' = Some ws /\ NoDup ws /\
          forall nm,
            In nm ws <->
            exists line,
              In line (list_slice (_splitted self) (sl + 4) None) /\
              captured sd line nm)
  /\ (forall sd sl,
        show_down self = Some sd ->
        getitem (_sections self) (-1) = OK sl ->
        (forall line,
           In line (list_slice (_splitted self) (sl + 4) None) ->
           contains (winner_marker sd) line = true ->
           re_match (winner_pattern sd) line <> None) ->
        exists self', _parse_winners self = OK self').
Proof.
  split; [|split].
  - exists (list_contains "SHOW DOWN" (_splitted self)).
    split; [reflexivity|]. split; [now destruct self|].
    apply list_contains_In.
  - intros sd sl self' Hsd Hsl H. unfold _parse_winners in H.
    rewrite Hsl in H. simpl in H.
    apply bind_OK in H as (w & Hw & H). injection H as <-.
    exists (elements w). split; [now destruct self|].
    split; [apply NoDup_elements|].
    intros nm. rewrite <- list_elem_of_In, elem_of_elements.
    rewrite (winner_lines_spec _ _ _ Hsd _ _ Hw). split.
    + intros [Hin|H]; [|exact H]. now apply not_elem_of_empty in Hin.
    + intros H. now right.
  - intros sd sl Hsd Hsl Hall. unfold _parse_winners. rewrite Hsl. simpl.
    destruct (winner_lines_total self sd _ Hsd Hall ∅) as (w & ->).
    simpl. eauto.
Qed.

End WinnerProperties.

(** ** The hero *)

Section HeroProperties.
Context {pkg : Package}.
Import PokerStarsHandHistory.

Lemma setitem_nonneg {A} (l l' : list A) (i : Z) (x : A) :
  0 <= i -> setitem l i x = OK l' ->
  l' = <[Z.to_nat i := x]> l /\ (Z.to_nat i < List.length l)%nat.
Proof.
  intros Hi. unfold setitem.
  destruct (Z.ltb_spec i 0); [lia|].
  destruct (Z.leb_spec 0 i); [|lia].
  destruct (Z.ltb_spec i (Z.of_nat (List.length l))); simpl; [|discriminate].
  intros [= <-]. split; [reflexivity|lia].
Qed.

(** C4.  Hero resolution reads the hero's name and two card tokens from
    the reveal line, finds in the player array the entry [hero0] with
    that name, at index [i], and builds [hero1], the same record with
    the combo made of the two tokens.  Afterwards [hero1] sits at index
    [i] of the player array, the other entries being untouched, and is
    the hero; and the button is [hero1] when the button's name is the
    hero's name, and unchanged otherwise. *)
Theorem hero_replaced (self self' : hand) :
  _parse_hero self = OK self' ->
  exists s0 line m ps b hero0 (i : nat) cb,
    getitem (_sections self) 0 = OK s0 /\
    getitem (_splitted self) (s0 + 2) = OK line /\
    re_match _hero_re line = Some m /\
    players self = Some ps /\
    button self = Some b /\
    ps !! i = Some hero0 /\
    name hero0 = group m g_hero_name /\
    Combo_of (group m 2 ++ group m 3)%string = OK cb /\
    let hero1 := _replace_combo hero0 cb in
    combo hero1 = Some cb /\
    name hero1 = name hero0 /\ stack hero1 = stack hero0 /\
    seat hero1 = seat hero0 /\
    players self' = Some (<[i := hero1]> ps) /\
    <[i := hero1]> ps !! i = Some hero1 /\
    (forall j : nat, j <> i -> <[i := hero1]> ps !! j = ps !! j) /\
    hero self' = Some hero1 /\
    (name b = group m g_hero_name -> button self' = Some hero1) /\
    (name b <> group m g_hero_name -> button self' = Some b).
Proof.
  intros H. unfold _parse_hero in H.
  apply bind_OK in H as (s0 & Hs0 & H).
  apply bind_OK in H as (line & Hline & H).
  apply bind_OK in H as (hero_name & Hn & H).
  apply bind_OK in H as (ps & Hps & H).
  apply bind_OK in H as ([hero0 hero_index] & Hfind & H).
  apply bind_OK in H as (c1 & Hc1 & H).
  apply bind_OK in H as (c2 & Hc2 & H).
  apply bind_OK in H as (cb & Hcb & H).
  apply bind_OK in H as (ps' & Hset & H).
  apply bind_OK in H as (b & Hb & H).
  apply mgroup_OK in Hn as (m & Hm & ->).
  rewrite Hm in Hc1, Hc2. simpl in Hc1, Hc2.
  injection Hc1 as <-. injection Hc2 as <-.
  apply attr_OK in Hps. apply attr_OK in Hb.
  apply _get_hero_from_players_found in Hfind as (Hi & Hlook & Hname).
  apply (setitem_nonneg _ _ _ _ Hi) in Hset as [-> Hlt].
  assert (Hb' : button self = Some b) by (now destruct self).
  exists s0, line, m, ps, b, hero0, (Z.to_nat hero_index), cb.
  repeat (split; [assumption || reflexivity|]).
  cbv zeta. repeat (split; [reflexivity|]).
  change (name (_replace_combo hero0 cb)) with (name hero0) in H.
  rewrite Hname in H.
  destruct (String.eqb_spec (name b) (group m g_hero_name)) as [Eb|Eb];
    injection H as <-.
  - split; [now destruct self|].
    split; [now apply list_lookup_insert_eq|].
    split; [intros j Hj; now apply list_lookup_insert_ne|].
    split; [now destruct self|].
    split; [intros _; now destruct self|intros Hne; now destruct Hne].
  - split; [now destruct self|].
    split; [now apply list_lookup_insert_eq|].
    split; [intros j Hj; now apply list_lookup_insert_ne|].
    split; [now destruct self|].
    split; [intros E; now destruct Eb|intros _; now destruct self].
Qed.

End HeroProperties.

(** ** The board *)

Section BoardProperties.
Context {pkg : Package}.
Import PokerStarsHandHistory.

Lemma card_at_eq (cards : list string) (i : nat) :
  (if Z.of_nat i <? Z.of_nat (List.length cards)
   then c ← getitem cards (Z.of_nat i); k ← Card_of c; mret (Some k)
   else mret None) = card_at cards i.
Proof.
  unfold card_at.
  destruct (Z.ltb_spec (Z.of_nat i) (Z.of_nat (List.length cards))) as [H|H].
  - unfold getitem.
    rewrite (proj2 (Z.ltb_ge (Z.of_nat i) 0)) by lia.
    rewrite (proj2 (Z.leb_le 0 (Z.of_nat i))) by lia.
    rewrite (proj2 (Z.ltb_lt (Z.of_nat i) _) H). cbn [andb].
    rewrite Nat2Z.id.
    destruct (cards !! i) eqn:E; [reflexivity|].
    apply lookup_ge_None in E. lia.
  - rewrite (proj2 (lookup_ge_None cards i)) by lia. reflexivity.
Qed.

Lemma last_char_snoc (pre : string) (d : option ascii) (a : ascii) :
  last_char pre d = Some a ->
  (pre = EmptyString /\ d = Some a) \/
  exists pre0, pre = (pre0 ++ String a EmptyString)%string.
Proof.
  revert d. induction pre as [|c pre IH]; intros d H; simpl in H.
  - now left.
  - right. destruct (IH _ H) as [[-> [= ->]]|(pre0 & ->)].
    + now exists EmptyString.
    + now exists (String c pre0).
Qed.

Lemma last_char_app_one (pre : string) (d : option ascii) (x : ascii) :
  last_char (pre ++ String x EmptyString) d = Some x.
Proof.
  revert d. induction pre as [|c pre IH]; intros d; simpl; [reflexivity|].
  apply IH.
Qed.

Lemma one_of_two (x a b : ascii) :
  Ascii.eqb x a || (Ascii.eqb x b || false) = true -> x = a \/ x = b.
Proof.
  destruct (Ascii.eqb_spec x a); [now left|].
  destruct (Ascii.eqb_spec x b); [now right|discriminate].
Qed.

Lemma findall_board_tokens (line : string) :
  forall s pre pos skip t,
    line = (pre ++ s)%string ->
    In t (findall_aux _board_re (last_char pre None) s pos skip) ->
    board_token line t.
Proof.
  induction s as [|x s IH]; intros pre pos skip t Hline Hin; [destruct Hin|].
  assert (Hnext : forall k,
            In t (findall_aux _board_re (Some x) s (S pos) k) ->
            board_token line t).
  { intros k Hk. apply (IH (pre ++ String x EmptyString)%string (S pos) k).
    - now rewrite append_assoc_string.
    - now rewrite last_char_app_one. }
  cbn [findall_aux] in Hin. destruct skip as [|k]; [|now apply (Hnext k)].
  destruct (go _board_re (last_char pre None) (String x s) pos "" [])
    as [[caps e]|] eqn:E; [|now apply (Hnext O)].
  destruct Hin as [<-|Hin]; [|now apply (Hnext (e - pos - 1)%nat)].
  apply go_sem in E. unfold _board_re in E. destruct_sem E.
  match goal with H : (_, _) = (_, _) |- _ => injection H as -> -> end.
  match goal with H : String _ _ = String _ _ |- _ => injection H as -> -> end.
  match goal with H : last_char pre None = Some _ |- _ =>
    apply last_char_snoc in H as [[_ [=]]|(pre0 & ->)] end.
  eexists pre0, _, _, _, _, _. split.
  - rewrite append_assoc_string. reflexivity.
  - split; [reflexivity|].
    split; apply one_of_two; assumption.
Qed.

(** C8.  When the line after the pot line starts with "Board", its
    tokens are the two-character strings delimited by brackets or
    spaces, in order; the turn is the card of the token at index 3 and
    the river the card of the token at index 4, each unset when the line
    has no such token.  When that line does not start with "Board" the
    stage changes nothing, so turn and river stay as they were. *)
Theorem board_turn_river (self : hand) (sl : Z) (boardline : string) :
  getitem (_sections self) (-1) = OK sl ->
  getitem (_splitted self) (sl + 3) = OK boardline ->
  (startswith boardline "Board" = false -> _parse_board self = OK self)
  /\ (startswith boardline "Board" = true ->
      let cards := findall _board_re boardline in
      (forall t, In t cards -> board_token boardline t) /\
      (forall self',
         _parse_board self = OK self' ->
         match cards !! 3%nat with
         | Some c => exists k, Card_of c = OK k /\ turn self' = Some k
         | None => turn self' = None
         end /\
         match cards !! 4%nat with
         | Some c => exists k, Card_of c = OK k /\ river self' = Some k
         | None => river self' = None
         end) /\
      (forall t r,
         card_at cards 3 = OK t -> card_at cards 4 = OK r ->
         _parse_board self = OK (set_river r (set_turn t self)))).
Proof.
  intros Hsl Hbl.
  assert (Hstage : startswith boardline "Board" = true ->
            _parse_board self =
            (t ← card_at (findall _board_re boardline) 3;
             r ← card_at (findall _board_re boardline) 4;
             mret (set_river r (set_turn t self)))).
  { intros Hb. unfold _parse_board.
    rewrite (bind_OK_eq _ _ _ Hsl), (bind_OK_eq _ _ _ Hbl), Hb. cbn [negb].
    change 3 with (Z.of_nat 3). change 4 with (Z.of_nat 4).
    now rewrite !card_at_eq. }
  split.
  - intros Hb. unfold _parse_board.
    now rewrite (bind_OK_eq _ _ _ Hsl), (bind_OK_eq _ _ _ Hbl), Hb.
  - intros Hb cards. split; [|split].
    + intros t Ht. apply (findall_board_tokens boardline boardline "" 0 0 t);
        [reflexivity|exact Ht].
    + intros self' H. rewrite (Hstage Hb) in H. fold cards in H.
      apply bind_OK in H as (t & Ht & H).
      apply bind_OK in H as (r & Hr & H). injection H as <-.
      unfold card_at in Ht, Hr. split.
      * destruct (cards !! 3%nat) as [c|].
        -- apply bind_OK in Ht as (k & Hk & Ht). injection Ht as <-.
           exists k. split; [exact Hk|now destruct self].
        -- injection Ht as <-. now destruct self.
      * destruct (cards !! 4%nat) as [c|].
        -- apply bind_OK in Hr as (k & Hk & Hr). injection Hr as <-.
           exists k. split; [exact Hk|now destruct self].
        -- injection Hr as <-. now destruct self.
    + intros t r Ht Hr. rewrite (Hstage Hb). fold cards.
      now rewrite Ht, Hr.
Qed.

End BoardProperties.

(** ** The header *)

Section HeaderProperties.
Context {pkg : Package}.
Import PokerStarsHandHistory.

Lemma header_match_shape (line : string) (m : list string) :
  re_match _header_re line = Some m ->
  exists w1 d1 d2 w2 e1 e2,
    all_cls CDigit w1 = true /\ is_digit d1 = true /\ is_digit d2 = true /\
    all_cls CDigit w2 = true /\ is_digit e1 = true /\ is_digit e2 = true /\
    group m g_buyin = (w1 ++ String "." (String d1 (String d2 "")))%string /\
    group m g_rake = (w2 ++ String "." (String e1 (String e2 "")))%string /\
    (group m g_currency = "USD" \/ group m g_currency = "EUR") /\
    group m g_game_type = "Tournament" /\
    group m g_limit = "No Limit".
Proof.
  unfold re_match.
  destruct (go _ _ _ _ _ _) as [[caps e]|] eqn:E; [|discriminate].
  intros [= <-]. apply go_sem in E. unfold _header_re in E.
  destruct_sem E.
  match goal with
  | H : (_, _) =
        ([_; _; _; _; _; _; _;
          ((?w2 ++ _) ++ String ?e1 _) ++ String ?e2 _;
          ((?w1 ++ _) ++ String ?d1 _) ++ String ?d2 _; _; _; _]%string, _)
    |- _ => exists w1, d1, d2, w2, e1, e2; injection H as -> ->
  end.
  unfold g_buyin, g_rake, g_currency, g_game_type, g_limit, group.
  cbn [rev app nth].
  rewrite !append_assoc_string. cbn [String.append].
  repeat (split; [assumption || reflexivity|]).
  split; [|split; reflexivity].
  match goal with H : _ \/ _ |- _ => destruct H as [<-|[<-|[]]] end; auto.
Qed.

Lemma all_cls_digit (w : string) : all_cls CDigit w = all_digits w.
Proof. induction w as [|c w IH]; simpl; [reflexivity|now rewrite IH]. Qed.

Lemma digit_is_not (c x : ascii) :
  is_digit c = true -> is_digit x = false -> Ascii.eqb c x = false.
Proof.
  intros Hc Hx. destruct (Ascii.eqb_spec c x) as [->|]; congruence.
Qed.

Lemma split_dot_digits (w r : string) :
  all_digits w = true -> split_dot (w ++ String "." r) = (w, Some r).
Proof.
  induction w as [|c w IH]; simpl; intros H; [reflexivity|].
  apply andb_true_iff in H as [Hc Hw].
  rewrite (digit_is_not c "." Hc eq_refl), (IH Hw). reflexivity.
Qed.

Lemma all_digits_app (a b : string) :
  all_digits (a ++ b) = all_digits a && all_digits b.
Proof.
  induction a as [|c a IH]; simpl; [reflexivity|].
  now rewrite IH, andb_assoc.
Qed.

(** An amount written with two decimals decodes, digits and scale kept. *)
Lemma Decimal_money (w : string) (d1 d2 : ascii) :
  all_cls CDigit w = true -> is_digit d1 = true -> is_digit d2 = true ->
  Decimal (w ++ String "." (String d1 (String d2 "")))
  = OK (Dec (digits_val (w ++ String d1 (String d2 "")) 0) (-2)).
Proof.
  rewrite all_cls_digit. intros Hw H1 H2. unfold Decimal.
  assert (Hsign :
    match (w ++ String "." (String d1 (String d2 "")))%string with
    | String c r =>
        if Ascii.eqb c "-" then (-1, r)
        else if Ascii.eqb c "+" then (1, r)
        else (1, (w ++ String "." (String d1 (String d2 "")))%string)
    | EmptyString => (1, (w ++ String "." (String d1 (String d2 "")))%string)
    end = (1, (w ++ String "." (String d1 (String d2 "")))%string)).
  { destruct w as [|c w]; [reflexivity|]. simpl in Hw |- *.
    apply andb_true_iff in Hw as [Hc _].
    now rewrite (digit_is_not c "-" Hc eq_refl),
                (digit_is_not c "+" Hc eq_refl). }
  rewrite Hsign, split_dot_digits by exact Hw.
  rewrite all_digits_app, Hw. simpl. rewrite H1, H2. simpl.
  destruct w; simpl; rewrite Z.mul_1_l; reflexivity.
Qed.

(** The attributes [parse_header] assigns, group by group. *)
Lemma parse_header_fields (self : hand) (line : string) (m : list string) :
  getitem (_splitted self) 0 = OK line ->
  re_match _header_re line = Some m ->
  forall self',
        parse_header self = OK self' ->
        exists gt sbv bbv bi rk dt gm lm cu,
          GameType_of (group m g_game_type) = OK gt /\
          Decimal (group m g_sb) = OK sbv /\
          Decimal (group m g_bb) = OK bbv /\
          Decimal (group m g_buyin) = OK bi /\
          Decimal (group m g_rake) = OK rk /\
          _parse_date (group m g_date) = OK dt /\
          Game_of (group m g_game) = OK gm /\
          Limit_of (group m g_limit) = OK lm /\
          Currency_of (group m g_currency) = OK cu /\
          game_type self' = Some gt /\ sb self' = Some sbv /\
          bb self' = Some bbv /\ buyin self' = Some bi /\
          rake self' = Some rk /\ date self' = Some dt /\
          game self' = Some gm /\ limit self' = Some lm /\
          ident self' = Some (group m g_ident) /\
          tournament_ident self' = Some (group m g_tournament_ident) /\
          tournament_level self' = Some (group m g_tournament_level) /\
          currency self' = Some cu /\ header_parsed self' = true.
Proof.
  intros Hline Hm self' H. unfold parse_header in H.
  rewrite (bind_OK_eq _ _ _ Hline), Hm in H. unfold mgroup in H.
  unfold_monad.
  destruct (GameType_of (group m g_game_type)) as [gt|]; [|discriminate].
  destruct (Decimal (group m g_sb)) as [sbv|]; [|discriminate].
  destruct (Decimal (group m g_bb)) as [bbv|]; [|discriminate].
  destruct (Decimal (group m g_buyin)) as [bi|]; [|discriminate].
  destruct (Decimal (group m g_rake)) as [rk|]; [|discriminate].
  destruct (_parse_date (group m g_date)) as [dt|]; [|discriminate].
  destruct (Game_of (group m g_game)) as [gm|]; [|discriminate].
  destruct (Limit_of (group m g_limit)) as [lm|]; [|discriminate].
  destruct (Currency_of (group m g_currency)) as [cu|]; [|discriminate].
  injection H as <-.
  exists gt, sbv, bbv, bi, rk, dt, gm, lm, cu.
  destruct self. repeat split; reflexivity.
Qed.

(** C7, as amended.  For a first line the header pattern matches, with
    groups [m]:
    the buy-in and the rake always decode, to decimals of two places;
    when the header stage succeeds every attribute holds its group,
    decoded by the conversion of its type; the stage succeeds as soon as
    the conversions of the other groups do; and the groups "10.00",
    "1.00" and "USD" give a buy-in of 1000 hundredths, a rake of 100
    hundredths and the currency the lookup has for "USD". *)
Theorem header_groups_decode (self : hand) (line : string) (m : list string) :
  getitem (_splitted self) 0 = OK line ->
  re_match _header_re line = Some m ->
  (exists bi rk,
     Decimal (group m g_buyin) = OK bi /\ Decimal (group m g_rake) = OK rk /\
     expo bi = -2 /\ expo rk = -2)
  /\ (forall self',
        parse_header self = OK self' ->
        exists gt sbv bbv bi rk dt gm lm cu,
          GameType_of (group m g_game_type) = OK gt /\
          Decimal (group m g_sb) = OK sbv /\
          Decimal (group m g_bb) = OK bbv /\
          Decimal (group m g_buyin) = OK bi /\
          Decimal (group m g_rake) = OK rk /\
          _parse_date (group m g_date) = OK dt /\
          Game_of (group m g_game) = OK gm /\
          Limit_of (group m g_limit) = OK lm /\
          Currency_of (group m g_currency) = OK cu /\
          game_type self' = Some gt /\ sb self' = Some sbv /\
          bb self' = Some bbv /\ buyin self' = Some bi /\
          rake self' = Some rk /\ date self' = Some dt /\
          game self' = Some gm /\ limit self' = Some lm /\
          ident self' = Some (group m g_ident) /\
          tournament_ident self' = Some (group m g_tournament_ident) /\
          tournament_level self' = Some (group m g_tournament_level) /\
          currency self' = Some cu /\ header_parsed self' = true)
  /\ (forall gt sbv bbv dt gm lm cu,
        GameType_of (group m g_game_type) = OK gt ->
        Decimal (group m g_sb) = OK sbv ->
        Decimal (group m g_bb) = OK bbv ->
        _parse_date (group m g_date) = OK dt ->
        Game_of (group m g_game) = OK gm ->
        Limit_of (group m g_limit) = OK lm ->
        Currency_of (group m g_currency) = OK cu ->
        exists self', parse_header self = OK self')
  /\ (group m g_buyin = "10.00" -> group m g_rake = "1.00" ->
      group m g_currency = "USD" ->
      forall self',
        parse_header self = OK self' ->
        buyin self' = Some (Dec 1000 (-2)) /\
        rake self' = Some (Dec 100 (-2)) /\
        exists cu, Currency_of "USD" = OK cu /\ currency self' = Some cu).
Proof.
  intros Hline Hm.
  destruct (header_match_shape _ _ Hm)
    as (w1 & d1 & d2 & w2 & e1 & e2 & Hw1 & Hd1 & Hd2 & Hw2 & He1 & He2
        & Hbi & Hrk & _).
  pose proof (Decimal_money w1 d1 d2 Hw1 Hd1 Hd2) as Dbi.
  pose proof (Decimal_money w2 e1 e2 Hw2 He1 He2) as Drk.
  rewrite <- Hbi in Dbi. rewrite <- Hrk in Drk.
  pose proof (parse_header_fields self line m Hline Hm) as Hfields.
  split; [|split; [exact Hfields|split]].
  - do 2 eexists. split; [exact Dbi|]. split; [exact Drk|].
    split; reflexivity.
  - intros gt sbv bbv dt gm lm cu Hgt Hsb Hbb Hdt Hgm Hlm Hcu.
    unfold parse_header.
    rewrite (bind_OK_eq _ _ _ Hline), Hm. unfold mgroup. unfold_monad.
    rewrite Hgt, Hsb, Hbb, Dbi, Drk, Hdt, Hgm, Hlm, Hcu. eauto.
  - intros Ebi Erk Ecu self' H.
    destruct (Hfields self' H)
      as (gt & sbv & bbv & bi & rk & dt & gm & lm & cu & _ & _ & _ & Hb & Hr
          & _ & _ & _ & Hc & _ & _ & _ & Fb & Fr & _ & _ & _ & _ & _ & _
          & Fc & _).
    rewrite Ebi in Hb. rewrite Erk in Hr. rewrite Ecu in Hc.
    injection Hb as <-. injection Hr as <-.
    split; [exact Fb|]. split; [exact Fr|]. eauto.
Qed.

End HeaderProperties.

Lemma header_groups_decode_witness :
  exists self',
    @PokerStarsHandHistory.parse_header sample_package ten_dollar_hand
      = OK self' /\
    PokerStarsHandHistory.buyin self' = Some (Dec 1000 (-2)) /\
    PokerStarsHandHistory.rake self' = Some (Dec 100 (-2)) /\
    PokerStarsHandHistory.currency self' = Some "USD".
Proof.
  pose proof (@header_groups_decode sample_package ten_dollar_hand
                ten_dollar_header
       ["PokerStars Hand #105024000105: Tournament #797469411, $10.00+$1.00 USD Hold'em No Limit - Level I (10/20) - 2013/10/04 19:18:18 CET [2013/10/04 13:18:18 ET]";
        "105024000105"; "Tournament"; "797469411"; "10.00"; "1.00"; "USD";
        "Hold'em"; "No Limit"; "I"; "10"; "20"; "2013/10/04 13:18:18 ET"]
       eq_refl eq_refl) as (_ & _ & Hok & Hex).
  destruct (Hok "Tournament" (Dec 10 0) (Dec 20 0) "2013/10/04 13:18:18 ET"
              "Hold'em" "No Limit" "USD"
              eq_refl eq_refl eq_refl eq_refl eq_refl eq_refl eq_refl)
    as (self' & Hself).
  exists self'. split; [exact Hself|].
  destruct (Hex eq_refl eq_refl eq_refl self' Hself)
    as (Hb & Hr & cu & Hcu & Hc).
  injection Hcu as <-. auto.
Defined.

(** ** The pot line *)

Section PotProperties.
Context {pkg : Package}.

Lemma set_total_pot_frame (v : option Z) (h : hand) :
  same_but_total_pot h (set_total_pot v h) /\ total_pot (set_total_pot v h) = v.
Proof. destruct h. unfold same_but_total_pot. simpl. tauto. Qed.

(** C10.  Parsing the pot line assigns [total_pot], from the first group
    of the pot pattern, and nothing else: the second group, the rake of
    the summary line, is not read; [rake] keeps the value it had, which
    after [parse_header] is the decoded rake group of the header line;
    and every other attribute is kept as well. *)
Theorem pot_line_sets_total_pot_only (self self' : hand) :
  _parse_pot self = OK self' ->
  exists sl potline m n,
    getitem (_sections self) (-1) = OK sl /\
    getitem (_splitted self) (sl + 2) = OK potline /\
    re_match _pot_re potline = Some m /\
    int (group m 1) = OK n /\
    self' = set_total_pot (Some n) self /\
    total_pot self' = Some n /\
    rake self' = rake self /\
    same_but_total_pot self self' /\
    (forall h0 line m,
       getitem (_splitted h0) 0 = OK line ->
       re_match _header_re line = Some m ->
       parse_header h0 = OK self ->
       exists rk,
         Decimal (group m g_rake) = OK rk /\ rake self' = Some rk).
Proof.
  intros H. unfold _parse_pot in H.
  apply bind_OK in H as (sl & Hsl & H).
  apply bind_OK in H as (potline & Hpl & H).
  apply bind_OK in H as (s & Hs & H).
  apply bind_OK in H as (n & Hn & H).
  apply mgroup_OK in Hs as (m & Hm & ->).
  injection H as <-.
  exists sl, potline, m, n.
  destruct (set_total_pot_frame (Some n) self) as [Hf Ht].
  repeat (split; [assumption || reflexivity || apply Hf|]).
  intros h0 hline hm Hl Hhm Hh.
  destruct (parse_header_fields h0 hline hm Hl Hhm self Hh)
    as (gt & sbv & bbv & bi & rk & dt & gm & lm & cu & _ & _ & _ & _ & Hr
        & _ & _ & _ & _ & _ & _ & _ & _ & Fr & _).
  exists rk. split; [exact Hr|].
  destruct Hf as (_ & _ & _ & _ & _ & _ & -> & _). exact Fr.
Qed.

End PotProperties.

(** ** Runs on the sample hands *)

Section Runs.
#[local] Existing Instance sample_package.

Lemma pot_line_sets_total_pot_only_witness :
  _parse_pot headed_hand = OK (set_total_pot (Some 150) headed_hand) /\
  total_pot (set_total_pot (Some 150) headed_hand) = Some 150 /\
  rake (set_total_pot (Some 150) headed_hand) = Some (Dec 31 (-2)).
Proof.
  split; [reflexivity|].
  destruct (pot_line_sets_total_pot_only headed_hand
              (set_total_pot (Some 150) headed_hand) eq_refl)
    as (sl & potline & m & n & _ & _ & _ & _ & _ & _ & Hr & _).
  split; [reflexivity|]. rewrite Hr. reflexivity.
Defined.

(** The claim C9 as first stated has seat parsing fail on a seat line
    with a two-digit seat number.  The line is not matched, and seat
    parsing returns normally, with every seat still a placeholder. *)
Lemma two_digit_seat_is_no_failure :
  re_match _seat_re "Seat 10: STBIJUJA (1500 in chips)" = None /\
  _parse_players late_seat_hand
    = OK (set_players (Some (replicate 9 empty_seat)) late_seat_hand) /\
  ~ (exists e, _parse_players late_seat_hand = Raise e).
Proof.
  split; [reflexivity|]. split; [reflexivity|].
  intros (e & H). discriminate H.
Qed.

Lemma winners_resolved_witness :
  exists self' ws,
    _parse_winners showdown_boarded = OK self' /\
    winners self' = Some ws /\ NoDup ws /\
    In "santy312 (small blind)" ws /\ In "W2lkm2n (button)" ws.
Proof.
  destruct (winners_resolved showdown_boarded) as (_ & Hexact & Htotal).
  destruct (Htotal true 31 eq_refl eq_refl) as (self' & Hself).
  { intros line Hin _. vm_compute in Hin.
    destruct Hin as [<-|[<-|[]]]; discriminate. }
  destruct (Hexact true 31 self' eq_refl eq_refl Hself)
    as (ws & Hws & Hnd & Hin).
  exists self', ws. split; [exact Hself|]. split; [exact Hws|].
  split; [exact Hnd|]. split; apply Hin.
  - exists "Seat 2: santy312 (small blind) showed [Ad Js] and won (75) with a pair of Sixes".
    split; [vm_compute; auto|]. split; [reflexivity|].
    eexists. split; reflexivity.
  - exists "Seat 5: W2lkm2n (button) showed [Ac Jh] and won (75) with a pair of Sixes".
    split; [vm_compute; auto|]. split; [reflexivity|].
    eexists. split; reflexivity.
Defined.

Lemma hero_replaced_witness :
  _parse_hero showdown_seated = OK showdown_dealt /\
  hero showdown_dealt = Some (mk_Player "W2lkm2n" 3000 5 (Some "AcJh")) /\
  button showdown_dealt = hero showdown_dealt.
Proof.
  split; [reflexivity|]. split; [reflexivity|].
  destruct (hero_replaced showdown_seated showdown_dealt eq_refl)
    as (s0 & line & m & ps & b & hero0 & i & cb & Hs0 & Hline & Hm & _ & Hb
        & _ & _ & _ & H).
  cbv zeta in H.
  destruct H as (_ & _ & _ & _ & _ & _ & _ & Hhero & Hyes & _).
  rewrite Hhero. apply Hyes.
  vm_compute in Hs0. injection Hs0 as <-.
  vm_compute in Hline. injection Hline as <-.
  vm_compute in Hm. injection Hm as <-.
  vm_compute in Hb. injection Hb as <-.
  reflexivity.
Defined.

Lemma board_turn_river_witness :
  _parse_board showdown_summed = OK showdown_boarded /\
  turn showdown_boarded = Some "4s" /\ river showdown_boarded = Some "Kc".
Proof.
  destruct (board_turn_river showdown_summed 31 "Board [2s 6d 6h 4s Kc]"
              eq_refl eq_refl) as (_ & H).
  destruct (H eq_refl) as (_ & _ & Hrun).
  split; [|split; reflexivity].
  exact (Hrun (Some "4s") (Some "Kc") eq_refl eq_refl).
Defined.

End Runs.

(** * Further properties *)

(** ** The matcher finds a match whenever the pattern accepts *)

Lemma eat_prefix (w s : string) : eat w (w ++ s) = Some s.
Proof.
  induction w as [|c w IH]; simpl; [reflexivity|].
  now rewrite Ascii.eqb_refl.
Qed.

Lemma last_char_app (a b : string) (d : option ascii) :
  last_char (a ++ b) d = last_char b (last_char a d).
Proof.
  revert d. induction a as [|c a IH]; intros d; simpl; [reflexivity|].
  apply IH.
Qed.

Lemma sem_go (ns : list node) :
  forall prev s pos cur caps r,
    sem ns prev s pos cur caps r ->
    exists r', go ns prev s pos cur caps = Some r'.
Proof.
  induction ns as [|n ns IH]; intros prev s pos cur caps r H.
  - simpl. eauto.
  - destruct n; simpl in H |- *.
    + destruct H as (s' & -> & H). rewrite Ascii.eqb_refl. eauto.
    + destruct H as (a & s' & -> & Ha & H). rewrite Ha. eauto.
    + destruct H as (w & s' & -> & Hw & H).
      revert prev pos cur H. induction w as [|a w IHw]; intros prev pos cur H.
      * simpl in H. rewrite append_nil_r, Nat.add_0_r in H.
        apply IH in H as (r' & H). simpl.
        destruct s' as [|a s']; [eauto|].
        destruct (in_cls k a); [|eauto].
        match goal with
        | |- exists _, match ?x with _ => _ end = _ => destruct x; eauto
        end.
      * simpl in Hw. apply andb_true_iff in Hw as [Ha Hw].
        simpl. rewrite Ha.
        destruct (IHw Hw (Some a) (S pos) (cur ++ String a "")%string)
          as (r' & ->); [|eauto].
        simpl in H. rewrite append_assoc_string. simpl.
        now rewrite Nat.add_succ_r in H.
    + destruct H as (w & s' & Hin & -> & H).
      apply IH in H as (r' & H).
      induction alts as [|w0 alts IHa]; [destruct Hin|].
      destruct (eat w0 (w ++ s')%string) as [s0|] eqn:E.
      * match goal with
        | |- exists _, match ?x with _ => _ end = _ =>
            destruct x eqn:E0; [eauto|]
        end.
        destruct Hin as [->|Hin]; [|now apply IHa].
        rewrite eat_prefix in E. injection E as <-. congruence.
      * destruct Hin as [->|Hin]; [|now apply IHa].
        now rewrite eat_prefix in E.
    + eauto.
    + eauto.
    + destruct H as [-> H]. simpl. eauto.
    + destruct H as [-> H]. eauto.
    + destruct H as (a & -> & -> & H). eauto.
    + destruct H as (a & s' & -> & -> & H). eauto.
Qed.

(** ** Lines written in the room's format are read back *)

Lemma lst_inj (a b : string) :
  list_ascii_of_string a = list_ascii_of_string b -> a = b.
Proof.
  intros H. rewrite <- (string_of_list_ascii_of_string a),
              <- (string_of_list_ascii_of_string b).
  now rewrite H.
Qed.

(** Two runs of digits, each followed by a character that is no digit,
    are the same run when the whole is the same. *)
Lemma digits_then_other (l1 l2 r1 r2 : list ascii) (x y : ascii) :
  Forall (fun c => is_digit c = true) l1 ->
  Forall (fun c => is_digit c = true) l2 ->
  is_digit x = false -> is_digit y = false ->
  (l1 ++ x :: r1 = l2 ++ y :: r2)%list ->
  l1 = l2 /\ x = y /\ r1 = r2.
Proof.
  intros H1. revert l2. induction H1 as [|a l1 Ha _ IH]; intros l2 H2 Hx Hy E.
  - destruct H2 as [|b l2 Hb _]; simpl in E.
    + injection E as -> ->. auto.
    + injection E as -> _. congruence.
  - destruct H2 as [|b l2 Hb H2]; simpl in E.
    + injection E as -> _. congruence.
    + injection E as -> E. destruct (IH l2 H2 Hx Hy E) as (-> & -> & ->).
      auto.
Qed.

(** Drops the equal heads of an equation between two strings. *)
Ltac peel_string E :=
  repeat match type of E with
         | String ?a _ = String ?a _ => injection E as E
         end.

(** Turns an equation between reversed strings into one between the
    strings. *)
Ltac unrev :=
  repeat match goal with
         | H : rev (list_ascii_of_string _) = rev (list_ascii_of_string _)
           |- _ =>
             apply (f_equal (@rev ascii)) in H;
             rewrite !rev_involutive in H; apply lst_inj in H
         end.

(** Builds the acceptance of a line by a pattern, piece by piece. *)
Ltac accept :=
  simpl;
  repeat first
    [ split; [reflexivity|]
    | split; [assumption|]
    | eexists; split; [reflexivity|]
    | eexists; eexists; split; [reflexivity|] ];
  try reflexivity.

Section RoundTrips.
Context {pkg : Package}.


Lemma sem_re_match (r : list node) (line : string) x :
  sem r None line 0 "" [] x -> exists m, re_match r line = Some m.
Proof.
  intros H. apply sem_go in H as ([caps e] & H).
  unfold re_match. rewrite H. eauto.
Qed.



Lemma table_shape_unique (d d' b b' : ascii) (nm w tail : string) :
  at_eol tail = true ->
  ("Table '" ++ nm ++ "' " ++ String d ("-max Seat #"
     ++ String b " is the button"))%string
  = ("Table '" ++ w ++ "' " ++ String d' ("-max Seat #"
       ++ String b' (" is the button" ++ tail)))%string ->
  w = nm /\ d' = d /\ b' = b.
Proof.
  intros Heol E. simpl in E. peel_string E.
  apply (f_equal list_ascii_of_string) in E.
  repeat (simpl in E; rewrite ?lst_app in E).
  apply (f_equal (@rev ascii)) in E.
  destruct tail as [|c [|c' tail]]; simpl in Heol; try discriminate.
  - repeat (rewrite ?rev_app_distr, <- ?app_assoc in E; simpl in E).
    peel E. unrev. subst. auto.
  - repeat (rewrite ?rev_app_distr, <- ?app_assoc in E; simpl in E).
    destruct (Ascii.eqb_spec c "010"%char) as [->|]; [|discriminate].
    discriminate E.
Qed.

(** X2.  The table line in the room's format is read back whole, whatever the
    table name holds, quotes included: the name, the seat count and, for
    [_parse_button], the button seat. *)
Theorem table_line_round_trip (self : hand) (d b : ascii) (nm : string) :
  is_digit d = true -> is_digit b = true -> all_cls CAny nm = true ->
  getitem (_splitted self) 1
  = OK ("Table '" ++ nm ++ "' " ++ String d ("-max Seat #"
          ++ String b " is the button"))%string ->
  exists m,
    group m 1 = nm /\ group m 2 = String d "" /\
    group m g_button = String b "" /\
    int (group m g_button) = OK (digit_val b) /\
    _parse_table self
    = OK (set_max_players (Some (digit_val d))
            (set_table_name (Some nm) (set__table_match (Some m) self))).
Proof.
  intros Hd Hb Hn Hline.
  assert (exists r, sem _table_re None
            ("Table '" ++ nm ++ "' " ++ String d ("-max Seat #"
               ++ String b " is the button"))
            0 "" [] r) as (r & H).
  { eexists. unfold _table_re. accept. }
  apply sem_re_match in H as (m & Hm). exists m.
  pose proof Hm as Hshape.
  apply table_match_shape in Hshape
    as (w & d1 & d2 & tail & E & _ & _ & Heol & G1 & G2 & G3).
  destruct (table_shape_unique _ _ _ _ _ _ _ Heol E) as (-> & -> & ->).
  unfold g_button. rewrite G3, (proj1 (int_digit b Hb)).
  repeat (split; [assumption || reflexivity|]).
  unfold _parse_table.
  rewrite (bind_OK_eq _ _ _ Hline), Hm. unfold mgroup. unfold_monad.
  now rewrite G1, G2, (proj1 (int_digit d Hd)).
Qed.

(** X3.  The button is the player at index (button seat - 1).  A button seat
    of 0 reaches the last player; a button seat beyond the player array
    raises. *)
Theorem button_by_seat (self : hand) (m : list string) (b : Z)
    (ps : list (_Player Combo)) :
  _table_match self = Some m ->
  int (group m g_button) = OK b ->
  players self = Some ps ->
  (1 <= b <= Z.of_nat (List.length ps) ->
   exists p, ps !! Z.to_nat (b - 1) = Some p /\
             _parse_button self = OK (set_button (Some p) self))
  /\ (b = 0 -> ps <> [] ->
      exists p, last ps = Some p /\
                _parse_button self = OK (set_button (Some p) self))
  /\ ((Z.of_nat (List.length ps) < b \/ b = 0 /\ ps = []) ->
      _parse_button self = Raise IndexError).
Proof.
  intros Hm Hb Hps.
  assert (Hstage : _parse_button self
            = (p ← getitem ps (b - 1); mret (set_button (Some p) self))).
  { unfold _parse_button. rewrite Hm, Hps. unfold mgroup, attr. unfold_monad.
    now rewrite Hb. }
  rewrite Hstage. unfold getitem. split; [|split].
  - intros Hr.
    rewrite (proj2 (Z.ltb_ge (b - 1) 0)) by lia.
    rewrite (proj2 (Z.leb_le 0 (b - 1))) by lia.
    rewrite (proj2 (Z.ltb_lt (b - 1) _)) by lia. cbn [andb].
    destruct (ps !! Z.to_nat (b - 1)) as [p|] eqn:E.
    + exists p. split; reflexivity.
    + apply lookup_ge_None in E. lia.
  - intros -> Hne.
    assert (0 < Z.of_nat (List.length ps))
      by (destruct ps; simpl; [congruence|lia]).
    change (0 - 1) with (-1).
    rewrite (proj2 (Z.ltb_lt (-1) 0)) by lia.
    rewrite (proj2 (Z.leb_le 0 (-1 + Z.of_nat (List.length ps)))) by lia.
    rewrite (proj2 (Z.ltb_lt (-1 + Z.of_nat (List.length ps)) _)) by lia.
    cbn [andb].
    replace (Z.to_nat (-1 + Z.of_nat (List.length ps)))
      with (Nat.pred (List.length ps)) by lia.
    rewrite <- last_lookup.
    destruct (last ps) as [p|] eqn:E.
    + exists p. split; reflexivity.
    + apply last_None in E. congruence.
  - intros [Hr|[-> ->]].
    + assert (0 <= b) by lia.
      destruct (Z.ltb_spec (b - 1) 0).
      * replace (0 <=? b - 1 + Z.of_nat (List.length ps)) with false
          by (symmetry; apply Z.leb_gt; lia). reflexivity.
      * rewrite (proj2 (Z.ltb_ge (b - 1) _)) by lia.
        now rewrite andb_false_r.
    + reflexivity.
Qed.



Lemma has_prefix_here (p s : string) : has_prefix p (p ++ s) = true.
Proof.
  induction p as [|c p IH]; simpl; [reflexivity|].
  now rewrite Ascii.eqb_refl.
Qed.

Lemma contains_at_head (sub s : string) :
  has_prefix sub s = true -> contains sub s = true.
Proof. intros H. destruct s; simpl; now rewrite H. Qed.

Lemma contains_inside (sub a b : string) :
  contains sub (a ++ sub ++ b) = true.
Proof.
  induction a as [|c a IH].
  - change (contains sub (sub ++ b) = true).
    apply contains_at_head, has_prefix_here.
  - simpl. rewrite IH. apply orb_true_r.
Qed.

(** What the pattern of the winners without show-down accepts. *)
Lemma winner_match_shape (line : string) (m : list string) :
  re_match _winner_re line = Some m ->
  exists d w a tail,
    line = ("Seat " ++ String d (": " ++ w ++ " collected (" ++ a ++ ")"
              ++ tail))%string /\
    is_digit d = true /\ all_cls CDigit a = true /\ at_eol tail = true /\
    group m 1 = String d "" /\ group m 2 = w /\ group m 3 = a.
Proof.
  unfold re_match.
  destruct (go _ _ _ _ _ _) as [[caps e]|] eqn:E; [|discriminate].
  intros [= <-]. apply go_sem in E. unfold _winner_re in E.
  destruct_sem E.
  match goal with H : (_, _) = (_, _) |- _ => finish_shape H end.
Qed.

Lemma winner_shape_unique (d d' : ascii) (nm w amt a tail : string) :
  all_digits amt = true -> all_cls CDigit a = true -> at_eol tail = true ->
  ("Seat " ++ String d (": " ++ nm ++ " collected (" ++ amt ++ ")"))%string
  = ("Seat " ++ String d' (": " ++ w ++ " collected (" ++ a ++ ")"
       ++ tail))%string ->
  w = nm.
Proof.
  intros Ha Ha' Heol E.
  rewrite all_cls_digit in Ha'.
  apply all_digits_Forall, Forall_rev in Ha, Ha'.
  simpl in E. injection E as _ E.
  apply (f_equal list_ascii_of_string) in E.
  repeat (simpl in E; rewrite ?lst_app in E).
  apply (f_equal (@rev ascii)) in E.
  destruct tail as [|c [|c' tail]]; simpl in Heol; try discriminate.
  - repeat (rewrite ?rev_app_distr, <- ?app_assoc in E; simpl in E).
    peel E.
    apply digits_then_other in E as (_ & _ & E);
      [|assumption|assumption|reflexivity|reflexivity].
    peel E. unrev. now subst.
  - repeat (rewrite ?rev_app_distr, <- ?app_assoc in E; simpl in E).
    apply Ascii.eqb_eq in Heol. unfold newline in Heol. subst c.
    discriminate E.
Qed.

Lemma contains_collected_summary (d : ascii) (nm amt : string) :
  contains "collected"
    ("Seat " ++ String d (": " ++ nm ++ " collected (" ++ amt ++ ")"))
  = true.
Proof.
  change ("Seat " ++ String d (": " ++ nm ++ " collected (" ++ amt ++ ")"))
    with (("Seat " ++ String d ": ") ++ nm ++ " collected (" ++ amt ++ ")")
      %string.
  rewrite <- append_assoc_string.
  change (" collected (" ++ amt ++ ")")%string
    with (" " ++ "collected" ++ (" (" ++ amt ++ ")"))%string.
  rewrite <- append_assoc_string. apply contains_inside.
Qed.

Lemma winner_line_round_trip (self : hand) (d : ascii) (nm amt : string)
    (w : gset string) :
  show_down self = Some false ->
  is_digit d = true -> all_cls CAny nm = true -> all_digits amt = true ->
  winner_line self
    ("Seat " ++ String d (": " ++ nm ++ " collected (" ++ amt ++ ")")) w
  = OK ({[ nm ]} ∪ w).
Proof.
  intros Hsd Hd Hn Ha.
  assert (exists x, sem _winner_re None
            ("Seat " ++ String d (": " ++ nm ++ " collected (" ++ amt ++ ")"))
            0 "" [] x) as (x & H).
  { rewrite <- all_cls_digit in Ha. eexists. unfold _winner_re. accept. }
  apply sem_re_match in H as (m & Hm).
  unfold winner_line. rewrite Hsd. unfold attr. unfold_monad. cbn [negb andb].
  rewrite contains_collected_summary, Hm. unfold mgroup.
  apply winner_match_shape in Hm
    as (d' & w' & a & tail & E & _ & Ha' & Heol & _ & -> & _).
  now rewrite (winner_shape_unique _ _ _ _ _ _ _ Ha Ha' Heol E).
Qed.

(** X5.  Winner resolution reads the lines from the fourth after the
    last section boundary on.  Without show-down, when each of these
    either has no "collected" in it or is written "Seat d: text
    collected (n)", winner resolution succeeds and the winners are
    exactly the texts between the seat and " collected (" of these
    lines, position tags such as "(button)" included. *)
Theorem winners_of_collected_lines (self : hand) (sl : Z) :
  show_down self = Some false ->
  getitem (_sections self) (-1) = OK sl ->
  Forall (fun l => contains "collected" l = false \/
                   exists d nm amt, collected_summary d nm amt l)
         (list_slice (_splitted self) (sl + 4) None) ->
  exists ws,
    _parse_winners self = OK (set_winners (Some ws) self) /\
    NoDup ws /\
    forall nm,
      In nm ws <->
      exists d amt l,
        In l (list_slice (_splitted self) (sl + 4) None) /\
        collected_summary d nm amt l.
Proof.
  intros Hsd Hsl Hall.
  assert (Hloop : forall lines w,
    Forall (fun l => contains "collected" l = false \/
                     exists d nm amt, collected_summary d nm amt l) lines ->
    exists w',
      winner_lines self lines w = OK w' /\
      forall nm, nm ∈ w' <->
                 nm ∈ w \/ exists d amt l, In l lines /\
                                            collected_summary d nm amt l).
  { induction lines as [|l lines IH]; intros w Hl.
    - exists w. split; [reflexivity|]. intros nm. split; [now left|].
      intros [H|(d & amt & l & [] & _)]. exact H.
    - apply Forall_cons in Hl as [Hhd Htl]. simpl.
      destruct Hhd as [Hno|(d & nm0 & amt & Hd & Hn & Ha & ->)].
      + assert (winner_line self l w = OK w) as ->.
        { unfold winner_line. rewrite Hsd. unfold attr. unfold_monad.
          now rewrite Hno. }
        unfold_monad. destruct (IH w Htl) as (w' & Hw' & Hiff).
        exists w'. split; [exact Hw'|]. intros nm. rewrite Hiff. split.
        * intros [H|(d & amt & l' & Hin & Hc)]; [now left|right].
          exists d, amt, l'. split; [now right|exact Hc].
        * intros [H|(d & amt & l' & [<-|Hin] & Hc)]; [now left| |right; eauto].
          destruct Hc as (_ & _ & _ & ->).
          rewrite contains_collected_summary in Hno. discriminate.
      + rewrite (winner_line_round_trip self d nm0 amt w Hsd Hd Hn Ha).
        unfold_monad. destruct (IH ({[nm0]} ∪ w) Htl) as (w' & Hw' & Hiff).
        exists w'. split; [exact Hw'|]. intros nm. rewrite Hiff.
        rewrite elem_of_union, elem_of_singleton. split.
        * intros [[->|H]|(d1 & amt1 & l' & Hin & Hc)].
          -- right. eexists d, amt, _. split; [now left|].
             repeat split; assumption.
          -- now left.
          -- right. exists d1, amt1, l'. split; [now right|exact Hc].
        * intros [H|(d1 & amt1 & l' & [<-|Hin] & Hc)].
          -- left. now right.
          -- left. left. destruct Hc as (_ & _ & Ha1 & E).
             rewrite <- all_cls_digit in Ha1.
             exact (winner_shape_unique d d1 nm0 nm amt amt1 "" Ha Ha1
                      eq_refl E).
          -- right. eauto. }
  destruct (Hloop _ ∅ Hall) as (w' & Hw' & Hiff).
  exists (elements w'). split; [|split].
  - unfold _parse_winners. rewrite (bind_OK_eq _ _ _ Hsl). cbv zeta.
    now rewrite Hw'.
  - apply NoDup_elements.
  - intros nm. rewrite <- list_elem_of_In, elem_of_elements, Hiff. split.
    + intros [H|H]; [now apply not_elem_of_empty in H|exact H].
    + intros H. now right.
Qed.

(** What the hero pattern accepts, and the groups it captures. *)
Lemma hero_match_shape (line : string) (m : list string) :
  re_match _hero_re line = Some m ->
  exists w a b c d tail,
    line = ("Dealt to " ++ w ++ " ["
              ++ String a (String b (String " "
                   (String c (String d (String "]" tail))))))%string /\
    at_eol tail = true /\
    group m g_hero_name = w /\ group m 2 = String a (String b "") /\
    group m 3 = String c (String d "").
Proof.
  unfold re_match.
  destruct (go _ _ _ _ _ _) as [[caps e]|] eqn:E; [|discriminate].
  intros [= <-]. apply go_sem in E. unfold _hero_re in E.
  destruct_sem E.
  match goal with H : (_, _) = (_, _) |- _ => finish_shape H end.
Qed.

(** X6.  The reveal line "Dealt to name [ab cd]" is read back whole, whatever
    the name holds (spaces and brackets included), and, once the name is
    found among the players, hero resolution succeeds: the found entry
    with the combo built from "abcd" replaces the entry at its index and
    becomes the hero, and also the button when the button has that
    name. *)
Theorem hero_line_round_trip (self : hand) (s0 : Z) (nm : string)
    (a b c d : ascii) (ps : list (_Player Combo)) (hero0 bt : _Player Combo)
    (i : Z) (cb : Combo) :
  getitem (_sections self) 0 = OK s0 ->
  getitem (_splitted self) (s0 + 2)
  = OK ("Dealt to " ++ nm ++ " ["
          ++ String a (String b (String " "
               (String c (String d "]")))))%string ->
  all_cls CAny nm = true ->
  all_cls CAny (String a (String b (String c (String d "")))) = true ->
  players self = Some ps ->
  button self = Some bt ->
  _get_hero_from_players ps nm = OK (hero0, i) ->
  Combo_of (String a (String b (String c (String d "")))) = OK cb ->
  let hero1 := _replace_combo hero0 cb in
  let self1 :=
    set_hero (Some hero1)
      (set_players (Some (<[Z.to_nat i := hero1]> ps)) self) in
  _parse_hero self
  = OK (if String.eqb (name bt) nm
        then set_button (Some hero1) self1 else self1).
Proof.
  intros Hs0 Hline Hn Hc Hps Hbt Hfind Hcb hero1 self1.
  simpl in Hc. rewrite andb_true_r in Hc.
  apply andb_true_iff in Hc as [Ha Hc]. apply andb_true_iff in Hc as [Hb Hc].
  apply andb_true_iff in Hc as [Hc Hd].
  assert (exists x, sem _hero_re None
            ("Dealt to " ++ nm ++ " ["
               ++ String a (String b (String " "
                    (String c (String d "]")))))
            0 "" [] x) as (x & H).
  { eexists. unfold _hero_re. accept. }
  apply sem_re_match in H as (m & Hm).
  pose proof Hm as Hshape.
  apply hero_match_shape in Hshape
    as (w & a' & b' & c' & d' & tail & E & Heol & G1 & G2 & G3).
  assert (w = nm /\ a' = a /\ b' = b /\ c' = c /\ d' = d)
    as (-> & -> & -> & -> & ->).
  { simpl in E. peel_string E.
    apply (f_equal list_ascii_of_string) in E.
    repeat (simpl in E; rewrite ?lst_app in E).
    apply (f_equal (@rev ascii)) in E.
    destruct tail as [|x0 [|x1 tail]]; simpl in Heol; try discriminate.
    - repeat (rewrite ?rev_app_distr, <- ?app_assoc in E; simpl in E).
      peel E. unrev. subst. auto.
    - repeat (rewrite ?rev_app_distr, <- ?app_assoc in E; simpl in E).
      apply Ascii.eqb_eq in Heol. unfold newline in Heol. subst x0.
      discriminate E. }
  pose proof (_get_hero_from_players_found _ _ _ _ Hfind)
    as (Hi & Hlook & Hname).
  unfold _parse_hero.
  rewrite (bind_OK_eq _ _ _ Hs0), (bind_OK_eq _ _ _ Hline), Hm.
  unfold mgroup. rewrite G1, G2, G3, Hps.
  change (attr (Some ps)) with (OK ps).
  unfold_monad. rewrite Hfind.
  change (String a (String b "") ++ String c (String d ""))%string
    with (String a (String b (String c (String d "")))).
  rewrite Hcb.
  assert (Hset : setitem ps i (_replace_combo hero0 cb)
                 = OK (<[Z.to_nat i := _replace_combo hero0 cb]> ps)).
  { unfold setitem. apply lookup_lt_Some in Hlook.
    rewrite (proj2 (Z.ltb_ge i 0)) by lia.
    rewrite (proj2 (Z.leb_le 0 i)) by lia.
    rewrite (proj2 (Z.ltb_lt i _)) by lia. reflexivity. }
  rewrite Hset.
  assert (Hb' : button (set_hero (Some (_replace_combo hero0 cb))
                   (set_players
                      (Some (<[Z.to_nat i := _replace_combo hero0 cb]> ps))
                      self)) = Some bt) by (now destruct self).
  rewrite Hb'. unfold attr.
  change (name (_replace_combo hero0 cb)) with (name hero0). rewrite Hname.
  subst hero1 self1. now destruct (String.eqb (name bt) nm).
Qed.

End RoundTrips.

(** ** Looking up and slicing in a line built from pieces *)

Lemma find_aux_free (c : ascii) (sub pre s : string) (i : Z) :
  contains (String c "") pre = false ->
  find_aux (String c sub) (pre ++ s) i 0
  = find_aux (String c sub) s (i + Z.of_nat (String.length pre)) 0.
Proof.
  revert i. induction pre as [|x pre IH]; intros i H.
  - simpl. now rewrite Z.add_0_r.
  - simpl in H. apply orb_false_iff in H as [Hc Hn].
    rewrite andb_true_r in Hc.
    simpl. rewrite Hc. simpl. rewrite IH by exact Hn. f_equal. lia.
Qed.

Lemma find_aux_here (sub s : string) (i : Z) :
  has_prefix sub s = true -> find_aux sub s i 0 = i.
Proof. intros H. destruct s; simpl in *; now rewrite H. Qed.

Lemma find_aux_absent (c : ascii) (sub s : string) (i : Z) :
  contains (String c "") s = false -> find_aux (String c sub) s i 0 = -1.
Proof.
  revert i. induction s as [|x s IH]; intros i H; [reflexivity|].
  simpl in H. apply orb_false_iff in H as [Hc Hn].
  rewrite andb_true_r in Hc. simpl. rewrite Hc. simpl. now apply IH.
Qed.

Lemma find_aux_skip (sub pre s : string) (i : Z) :
  find_aux sub (pre ++ s) i (String.length pre)
  = find_aux sub s (i + Z.of_nat (String.length pre)) 0.
Proof.
  revert i. induction pre as [|x pre IH]; intros i.
  - simpl. now rewrite Z.add_0_r.
  - simpl String.length. cbn [String.append find_aux]. rewrite IH.
    f_equal. lia.
Qed.

Lemma find_from_skip (sub pre s : string) (start : Z) :
  start = Z.of_nat (String.length pre) ->
  find_from (pre ++ s) sub start = find_aux sub s start 0.
Proof.
  intros ->. unfold find_from.
  destruct (Z.ltb_spec (Z.of_nat (String.length pre)) 0); [lia|].
  rewrite Nat2Z.id, find_aux_skip. f_equal.
Qed.

Lemma substring_skip (a b : string) (n : nat) :
  String.substring (String.length a) n (a ++ b) = String.substring 0 n b.
Proof. induction a as [|x a IH]; simpl; [reflexivity|exact IH]. Qed.

Lemma substring_all (b : string) :
  String.substring 0 (String.length b) b = b.
Proof. induction b as [|x b IH]; simpl; [reflexivity|now rewrite IH]. Qed.

Lemma str_slice_mid (a b c : string) (lo hi : Z) :
  lo = Z.of_nat (String.length a) ->
  hi = Z.of_nat (String.length a + String.length b) ->
  str_slice (a ++ b ++ c) (Some lo) (Some hi) = b.
Proof.
  intros -> ->. unfold str_slice, slice_bound.
  rewrite !length_app_string.
  destruct (Z.ltb_spec (Z.of_nat (String.length a)) 0); [lia|].
  destruct (Z.ltb_spec (Z.of_nat (String.length a + String.length b)) 0);
    [lia|].
  rewrite !Z.min_l by lia.
  replace (Z.to_nat (Z.of_nat (String.length a + String.length b)
                     - Z.of_nat (String.length a)))
    with (String.length b) by lia.
  rewrite Nat2Z.id, substring_skip. apply substring_0_app.
Qed.

Lemma str_slice_tail (a b : string) (lo : Z) :
  lo = Z.of_nat (String.length a) ->
  str_slice (a ++ b) (Some lo) None = b.
Proof.
  intros ->. unfold str_slice, slice_bound. rewrite length_app_string.
  destruct (Z.ltb_spec (Z.of_nat (String.length a)) 0); [lia|].
  rewrite Z.min_l by lia.
  replace (Z.to_nat (Z.of_nat (String.length a + String.length b)
                     - Z.of_nat (String.length a)))
    with (String.length b) by lia.
  rewrite Nat2Z.id, substring_skip. apply substring_all.
Qed.

(** A numeral [Decimal] accepts holds digits, a dot and a sign only. *)
Lemma digits_free (c : ascii) (w : string) :
  is_digit c = false -> all_digits w = true ->
  contains (String c "") w = false.
Proof.
  intros Hc. induction w as [|x w IH]; intros H; [reflexivity|].
  simpl in H. apply andb_true_iff in H as [Hx Hw].
  simpl. rewrite (digit_is_not x c Hx Hc). simpl. now apply IH.
Qed.

Lemma split_dot_free (c : ascii) (b ip : string) (fp : option string) :
  is_digit c = false -> c <> "."%char ->
  split_dot b = (ip, fp) ->
  all_digits (ip ++ match fp with Some f => f | None => "" end) = true ->
  contains (String c "") b = false.
Proof.
  intros Hc Hdot. revert ip fp.
  induction b as [|x b IH]; intros ip fp E H; [reflexivity|].
  simpl in E. destruct (Ascii.eqb_spec x ".") as [->|Hx].
  - injection E as <- <-. simpl in H. cbn [contains has_prefix].
    destruct (Ascii.eqb_spec "."%char c) as [<-|_]; [congruence|].
    simpl. now apply digits_free.
  - destruct (split_dot b) as [a0 f0] eqn:Eb. injection E as <- <-.
    simpl in H. apply andb_true_iff in H as [Hd H].
    simpl. rewrite (digit_is_not x c Hd Hc). simpl. now apply (IH a0 f0).
Qed.

Lemma Decimal_free (c : ascii) (s : string) (a : decimal) :
  is_digit c = false -> c <> "."%char -> c <> "-"%char -> c <> "+"%char ->
  Decimal s = OK a -> contains (String c "") s = false.
Proof.
  intros Hc Hdot Hm Hp. unfold Decimal.
  assert (body_ok : forall b,
    (let '(ip, fp) := split_dot b in
     all_digits (ip ++ match fp with Some f => f | None => "" end) = true) ->
    contains (String c "") b = false).
  { intros b. destruct (split_dot b) as [ip fp] eqn:E.
    now apply (split_dot_free c b ip fp). }
  destruct s as [|x r]; [reflexivity|].
  destruct (Ascii.eqb_spec x "-") as [->|H1];
    [|destruct (Ascii.eqb_spec x "+") as [->|H2]].
  - destruct (split_dot r) as [ip fp] eqn:E.
    destruct (all_digits _) eqn:D; [intros _|cbn [andb]; discriminate].
    cbn [contains has_prefix].
    destruct (Ascii.eqb_spec "-"%char c) as [<-|_]; [congruence|]. simpl.
    apply body_ok. now rewrite E.
  - destruct (split_dot r) as [ip fp] eqn:E.
    destruct (all_digits _) eqn:D; [intros _|cbn [andb]; discriminate].
    cbn [contains has_prefix].
    destruct (Ascii.eqb_spec "+"%char c) as [<-|_]; [congruence|]. simpl.
    apply body_ok. now rewrite E.
  - destruct (split_dot (String x r)) as [ip fp] eqn:E.
    destruct (all_digits _) eqn:D; [intros _|cbn [andb]; discriminate].
    apply (body_ok (String x r)). now rewrite E.
Qed.

Section ActionLines.
Context {pkg : Package}.
Import Flop.

(** X7.  The line "Uncalled bet (amt) returned to name" is read back whole:
    the amount between the parentheses and, as the name, everything after
    the first "to ", whatever the name holds. *)
Theorem uncalled_line_round_trip (ip pot : decimal) (amt nm : string)
    (a : decimal) :
  Decimal amt = OK a ->
  let line := ("Uncalled bet (" ++ amt ++ ") returned to " ++ nm)%string in
  _parse_uncalled line = OK (nm, RETURN, Some a) /\
  parse_action_line ip pot line = OK ((nm, RETURN, Some a), pot).
Proof.
  intros Ha line.
  assert (Hpar : contains ")" amt = false)
    by (apply (Decimal_free ")" amt a); [reflexivity|discriminate..|exact Ha]).
  assert (Ht : contains "t" amt = false)
    by (apply (Decimal_free "t" amt a); [reflexivity|discriminate..|exact Ha]).
  assert (H1 : find line "(" = 13) by reflexivity.
  assert (H2 : find line ")" = 14 + Z.of_nat (String.length amt)).
  { unfold find, line. simpl.
    rewrite (find_aux_free ")" "" amt _ _ Hpar). simpl. lia. }
  assert (H3 : find line "to " = 25 + Z.of_nat (String.length amt)).
  { unfold find, line. simpl.
    rewrite (find_aux_free "t" "o " amt _ _ Ht). simpl. lia. }
  assert (Hu : _parse_uncalled line = OK (nm, RETURN, Some a)).
  { unfold _parse_uncalled. rewrite H1, H2, H3.
    replace (str_slice line (Some (13 + 1))
               (Some (14 + Z.of_nat (String.length amt)))) with amt.
    2:{ symmetry.
        apply (str_slice_mid "Uncalled bet (" amt (") returned to " ++ nm));
          simpl String.length; lia. }
    replace (str_slice line
               (Some (25 + Z.of_nat (String.length amt) + 3)) None) with nm.
    2:{ symmetry. unfold line.
        rewrite <- (append_assoc_string amt ") returned to " nm).
        rewrite <- (append_assoc_string "Uncalled bet (" _ nm).
        apply str_slice_tail. rewrite !length_app_string.
        simpl String.length. lia. }
    now rewrite Ha. }
  split; [exact Hu|].
  unfold parse_action_line.
  change (startswith line "Uncalled bet") with true. cbv iota.
  now rewrite Hu.
Qed.

Lemma find_colon (nm rest : string) :
  contains ":" nm = false ->
  find (nm ++ String ":" rest) ":" = Z.of_nat (String.length nm).
Proof.
  intros H. unfold find. rewrite (find_aux_free ":" "" nm _ _ H).
  now rewrite find_aux_here.
Qed.

Lemma Decimal_raises (s : string) (e : exception) :
  Decimal s = Raise e -> e = InvalidOperation.
Proof.
  unfold Decimal.
  repeat match goal with
         | |- context [match ?x with _ => _ end] => destruct x
         end; congruence.
Qed.

Lemma Decimal_with_blank (x y : string) :
  Decimal (x ++ " " ++ y) = Raise InvalidOperation.
Proof.
  destruct (Decimal (x ++ " " ++ y)) as [a|e] eqn:D.
  - apply (Decimal_free " " _ a) in D;
      [|reflexivity|discriminate|discriminate|discriminate].
    now rewrite (contains_inside " " x y) in D.
  - now rewrite (Decimal_raises _ _ D).
Qed.

Lemma player_action_steps (nm verb amt : string) :
  contains ":" nm = false ->
  contains " " verb = false ->
  _parse_player_action (nm ++ ": " ++ verb ++ " " ++ amt)
  = (act ← Action_of verb; a ← Decimal amt; mret (nm, act, Some a))
  /\ _parse_player_action (nm ++ ": " ++ verb)
     = (act ← Action_of verb; mret (nm, act, None)).
Proof.
  intros Hn Hv. split.
  - unfold _parse_player_action.
    change (nm ++ ": " ++ verb ++ " " ++ amt)%string
      with (nm ++ String ":" (" " ++ verb ++ " " ++ amt))%string.
    rewrite (find_colon nm _ Hn), str_slice_head.
    change (nm ++ String ":" (" " ++ verb ++ " " ++ amt))%string
      with (nm ++ ": " ++ verb ++ String " " amt)%string.
    rewrite <- (append_assoc_string nm ": " (verb ++ String " " amt)).
    rewrite (find_from_skip " " (nm ++ ": ") _ _)
      by (rewrite length_app_string; simpl String.length; lia).
    rewrite (find_aux_space verb amt _ Hv).
    set (i := Z.of_nat (String.length nm) + 2
              + Z.of_nat (String.length verb)).
    destruct (Z.eqb_spec i (-1)) as [E|_]; [lia|].
    destruct (Z.eqb_spec i 0) as [E|_]; [lia|].
    rewrite (str_slice_mid (nm ++ ": ") verb (String " " amt))
      by (subst i; rewrite ?length_app_string; simpl String.length; lia).
    replace (str_slice ((nm ++ ": ") ++ verb ++ String " " amt)
               (Some (i + 1)) None) with amt; [reflexivity|].
    symmetry.
    change (verb ++ String " " amt)%string with (verb ++ " " ++ amt)%string.
    rewrite <- (append_assoc_string verb " " amt).
    rewrite <- (append_assoc_string (nm ++ ": ") (verb ++ " ") amt).
    apply str_slice_tail. subst i.
    rewrite !length_app_string. simpl String.length. lia.
  - unfold _parse_player_action.
    change (nm ++ ": " ++ verb)%string
      with (nm ++ String ":" (" " ++ verb))%string.
    rewrite (find_colon nm _ Hn), str_slice_head.
    change (nm ++ String ":" (" " ++ verb))%string
      with (nm ++ ": " ++ verb)%string.
    rewrite <- (append_assoc_string nm ": " verb).
    rewrite (find_from_skip " " (nm ++ ": ") _ _)
      by (rewrite length_app_string; simpl String.length; lia).
    rewrite (find_aux_absent " " "" verb _ Hv).
    change (-1 =? -1) with true. cbv iota.
    rewrite (str_slice_tail (nm ++ ": ") verb)
      by (rewrite length_app_string; simpl String.length; lia).
    reflexivity.
Qed.

(** X8.  A player's line "name: verb amount" gives the name before the first
    colon, the action looked up under the verb and the numeral after it;
    a line "name: verb" gives name and action only.  The name may hold
    spaces.  A verb the enumeration does not know raises what the lookup
    raises, and the two amounts of "raises x to y" are read as one
    numeral, which raises InvalidOperation. *)
Theorem player_action_line (nm verb : string) :
  contains ":" nm = false ->
  contains " " verb = false ->
  (forall act amt a,
     Action_of verb = OK act -> Decimal amt = OK a ->
     _parse_player_action (nm ++ ": " ++ verb ++ " " ++ amt)
     = OK (nm, act, Some a))
  /\ (forall act,
        Action_of verb = OK act ->
        _parse_player_action (nm ++ ": " ++ verb) = OK (nm, act, None))
  /\ (forall e amt,
        Action_of verb = Raise e ->
        _parse_player_action (nm ++ ": " ++ verb ++ " " ++ amt) = Raise e /\
        _parse_player_action (nm ++ ": " ++ verb) = Raise e)
  /\ (forall act x y,
        Action_of verb = OK act ->
        _parse_player_action (nm ++ ": " ++ verb ++ " " ++ x ++ " to " ++ y)
        = Raise InvalidOperation).
Proof.
  intros Hn Hv. repeat split.
  - intros act amt a Hact Ha.
    rewrite (proj1 (player_action_steps nm verb amt Hn Hv)).
    now rewrite Hact, Ha.
  - intros act Hact.
    rewrite (proj2 (player_action_steps nm verb "" Hn Hv)).
    now rewrite Hact.
  - rewrite (proj1 (player_action_steps nm verb amt Hn Hv)).
    now rewrite H.
  - rewrite (proj2 (player_action_steps nm verb "" Hn Hv)).
    now rewrite H.
  - intros act x y Hact.
    rewrite (proj1 (player_action_steps nm verb _ Hn Hv)).
    rewrite Hact.
    change (x ++ " to " ++ y)%string with (x ++ " " ++ ("to " ++ y))%string.
    unfold_monad. now rewrite Decimal_with_blank.
Qed.

(** X9.  A collect line is cut at its first three spaces: the name is
    the first word and the amount the third; the pot handed back is the
    sum of the initial pot and that amount as the default decimal
    context gives it.  A name of two words leaves the word "collected"
    where the amount is looked for, and the line raises. *)
Theorem collected_line_words (ip : decimal) (w1 w2 w3 rest : string) :
  contains " " w1 = false ->
  contains " " w2 = false ->
  contains " " w3 = false ->
  let line := (w1 ++ " " ++ w2 ++ " " ++ w3 ++ " " ++ rest)%string in
  collected_name line = w1 /\ collected_amount line = w3 /\
  (forall a p,
     Decimal w3 = OK a -> dec_add ip a = OK p ->
     _parse_collected ip line = OK ((w1, WIN, Some p), p)) /\
  (w3 = "collected" ->
   _parse_collected ip line = Raise InvalidOperation).
Proof.
  intros H1 H2 H3 line.
  assert (Hname : collected_name line = w1)
    by (apply (collected_name_head w1 _ H1)).
  assert (Hamt : collected_amount line = w3).
  { unfold collected_amount, line, find.
    change (w1 ++ " " ++ w2 ++ " " ++ w3 ++ " " ++ rest)%string
      with (w1 ++ String " " (w2 ++ " " ++ w3 ++ " " ++ rest))%string.
    rewrite (find_aux_space w1 _ 0 H1).
    change (w1 ++ String " " (w2 ++ " " ++ w3 ++ " " ++ rest))%string
      with (w1 ++ " " ++ w2 ++ String " " (w3 ++ String " " rest))%string.
    rewrite <- (append_assoc_string w1 " " _).
    rewrite (find_from_skip " " (w1 ++ " ") _ _)
      by (rewrite length_app_string; simpl String.length; lia).
    rewrite (find_aux_space w2 _ _ H2).
    rewrite <- (append_assoc_string (w1 ++ " ") w2 _).
    change (String " " (w3 ++ String " " rest))
      with (" " ++ w3 ++ String " " rest)%string.
    rewrite <- (append_assoc_string ((w1 ++ " ") ++ w2) " " _).
    rewrite (find_from_skip " " (((w1 ++ " ") ++ w2) ++ " ") _ _)
      by (rewrite !length_app_string; simpl String.length; lia).
    rewrite (find_aux_space w3 _ _ H3).
    apply (str_slice_mid _ w3 (String " " rest));
      rewrite !length_app_string; simpl String.length; lia. }
  split; [exact Hname|]. split; [exact Hamt|].
  unfold _parse_collected. rewrite Hname, Hamt.
  split; [intros a p Ha Hp; rewrite Ha; unfold_monad; now rewrite Hp|].
  now intros ->.
Qed.

(** X10.  A line "name: ..." that shows no hand gives the name before its first
    colon with the muck action and no amount; a line without any colon
    loses its last character instead (the index -1 of the failed search
    is taken as a slice bound). *)
Theorem muck_line_name (nm rest line : string) (c : ascii) :
  (contains ":" nm = false ->
   _parse_muck (nm ++ ":" ++ rest) = OK (nm, MUCK, None))
  /\ (contains ":" (line ++ String c "") = false ->
      _parse_muck (line ++ String c "") = OK (line, MUCK, None)).
Proof.
  split; intros H; unfold _parse_muck.
  - change (nm ++ ":" ++ rest)%string with (nm ++ String ":" rest)%string.
    now rewrite (find_colon nm rest H), str_slice_head.
  - unfold find. rewrite (find_aux_absent ":" "" _ 0 H).
    unfold str_slice, slice_bound. change (-1 <? 0) with true. cbv iota.
    rewrite length_app_string. simpl String.length.
    rewrite Z.max_r by lia.
    replace (Z.to_nat (-1 + Z.of_nat (String.length line + 1) - 0))
      with (String.length line) by lia.
    change (Z.to_nat 0) with 0%nat. now rewrite substring_0_app.
Qed.

(** X11.  The three flop cards are the characters 1-2, 4-5 and 7-8 of the board
    line, whatever stands between and after them. *)
Theorem flop_cards_positions (x0 a1 a2 x1 b1 b2 x2 c1 c2 : ascii)
    (rest : string) :
  _parse_cards
    (String x0 (String a1 (String a2 (String x1 (String b1 (String b2
       (String x2 (String c1 (String c2 rest)))))))))
  = (k1 ← Card_of (String a1 (String a2 ""));
     k2 ← Card_of (String b1 (String b2 ""));
     k3 ← Card_of (String c1 (String c2 ""));
     mret (k1, k2, k3)).
Proof.
  unfold _parse_cards.
  set (line := String x0 _).
  assert (Hlen : Z.of_nat (String.length line)
                 = 9 + Z.of_nat (String.length rest))
    by (unfold line; simpl String.length; lia).
  assert (S1 : str_slice line (Some 1) (Some 3) = String a1 (String a2 "")).
  { unfold str_slice, slice_bound. rewrite Hlen.
    change (1 <? 0) with false. change (3 <? 0) with false. cbv iota.
    rewrite !Z.min_l by lia. unfold line. reflexivity. }
  assert (S2 : str_slice line (Some 4) (Some 6) = String b1 (String b2 "")).
  { unfold str_slice, slice_bound. rewrite Hlen.
    change (4 <? 0) with false. change (6 <? 0) with false. cbv iota.
    rewrite !Z.min_l by lia. unfold line. reflexivity. }
  assert (S3 : str_slice line (Some 7) (Some 9) = String c1 (String c2 "")).
  { unfold str_slice, slice_bound. rewrite Hlen.
    change (7 <? 0) with false. change (9 <? 0) with false. cbv iota.
    rewrite !Z.min_l by lia. unfold line. now destruct rest. }
  now rewrite S1, S2, S3.
Qed.

End ActionLines.

(** ** Searching and slicing the line list *)

Lemma index_aux_first (x : string) (pre post : list string) (i : Z) :
  ~ In x pre ->
  index_aux x (pre ++ x :: post) i 0 = OK (i + Z.of_nat (List.length pre)).
Proof.
  revert i. induction pre as [|y pre IH]; intros i H; simpl.
  - rewrite String.eqb_refl. f_equal. lia.
  - destruct (String.eqb_spec y x) as [->|_].
    + exfalso. apply H. now left.
    + rewrite IH by (intros Hx; apply H; now right). f_equal. lia.
Qed.

Lemma index_aux_skip (x : string) (pre l : list string) (i : Z) :
  index_aux x (pre ++ l) i (List.length pre)
  = index_aux x l (i + Z.of_nat (List.length pre)) 0.
Proof.
  revert i. induction pre as [|y pre IH]; intros i.
  - simpl. rewrite Z.add_0_r. now destruct l.
  - simpl. rewrite IH. f_equal. lia.
Qed.

Lemma list_index_first (x : string) (pre post : list string) :
  ~ In x pre ->
  list_index (pre ++ x :: post) x = OK (Z.of_nat (List.length pre)).
Proof. intros H. unfold list_index. now rewrite index_aux_first. Qed.

Lemma list_index_from_skip (x : string) (pre l : list string) (start : Z) :
  start = Z.of_nat (List.length pre) ->
  list_index_from (pre ++ l) x start = index_aux x l start 0.
Proof.
  intros ->. unfold list_index_from.
  destruct (Z.ltb_spec (Z.of_nat (List.length pre)) 0); [lia|].
  now rewrite Nat2Z.id, index_aux_skip.
Qed.

Lemma list_slice_mid {A} (pre mid post : list A) (lo hi : Z) :
  lo = Z.of_nat (List.length pre) ->
  hi = Z.of_nat (List.length pre + List.length mid) ->
  list_slice (pre ++ mid ++ post) lo (Some hi) = mid.
Proof.
  intros -> ->. unfold list_slice, slice_bound.
  rewrite !length_app.
  destruct (Z.ltb_spec (Z.of_nat (List.length pre)) 0); [lia|].
  destruct (Z.ltb_spec
              (Z.of_nat (List.length pre + List.length mid)) 0); [lia|].
  rewrite !Z.min_l by lia.
  replace (Z.to_nat (Z.of_nat (List.length pre + List.length mid)
                     - Z.of_nat (List.length pre)))
    with (List.length mid) by lia.
  rewrite Nat2Z.id, drop_app_length. apply take_app_length.
Qed.

Lemma list_slice_tail {A} (pre l : list A) (lo : Z) :
  lo = Z.of_nat (List.length pre) ->
  list_slice (pre ++ l) lo None = l.
Proof.
  intros ->. unfold list_slice, slice_bound. rewrite length_app.
  destruct (Z.ltb_spec (Z.of_nat (List.length pre)) 0); [lia|].
  rewrite Z.min_l by lia.
  replace (Z.to_nat (Z.of_nat (List.length pre + List.length l)
                     - Z.of_nat (List.length pre)))
    with (List.length l) by lia.
  rewrite Nat2Z.id, drop_app_length. apply firstn_all.
Qed.

Lemma index_aux_beyond (x : string) (l : list string) (i : Z) (skip : nat) :
  (List.length l <= skip)%nat -> index_aux x l i skip = Raise ValueError.
Proof.
  revert i skip. induction l as [|y l IH]; intros i skip H; [reflexivity|].
  simpl in *. destruct skip as [|k]; [lia|]. apply IH. lia.
Qed.

Section Streets.
Context {pkg : Package}.
Import Flop.

Lemma other_line_keeps_pot ip pot line a pot' :
  collects line = false ->
  parse_action_line ip pot line = OK (a, pot') -> pot' = pot.
Proof.
  unfold collects, parse_action_line. intros Hc.
  destruct (startswith line "Uncalled bet").
  - intros H. apply bind_OK in H as (x & _ & [= _ <-]). reflexivity.
  - simpl in Hc. rewrite Hc.
    destruct (contains "doesn't show hand" line).
    + intros H. apply bind_OK in H as (x & _ & [= _ <-]). reflexivity.
    + destruct (contains ":" line); [|discriminate].
      intros H. apply bind_OK in H as (x & _ & [= _ <-]). reflexivity.
Qed.

Lemma other_lines_keep_pot ip (lines : list string) :
  forall pot acts pot',
    forallb (fun l => negb (collects l)) lines = true ->
    parse_action_lines ip pot lines = OK (acts, pot') -> pot' = pot.
Proof.
  induction lines as [|l lines IH]; intros pot acts pot' Hf H.
  - now injection H as _ <-.
  - simpl in Hf. apply andb_true_iff in Hf as [Hl Hf].
    apply negb_true_iff in Hl. simpl in H.
    apply bind_OK in H as ([a p1] & Hline & H).
    apply bind_OK in H as ([acts1 p2] & Hrest & [= _ <-]).
    apply (other_line_keeps_pot _ _ _ _ _ Hl) in Hline. subst p1.
    now apply (IH _ _ _ Hf Hrest).
Qed.

(** X12.  The pot of a flop is not accumulated over its lines: with no
    collect line it is the initial pot, otherwise the sum, as the default
    decimal context gives it, of the initial pot and the amount of the
    last collect line alone, whatever was collected before. *)
Theorem flop_pot_last_collect (boardline : string) (lines : list string)
    (ip : decimal) (f : _Flop) :
  new_Flop (boardline :: lines) ip = OK f ->
  _initial_pot f = ip /\
  (forallb (fun l => negb (collects l)) lines = true -> pot f = ip) /\
  (forall pre line post a,
     lines = (pre ++ line :: post)%list ->
     collects line = true ->
     forallb (fun l => negb (collects l)) post = true ->
     Decimal (collected_amount line) = OK a ->
     dec_add ip a = OK (pot f)).
Proof.
  unfold new_Flop. intros H.
  apply bind_OK in H as (b & _ & H).
  apply bind_OK in H as (cs & _ & H).
  apply bind_OK in H as ([acts pot'] & Hacts & [= <-]).
  pose proof (list_slice_tail [boardline] lines 1 eq_refl) as E.
  cbn [app] in E. rewrite E in Hacts. clear E.
  unfold _parse_actions in Hacts.
  apply bind_OK in Hacts as ([acts0 p0] & Hl & [= _ <-]).
  cbn [_initial_pot pot].
  split; [reflexivity|split].
  - intros Hf. now apply (other_lines_keep_pot _ _ _ _ _ Hf Hl).
  - intros pre line post a -> Hc Hf Ha.
    rewrite parse_action_lines_app in Hl.
    apply bind_OK in Hl as ([acts1 p1] & _ & Hl).
    apply bind_OK in Hl as ([acts2 p2] & Hl & [= _ <-]).
    simpl in Hl.
    apply bind_OK in Hl as ([a1 p3] & Hline & Hl).
    apply bind_OK in Hl as ([acts3 p4] & Hpost & [= _ <-]).
    apply (other_lines_keep_pot _ _ _ _ _ Hf) in Hpost. subst p4.
    unfold collects in Hc. apply andb_true_iff in Hc as [Hu Hc].
    apply negb_true_iff in Hu.
    unfold parse_action_line in Hline. rewrite Hu, Hc in Hline.
    unfold _parse_collected in Hline. rewrite Ha in Hline.
    cbn [mbind result_bind Py.bind] in Hline.
    apply bind_OK in Hline as (p & Hp & [= _ <-]). exact Hp.
Qed.

Import PokerStarsHandHistory.

(** X13.  The actions of a street are the lines from the second line after its
    first keyword up to the next empty line; the line right after the
    keyword is passed over unread, an empty stretch gives no actions, and
    the street's card is left as it was. *)
Theorem street_section (self : hand) (st : street) (x : string)
    (pre mid post : list string) :
  _splitted self
  = (pre ++ street_upper st :: x :: mid ++ "" :: post)%list ->
  ~ In (street_upper st) pre ->
  ~ In "" mid ->
  _parse_street self st
  = OK (set_street_actions st
          (match mid with [] => None | _ => Some mid end) self)
  /\ get_street st
       (set_street_actions st
          (match mid with [] => None | _ => Some mid end) self)
     = get_street st self.
Proof.
  intros Hl Hpre Hmid. split; [|now destruct st, self].
  assert (Hlines : street_lines self st = OK mid).
  { unfold street_lines. rewrite Hl, (list_index_first _ _ _ Hpre).
    cbn [mbind result_bind Py.bind].
    replace (pre ++ street_upper st :: x :: mid ++ "" :: post)%list
      with ((pre ++ [street_upper st; x]) ++ mid ++ "" :: post)%list
      by (now rewrite <- app_assoc).
    rewrite (list_index_from_skip "" (pre ++ [street_upper st; x]) _ _)
      by (rewrite length_app; simpl; lia).
    rewrite (index_aux_first "" mid post _ Hmid).
    cbn [mbind result_bind Py.bind mret result_ret].
    f_equal. apply list_slice_mid; rewrite ?length_app; simpl; lia. }
  unfold _parse_street. now rewrite Hlines.
Qed.

(** X14.  The lines of the flop are those between the first "FLOP" and the next
    empty line, and the flop object is built from them; when the empty
    line follows at once there is no board line to read and the index
    error of the flop object comes out. *)
Theorem flop_section (self : hand) (ip : decimal)
    (pre mid post : list string) :
  _splitted self = (pre ++ "FLOP" :: mid ++ "" :: post)%list ->
  ~ In "FLOP" pre ->
  ~ In "" mid ->
  _parse_flop self ip
  = (f ← new_Flop mid ip; mret (set_flop (Some f) self))
  /\ (mid = [] -> _parse_flop self ip = Raise IndexError).
Proof.
  intros Hl Hpre Hmid.
  assert (E : _parse_flop self ip
              = (f ← new_Flop mid ip; mret (set_flop (Some f) self))).
  { unfold _parse_flop. rewrite Hl, (list_index_first _ _ _ Hpre).
    replace (pre ++ "FLOP" :: mid ++ "" :: post)%list
      with ((pre ++ ["FLOP"]) ++ mid ++ "" :: post)%list
      by (now rewrite <- app_assoc).
    rewrite (list_index_from_skip "" (pre ++ ["FLOP"]) _ _)
      by (rewrite length_app; simpl; lia).
    rewrite (index_aux_first "" mid post _ Hmid).
    cbn [mbind result_bind Py.bind].
    rewrite list_slice_mid; [reflexivity|..];
      rewrite ?length_app; simpl; lia. }
  split; [exact E|]. intros ->. now rewrite E.
Qed.

(** X15.  A street whose stretch is closed by no empty line: for the turn and
    the river the failed search is caught, and the street's card and
    actions are both unset; for the flop it is not, and the value error
    comes out. *)
Theorem unterminated_street (self : hand) (pre rest : list string) :
  (forall st,
     _splitted self = (pre ++ street_upper st :: rest)%list ->
     ~ In (street_upper st) pre ->
     ~ In "" (drop 1 rest) ->
     _parse_street self st
     = OK (set_street_actions st None (set_street st None self)))
  /\ (forall ip,
        _splitted self = (pre ++ "FLOP" :: rest)%list ->
        ~ In "FLOP" pre ->
        ~ In "" rest ->
        _parse_flop self ip = Raise ValueError).
Proof.
  split.
  - intros st Hl Hpre Hrest.
    assert (Hlines : street_lines self st = Raise ValueError).
    { unfold street_lines. rewrite Hl, (list_index_first _ _ _ Hpre).
      cbn [mbind result_bind Py.bind].
      destruct rest as [|x rest].
      - unfold list_index_from.
        destruct (Z.ltb_spec (Z.of_nat (List.length pre) + 2) 0); [lia|].
        rewrite index_aux_beyond; [reflexivity|].
        rewrite length_app. simpl. lia.
      - replace (pre ++ street_upper st :: x :: rest)%list
          with ((pre ++ [street_upper st; x]) ++ rest)%list
          by (now rewrite <- app_assoc).
        rewrite (list_index_from_skip "" (pre ++ [street_upper st; x]) _ _)
          by (rewrite length_app; simpl; lia).
        now rewrite (index_aux_absent "" rest _ Hrest). }
    unfold _parse_street. now rewrite Hlines.
  - intros ip Hl Hpre Hrest.
    unfold _parse_flop. rewrite Hl, (list_index_first _ _ _ Hpre).
    replace (pre ++ "FLOP" :: rest)%list
      with ((pre ++ ["FLOP"]) ++ rest)%list by (now rewrite <- app_assoc).
    rewrite (list_index_from_skip "" (pre ++ ["FLOP"]) _ _)
      by (rewrite length_app; simpl; lia).
    now rewrite (index_aux_absent "" rest _ Hrest).
Qed.

Lemma list_slice_empty {A} (l : list A) (lo hi : Z) :
  0 <= lo -> 0 <= hi -> hi <= lo -> list_slice l lo (Some hi) = [].
Proof.
  intros Hlo Hhi Hle. unfold list_slice, slice_bound.
  destruct (Z.ltb_spec lo 0); [lia|]. destruct (Z.ltb_spec hi 0); [lia|].
  replace (Z.to_nat (Z.min hi (Z.of_nat (List.length l))
                     - Z.min lo (Z.of_nat (List.length l))))
    with 0%nat by lia.
  reflexivity.
Qed.

(** X16.  The actions before the flop are the lines from the third line after
    the first section boundary up to the second boundary, kept as they
    are; a second boundary that does not lie beyond gives an empty tuple,
    not an unset attribute.  The pot handed on is always 0. *)
Theorem preflop_lines (self : hand) (s0 s1 : Z) :
  getitem (_sections self) 0 = OK s0 ->
  getitem (_sections self) 1 = OK s1 ->
  (forall pre mid post,
     _splitted self = (pre ++ mid ++ post)%list ->
     s0 + 3 = Z.of_nat (List.length pre) ->
     s1 = Z.of_nat (List.length pre + List.length mid) ->
     _parse_preflop self
     = OK (set_preflop_actions (Some mid) self, dec_of_int 0))
  /\ (0 <= s1 <= s0 + 3 ->
      _parse_preflop self
      = OK (set_preflop_actions (Some []) self, dec_of_int 0)).
Proof.
  intros H0 H1. split.
  - intros pre mid post Hl Hpre Hmid. unfold _parse_preflop.
    rewrite (bind_OK_eq _ _ _ H0), (bind_OK_eq _ _ _ H1), Hl.
    now rewrite (list_slice_mid pre mid post _ _ Hpre Hmid).
  - intros Hs. unfold _parse_preflop.
    rewrite (bind_OK_eq _ _ _ H0), (bind_OK_eq _ _ _ H1).
    rewrite list_slice_empty by lia. reflexivity.
Qed.

(** X17.  A flop object holds one action per line after the board line, in a
    tuple that is never empty: without such lines the actions are unset
    and the pot is the initial pot.  Without a board line there is no
    flop object at all. *)
Theorem flop_actions_per_line (boardline : string) (lines : list string)
    (ip : decimal) (f : _Flop) :
  new_Flop [] ip = Raise IndexError /\
  (new_Flop (boardline :: lines) ip = OK f ->
   _parse_cards boardline = OK (cards f) /\
   (lines = [] -> actions f = None /\ pot f = ip) /\
   (lines <> [] ->
    exists acts, actions f = Some acts /\ acts <> [] /\
                 List.length acts = List.length lines)).
Proof.
  split; [reflexivity|]. unfold new_Flop. intros H.
  apply bind_OK in H as (b & Hb & H). injection Hb as <-.
  apply bind_OK in H as (cs & Hcs & H).
  apply bind_OK in H as ([acts pot'] & Hacts & [= <-]).
  pose proof (list_slice_tail [boardline] lines 1 eq_refl) as E.
  cbn [app] in E. rewrite E in Hacts. clear E.
  unfold _parse_actions in Hacts.
  apply bind_OK in Hacts as ([acts0 p0] & Hl & [= <- <-]).
  cbn [cards actions pot]. split; [exact Hcs|]. split.
  - intros ->. now injection Hl as <- <-.
  - intros Hne. apply parse_action_lines_length in Hl.
    destruct acts0 as [|a acts0].
    + destruct lines; [congruence|discriminate].
    + exists (a :: acts0). now repeat split.
Qed.

End Streets.

Section Stages.
Context {pkg : Package}.

Lemma winner_line_raises (self : hand) (sd : bool) (line : string)
    (w : gset string) (e : exception) :
  show_down self = Some sd ->
  winner_line self line w = Raise e -> e = AttributeError.
Proof.
  intros Hsd. unfold winner_line. rewrite Hsd.
  unfold_monad. cbn [attr].
  destruct (negb sd && contains "collected" line).
  - destruct (re_match _winner_re line); cbn [mgroup]; congruence.
  - destruct (sd && contains "won" line); [|discriminate].
    destruct (re_match _showdown_re line); cbn [mgroup]; congruence.
Qed.

Lemma winner_line_mismatch (self : hand) (sd : bool) (line : string)
    (w : gset string) :
  show_down self = Some sd ->
  contains (winner_marker sd) line = true ->
  re_match (winner_pattern sd) line = None ->
  winner_line self line w = Raise AttributeError.
Proof.
  intros Hsd Hc Hm. unfold winner_line. rewrite Hsd.
  unfold_monad. cbn [attr].
  destruct sd; cbn [winner_marker winner_pattern negb andb] in *;
    now rewrite Hc, Hm.
Qed.

Lemma winner_lines_mismatch (self : hand) (sd : bool) (line : string)
    (lines : list string) :
  show_down self = Some sd ->
  In line lines ->
  contains (winner_marker sd) line = true ->
  re_match (winner_pattern sd) line = None ->
  forall w, winner_lines self lines w = Raise AttributeError.
Proof.
  intros Hsd Hin Hc Hm.
  induction lines as [|l lines IH]; intros w; [destruct Hin|].
  simpl. destruct (winner_line self l w) as [w1|e] eqn:E.
  - destruct Hin as [->|Hin].
    + rewrite (winner_line_mismatch _ _ _ _ Hsd Hc Hm) in E. discriminate.
    + unfold_monad. now apply IH.
  - now rewrite (winner_line_raises _ _ _ _ _ Hsd E).
Qed.

(** X18.  One line, among those from the fourth after the last section
    boundary on, that carries the marker of the branch taken
    ("collected" without show-down, "won" with it) but is not matched by
    the branch's pattern makes winner resolution raise an attribute
    error, wherever it stands among them and whatever the other lines
    are. *)
Theorem winners_marker_mismatch (self : hand) (sd : bool) (sl : Z)
    (line : string) :
  show_down self = Some sd ->
  getitem (_sections self) (-1) = OK sl ->
  In line (list_slice (_splitted self) (sl + 4) None) ->
  contains (winner_marker sd) line = true ->
  re_match (winner_pattern sd) line = None ->
  _parse_winners self = Raise AttributeError.
Proof.
  intros Hsd Hsl Hin Hc Hm. unfold _parse_winners.
  rewrite (bind_OK_eq _ _ _ Hsl).
  now rewrite (winner_lines_mismatch _ _ _ _ Hsd Hin Hc Hm).
Qed.

Lemma seat_player_spec (line : string) (m : list string)
    (ps ps1 : list (_Player Combo)) :
  re_match _seat_re line = Some m ->
  seat_player m ps = OK ps1 ->
  exists sn p (j : nat),
    seat_line line = Some (sn, p) /\ ps1 = <[j := p]> ps /\
    (j < List.length ps)%nat /\
    (Z.of_nat j = sn - 1 \/
     (sn = 0 /\ Z.of_nat j = Z.of_nat (List.length ps) - 1)).
Proof.
  intros Hm H. pose proof Hm as Hshape.
  apply seat_match_shape in Hshape
    as (d & w & st & tail & _ & Hd & _ & _ & Gs & _ & _).
  unfold seat_player in H. unfold seat_line. rewrite Hm.
  rewrite Gs in *.
  destruct (int_digit d Hd) as [Hint Hrange]. rewrite Hint in *.
  cbn [mbind result_bind Py.bind] in H.
  destruct (int (group m g_stack)) as [stk|]; [|discriminate].
  cbn [mbind result_bind Py.bind] in H.
  unfold setitem in H.
  set (len := Z.of_nat (List.length ps)) in *.
  set (sn := digit_val d) in *.
  destruct ((0 <=? (if sn - 1 <? 0 then sn - 1 + len else sn - 1))
            && ((if sn - 1 <? 0 then sn - 1 + len else sn - 1) <? len))
    eqn:Hin; [|discriminate].
  injection H as <-.
  apply andb_true_iff in Hin as [H0 H1].
  apply Z.leb_le in H0. apply Z.ltb_lt in H1.
  eexists sn, _, _. split; [reflexivity|]. split; [reflexivity|].
  subst len. destruct (Z.ltb_spec (sn - 1) 0); (split; [lia|]).
  - right. lia.
  - left. lia.
Qed.

Lemma seat_lines_entries (lines : list string) :
  forall ps ps' : list (_Player Combo),
    seat_lines lines ps = OK ps' ->
    List.length ps' = List.length ps /\
    forall (i : nat) p,
      ps' !! i = Some p ->
      ps !! i = Some p \/
      exists line sn,
        In line lines /\ seat_line line = Some (sn, p) /\
        (Z.of_nat i = sn - 1 \/
         (sn = 0 /\ Z.of_nat i = Z.of_nat (List.length ps) - 1)).
Proof.
  induction lines as [|l lines IH]; intros ps ps' H.
  - injection H as <-. split; [reflexivity|]. intros i p Hi. now left.
  - simpl in H. destruct (re_match _seat_re l) as [m|] eqn:Hm.
    + apply bind_OK in H as (ps1 & Hstep & Hrest).
      destruct (seat_player_spec l m ps ps1 Hm Hstep)
        as (sn & p0 & j & Hline & -> & Hj & Hidx).
      apply IH in Hrest as [Hlen Hent].
      rewrite length_insert in Hlen, Hent.
      split; [exact Hlen|]. intros i p Hi.
      destruct (Hent i p Hi) as [Hold|(line & sn' & Hin & Hsl & Hpos)].
      * destruct (decide (i = j)) as [->|Hne].
        -- rewrite list_lookup_insert_eq in Hold by exact Hj.
           injection Hold as <-. right. exists l, sn.
           split; [now left|]. now split.
        -- rewrite list_lookup_insert_ne in Hold by congruence. now left.
      * right. exists line, sn'. split; [now right|]. now split.
    + injection H as <-. split; [reflexivity|]. intros i p Hi. now left.
Qed.

(** X19.  Whatever the lines are, a player list that comes out has exactly as
    many entries as the table has seats, and each entry is either the
    placeholder it started as or the player of one of the seat lines,
    standing at the index one below its seat number (seat 0 at the last
    index). *)
Theorem players_entries (self self' : hand) (n : Z) :
  max_players self = Some n ->
  0 <= n ->
  _parse_players self = OK self' ->
  exists ps,
    self' = set_players (Some ps) self /\
    Z.of_nat (List.length ps) = n /\
    forall (i : nat) p,
      ps !! i = Some p ->
      _init_seats n !! i = Some p \/
      exists line sn,
        In line (list_slice (_splitted self) 2 None) /\
        seat_line line = Some (sn, p) /\
        (Z.of_nat i = sn - 1 \/ (sn = 0 /\ Z.of_nat i = n - 1)).
Proof.
  intros Hmax Hn H. unfold _parse_players in H. rewrite Hmax in H.
  cbn [attr mbind result_bind Py.bind] in H.
  apply bind_OK in H as (ps & Hlines & [= <-]).
  apply seat_lines_entries in Hlines as [Hlen Hent].
  exists ps. split; [reflexivity|].
  split; [rewrite Hlen; now apply _init_seats_length|].
  intros i p Hi. destruct (Hent i p Hi) as [Hold|(line & sn & Hin & Hsl & Hp)].
  - now left.
  - right. exists line, sn. rewrite (_init_seats_length n Hn) in Hp.
    now repeat split.
Qed.

(** Runs through a stage that succeeded, down to the object it built. *)
Ltac through H :=
  repeat match type of H with
         | (_ ≫= _) = OK _ => apply bind_OK in H as (? & _ & H)
         | mret _ = OK _ => injection H as <-
         | OK _ = OK _ => injection H as <-
         | Raise _ = OK _ => discriminate H
         | (if ?b then _ else _) = OK _ => destruct b
         | match ?x with _ => _ end = OK _ => destruct x
         end.

(** X20.  No stage changes the lines it reads or the section boundaries: the
    object a stage returns holds the same [_splitted] and [_sections] as
    the one it was given. *)
Theorem stages_keep_lines (self self' : hand) :
  (parse_header self = OK self' -> same_lines self self')
  /\ (_parse_table self = OK self' -> same_lines self self')
  /\ (_parse_players self = OK self' -> same_lines self self')
  /\ (_parse_button self = OK self' -> same_lines self self')
  /\ (_parse_hero self = OK self' -> same_lines self self')
  /\ (forall p, _parse_preflop self = OK (self', p) -> same_lines self self')
  /\ (forall ip, _parse_flop self ip = OK self' -> same_lines self self')
  /\ (forall st, _parse_street self st = OK self' -> same_lines self self')
  /\ (_parse_showdown self = OK self' -> same_lines self self')
  /\ (_parse_pot self = OK self' -> same_lines self self')
  /\ (_parse_board self = OK self' -> same_lines self self')
  /\ (_parse_winners self = OK self' -> same_lines self self').
Proof.
  repeat split; intros;
    match goal with
    | H : _ = OK _ |- _ =>
        first [ progress unfold parse_header in H
              | progress unfold _parse_table in H
              | progress unfold _parse_players in H
              | progress unfold _parse_button in H
              | progress unfold _parse_hero in H
              | progress unfold _parse_preflop in H
              | progress unfold _parse_flop in H
              | progress unfold _parse_street, street_lines in H
              | progress unfold _parse_showdown in H
              | progress unfold _parse_pot in H
              | progress unfold _parse_board in H
              | progress unfold _parse_winners in H ];
        through H
    end;
    try (destruct self; reflexivity);
    try (destruct st, self; reflexivity).
Qed.

(** X21.  On an object without lines and without section boundaries the
    stages that read a fixed line raise an index error, while the flop,
    the streets and the show-down succeed: the flop and the streets are
    unset and there is no show-down.  Seat parsing, once the max-seat
    count is set, succeeds with the placeholders alone. *)
Theorem empty_input (self : hand) :
  _splitted self = [] ->
  _sections self = [] ->
  parse_header self = Raise IndexError /\
  _parse_table self = Raise IndexError /\
  _parse_hero self = Raise IndexError /\
  _parse_preflop self = Raise IndexError /\
  _parse_pot self = Raise IndexError /\
  _parse_board self = Raise IndexError /\
  _parse_winners self = Raise IndexError /\
  (forall n, max_players self = Some n ->
     _parse_players self = OK (set_players (Some (_init_seats n)) self)) /\
  (forall ip, _parse_flop self ip = OK (set_flop None self)) /\
  (forall st,
     _parse_street self st
     = OK (set_street_actions st None (set_street st None self))) /\
  _parse_showdown self = OK (set_show_down (Some false) self).
Proof.
  intros Hl Hs.
  unfold parse_header, _parse_table, _parse_hero, _parse_preflop, _parse_pot,
    _parse_board, _parse_winners, _parse_players, _parse_flop, _parse_street,
    street_lines, _parse_showdown.
  rewrite Hl, Hs. repeat split.
  intros n Hn. now rewrite Hn.
Qed.

(** X22.  A line the pattern of its stage does not match makes the stage raise
    an attribute error: the header, the table line, the hole cards line
    and the pot line alike. *)
Theorem unmatched_line_raises (self : hand) (line : string) :
  (getitem (_splitted self) 0 = OK line ->
   re_match _header_re line = None ->
   parse_header self = Raise AttributeError)
  /\ (getitem (_splitted self) 1 = OK line ->
      re_match _table_re line = None ->
      _parse_table self = Raise AttributeError)
  /\ (forall s0,
        getitem (_sections self) 0 = OK s0 ->
        getitem (_splitted self) (s0 + 2) = OK line ->
        re_match _hero_re line = None ->
        _parse_hero self = Raise AttributeError)
  /\ (forall sl,
        getitem (_sections self) (-1) = OK sl ->
        getitem (_splitted self) (sl + 2) = OK line ->
        re_match _pot_re line = None ->
        _parse_pot self = Raise AttributeError).
Proof.
  repeat split.
  - intros Hline Hm. unfold parse_header.
    now rewrite (bind_OK_eq _ _ _ Hline), Hm.
  - intros Hline Hm. unfold _parse_table.
    now rewrite (bind_OK_eq _ _ _ Hline), Hm.
  - intros s0 Hs Hline Hm. unfold _parse_hero.
    now rewrite (bind_OK_eq _ _ _ Hs), (bind_OK_eq _ _ _ Hline), Hm.
  - intros sl Hs Hline Hm. unfold _parse_pot.
    now rewrite (bind_OK_eq _ _ _ Hs), (bind_OK_eq _ _ _ Hline), Hm.
Qed.

End Stages.

(** ** The colour of a label *)

(** X23.  The colour test accepts exactly six characters among the digits and
    the letters A to F, alone or followed by one line break. *)
Theorem color_six_hex (s : string) :
  Notes.color_matches s = true <->
  exists c1 c2 c3 c4 c5 c6 tail,
    s = String c1 (String c2 (String c3 (String c4 (String c5
          (String c6 tail))))) /\
    Forall (fun c => in_cls Notes.hex c = true) [c1; c2; c3; c4; c5; c6] /\
    (tail = "" \/ tail = String newline "").
Proof.
  unfold Notes.color_matches, re_match. split.
  - destruct (go _ _ _ _ _ _) as [[caps e]|] eqn:E; [|discriminate].
    intros _. apply go_sem in E. unfold Notes._color_re in E.
    destruct_sem E.
    do 7 eexists. split; [reflexivity|].
    split; [repeat constructor; assumption|].
    match goal with
    | Heol : at_eol ?t = true |- _ =>
        destruct t as [|c [|c' t']]; simpl in Heol; try discriminate;
          [now left|right; apply Ascii.eqb_eq in Heol; now subst]
    end.
  - intros (c1 & c2 & c3 & c4 & c5 & c6 & tail & -> & Hall & Htail).
    repeat match goal with
           | Hc : Forall _ (_ :: _) |- _ =>
               apply Forall_cons in Hc; destruct Hc as [? Hc]
           end.
    assert (Heol : at_eol tail = true) by (destruct Htail; now subst).
    assert (exists x, sem Notes._color_re None
              (String c1 (String c2 (String c3 (String c4 (String c5
                 (String c6 tail)))))) 0 "" [] x) as (x & Hsem).
    { eexists. unfold Notes._color_re. accept. }
    apply sem_go in Hsem as ([caps e] & Hgo). now rewrite Hgo.
Qed.

(** ** The board line *)

Lemma plain_spec (c : ascii) :
  plain c = true ->
  in_cls (CSet ["["; " "]%char) c = false /\
  in_cls (CSet ["]"; " "]%char) c = false /\
  in_cls CAny c = true.
Proof.
  unfold plain. intros H. apply negb_true_iff in H.
  cbn [existsb] in H.
  apply orb_false_iff in H as [H1 H].
  apply orb_false_iff in H as [H2 H].
  apply orb_false_iff in H as [H3 H].
  apply orb_false_iff in H as [H4 _].
  cbn [in_cls existsb]. now rewrite H1, H2, H3, H4.
Qed.

Section Board.
Context {pkg : Package}.

Lemma board_go_hit (p a b x : ascii) (rest : string) (pos : nat) :
  in_cls (CSet ["["; " "]%char) p = true ->
  plain a = true -> plain b = true ->
  in_cls (CSet ["]"; " "]%char) x = true ->
  go _board_re (Some p) (String a (String b (String x rest))) pos "" []
  = Some ([String a (String b "")], S (S pos)).
Proof.
  intros Hp Ha Hb Hx.
  apply plain_spec in Ha as (_ & _ & Ha).
  apply plain_spec in Hb as (_ & _ & Hb).
  unfold _board_re. cbn [go]. now rewrite Hp, Ha, Hb, Hx.
Qed.

Lemma board_go_miss (q : ascii) :
  plain q = true ->
  forall (s : string) (pos : nat), go _board_re (Some q) s pos "" [] = None.
Proof.
  intros Hq s pos. apply plain_spec in Hq as (Hq & _ & _).
  unfold _board_re. cbn [go]. now rewrite Hq.
Qed.

(** The scan from the first card on: each card is found once. *)
Lemma findall_cards (cs : list string) :
  Forall card_text cs -> cs <> [] ->
  forall (p : ascii) (pos : nat),
    in_cls (CSet ["["; " "]%char) p = true ->
    findall_aux _board_re (Some p) (spaced cs ++ "]") pos 0 = cs.
Proof.
  induction cs as [|c cs IH]; intros Hall Hne p pos Hp; [congruence|].
  apply Forall_cons in Hall as [(a & b & -> & Ha & Hb) Hall].
  destruct cs as [|c' cs].
  - cbn [spaced String.append findall_aux].
    rewrite (board_go_hit p a b "]" "" pos Hp Ha Hb eq_refl).
    replace (S (S pos) - pos - 1)%nat with 1%nat by lia.
    cbn [findall_aux group rev app nth].
    now rewrite (board_go_miss b Hb).
  - change (spaced (String a (String b "") :: c' :: cs) ++ "]")%string
      with (String a (String b (String " " (spaced (c' :: cs) ++ "]")))).
    cbn [findall_aux].
    rewrite (board_go_hit p a b " " _ pos Hp Ha Hb eq_refl).
    replace (S (S pos) - pos - 1)%nat with 1%nat by lia.
    cbn [findall_aux group rev app nth].
    rewrite (board_go_miss b Hb).
    f_equal. apply IH; [exact Hall|discriminate|reflexivity].
Qed.

Lemma findall_board_line (cs : list string) :
  Forall card_text cs ->
  findall _board_re ("Board [" ++ spaced cs ++ "]") = cs.
Proof.
  intros Hall. destruct cs as [|c cs]; [reflexivity|].
  pose proof Hall as Hc.
  apply Forall_cons in Hc as [(a & b & -> & Ha & Hb) _].
  assert (E : (spaced (String a (String b "") :: cs) ++ "]")%string
              = String a (String b
                  (match cs with
                   | [] => "]"
                   | _ => String " " (spaced cs ++ "]")
                   end))) by (now destruct cs).
  unfold findall.
  change ("Board [" ++ spaced (String a (String b "") :: cs) ++ "]")%string
    with (String "B" (String "o" (String "a" (String "r" (String "d"
            (String " " (String "["
               (spaced (String a (String b "") :: cs) ++ "]")))))))).
  cbn [findall_aux].
  change (go _board_re None _ 0 "" []) with (@None (list string * nat)).
  rewrite (board_go_miss "B" eq_refl), (board_go_miss "o" eq_refl),
    (board_go_miss "a" eq_refl), (board_go_miss "r" eq_refl),
    (board_go_miss "d" eq_refl).
  assert (Hmiss : forall s pos,
    go _board_re (Some " "%char) (String "[" (String a (String b s))) pos
      "" [] = None).
  { intros s pos. apply plain_spec in Ha as (_ & _ & Ha).
    apply plain_spec in Hb as (_ & Hb & _).
    unfold _board_re. cbn [go]. now rewrite Ha, Hb. }
  rewrite E, Hmiss, <- E.
  apply findall_cards; [exact Hall|discriminate|reflexivity].
Qed.

(** X24.  The board line "Board [c1 c2 ...]" is read back card by card, and the
    turn and the river are built from the fourth and the fifth card, each
    left unset when the board is too short. *)
Theorem board_line_round_trip (self : hand) (sl : Z) (cs : list string) :
  getitem (_sections self) (-1) = OK sl ->
  getitem (_splitted self) (sl + 3) = OK ("Board [" ++ spaced cs ++ "]") ->
  Forall card_text cs ->
  findall _board_re ("Board [" ++ spaced cs ++ "]") = cs /\
  _parse_board self
  = (t ← card_at cs 3; r ← card_at cs 4;
     mret (set_river r (set_turn t self))).
Proof.
  intros Hsl Hline Hall.
  pose proof (findall_board_line cs Hall) as Hf.
  split; [exact Hf|].
  unfold _parse_board.
  rewrite (bind_OK_eq _ _ _ Hsl), (bind_OK_eq _ _ _ Hline).
  change (startswith ("Board [" ++ spaced cs ++ "]") "Board") with true.
  cbn [negb]. rewrite Hf.
  rewrite (card_at_eq cs 3), (card_at_eq cs 4). reflexivity.
Qed.

End Board.

(** * The further properties on the sample hands *)

Section SampleRuns.
#[local] Existing Instance sample_package.


Lemma table_line_round_trip_witness :
  exists m,
    group m 1 = "797469411 15" /\ group m 2 = "9" /\
    group m g_button = "1" /\ int (group m g_button) = OK 1 /\
    _parse_table sample_hand
    = OK (set_max_players (Some 9)
            (set_table_name (Some "797469411 15")
               (set__table_match (Some m) sample_hand))).
Proof.
  exact (table_line_round_trip sample_hand "9" "1" "797469411 15"
           eq_refl eq_refl eq_refl eq_refl).
Defined.

Lemma button_by_seat_witness :
  exists p,
    _parse_button showdown_seated = OK (set_button (Some p) showdown_seated).
Proof.
  destruct (button_by_seat showdown_seated _ 5 _ eq_refl eq_refl eq_refl)
    as [H _].
  destruct (H ltac:(vm_compute; split; discriminate)) as (p & _ & E).
  exists p. exact E.
Defined.


Lemma winners_of_collected_lines_witness :
  exists ws,
    _parse_winners flagged_hand = OK (set_winners (Some ws) flagged_hand) /\
    NoDup ws /\
    forall nm,
      In nm ws <->
      exists d amt l,
        In l (list_slice (_splitted flagged_hand) (20 + 4) None) /\
        collected_summary d nm amt l.
Proof.
  apply (winners_of_collected_lines flagged_hand 20 eq_refl eq_refl).
  apply Forall_cons_2; [left; reflexivity|].
  apply Forall_cons_2; [|apply Forall_nil_2].
  right. exists "5"%char, "W2lkm2n", "150". repeat split.
Defined.

Lemma hero_line_round_trip_witness :
  _parse_hero showdown_seated = OK showdown_dealt.
Proof.
  exact (hero_line_round_trip showdown_seated 5 "W2lkm2n" "A" "c" "J" "h"
           _ _ _ 4 "AcJh"
           eq_refl eq_refl eq_refl eq_refl eq_refl eq_refl eq_refl eq_refl).
Defined.

Lemma uncalled_line_round_trip_witness :
  Flop._parse_uncalled "Uncalled bet (80) returned to W2lkm2n"
  = OK ("W2lkm2n", "return", Some (Dec 80 0)) /\
  Flop.parse_action_line (Dec 150 0) (Dec 150 0)
    "Uncalled bet (80) returned to W2lkm2n"
  = OK (("W2lkm2n", "return", Some (Dec 80 0)), Dec 150 0).
Proof.
  exact (uncalled_line_round_trip (Dec 150 0) (Dec 150 0) "80" "W2lkm2n"
           (Dec 80 0) eq_refl).
Defined.

Lemma player_action_line_witness :
  Flop._parse_player_action "W2lkm2n: bets 80"
  = OK ("W2lkm2n", "bets", Some (Dec 80 0)) /\
  Flop._parse_player_action "santy312: folds" = OK ("santy312", "folds", None)
  /\ Flop._parse_player_action "W2lkm2n: raises 40 to 60"
     = Raise InvalidOperation.
Proof.
  split; [|split].
  - exact (proj1 (player_action_line "W2lkm2n" "bets" eq_refl eq_refl)
             "bets" "80" (Dec 80 0) eq_refl eq_refl).
  - exact (proj1 (proj2 (player_action_line "santy312" "folds"
                           eq_refl eq_refl)) "folds" eq_refl).
  - exact (proj2 (proj2 (proj2 (player_action_line "W2lkm2n" "raises"
                                  eq_refl eq_refl)))
             "raises" "40" "60" eq_refl).
Defined.

Lemma collected_line_words_witness :
  Flop._parse_collected (Dec 0 0) "W2lkm2n collected 150 from pot"
  = OK (("W2lkm2n", "win", Some (Dec 150 0)), Dec 150 0) /\
  Flop._parse_collected (Dec 1 0)
    "W2lkm2n collected 1000000000000000000000000000000 from pot"
  = OK (("W2lkm2n", "win", Some (Dec 1000000000000000000000000000 3)),
        Dec 1000000000000000000000000000 3) /\
  Flop._parse_collected (Dec 0 0) "Mr X collected 150 from pot"
  = Raise InvalidOperation.
Proof.
  split; [|split].
  - exact (proj1 (proj2 (proj2
             (collected_line_words (Dec 0 0) "W2lkm2n" "collected" "150"
                "from pot" eq_refl eq_refl eq_refl)))
             (Dec 150 0) (Dec 150 0) eq_refl eq_refl).
  - exact (proj1 (proj2 (proj2
             (collected_line_words (Dec 1 0) "W2lkm2n" "collected"
                "1000000000000000000000000000000" "from pot"
                eq_refl eq_refl eq_refl)))
             (Dec 1000000000000000000000000000000 0)
             (Dec 1000000000000000000000000000 3) eq_refl eq_refl).
  - exact (proj2 (proj2 (proj2
             (collected_line_words (Dec 0 0) "Mr" "X" "collected"
                "150 from pot" eq_refl eq_refl eq_refl)))
             eq_refl).
Defined.

Lemma muck_line_name_witness :
  Flop._parse_muck "W2lkm2n: doesn't show hand" = OK ("W2lkm2n", "muck", None)
  /\ Flop._parse_muck "W2lkm2n doesn't show hand"
     = OK ("W2lkm2n doesn't show han", "muck", None).
Proof.
  split.
  - exact (proj1 (muck_line_name "W2lkm2n" " doesn't show hand" "" "x")
             eq_refl).
  - exact (proj2 (muck_line_name "" "" "W2lkm2n doesn't show han" "d")
             eq_refl).
Defined.

Lemma flop_pot_last_collect_witness :
  dec_add (Dec 100 0) (Dec 5 0) = OK (Flop.pot split_flop).
Proof.
  exact (proj2 (proj2
           (flop_pot_last_collect "[2s 6d 6h]"
              ["santy312 collected 10 from pot"; "W2lkm2n: checks";
               "W2lkm2n collected 5 from pot"; "W2lkm2n: doesn't show hand"]
              (Dec 100 0) split_flop eq_refl))
           ["santy312 collected 10 from pot"; "W2lkm2n: checks"]
           "W2lkm2n collected 5 from pot" ["W2lkm2n: doesn't show hand"]
           (Dec 5 0) eq_refl eq_refl eq_refl eq_refl).
Defined.

Lemma flop_actions_per_line_witness :
  exists acts,
    Flop.actions split_flop = Some acts /\ acts <> [] /\
    List.length acts = 4%nat.
Proof.
  exact (proj2 (proj2 (proj2
           (flop_actions_per_line "[2s 6d 6h]"
              ["santy312 collected 10 from pot"; "W2lkm2n: checks";
               "W2lkm2n collected 5 from pot"; "W2lkm2n: doesn't show hand"]
              (Dec 100 0) split_flop)
           eq_refl)) ltac:(discriminate)).
Defined.

Lemma street_section_witness :
  _parse_street showdown_hand turn_street
  = OK (set_turn_actions
          (Some ["santy312: checks"; "W2lkm2n: checks"]) showdown_hand).
Proof.
  refine (proj1 (street_section showdown_hand turn_street "[2s 6d 6h] [4s]"
                   (take 16 showdown_lines)
                   ["santy312: checks"; "W2lkm2n: checks"]
                   (drop 21 showdown_lines) eq_refl _ _)).
  - intros H. apply list_contains_In in H. discriminate H.
  - intros H. apply list_contains_In in H. discriminate H.
Defined.

Lemma flop_section_witness :
  exists f,
    _parse_flop sample_hand (Dec 0 0) = OK (set_flop (Some f) sample_hand) /\
    Flop.pot f = Dec 150 0.
Proof.
  eexists. split.
  - refine (eq_trans
              (proj1 (flop_section sample_hand (Dec 0 0)
                        (take 13 sample_lines)
                        (take 6 (drop 14 sample_lines))
                        (drop 21 sample_lines) eq_refl _ _)) _).
    + intros H. apply list_contains_In in H. discriminate H.
    + intros H. apply list_contains_In in H. discriminate H.
    + vm_compute. reflexivity.
  - reflexivity.
Defined.

Lemma unterminated_street_witness :
  _parse_street cut_short_hand turn_street
  = OK (set_turn_actions None (set_turn None cut_short_hand)) /\
  _parse_flop cut_short_hand (Dec 0 0) = Raise ValueError.
Proof.
  split.
  - refine (proj1 (unterminated_street cut_short_hand
                     ["FLOP"; "[2s 6d 6h]"; "santy312: checks"]
                     ["[2s 6d 6h] [4s]"; "santy312: checks"])
              turn_street eq_refl _ _).
    + intros H. apply list_contains_In in H. discriminate H.
    + intros H. apply list_contains_In in H. discriminate H.
  - refine (proj2 (unterminated_street cut_short_hand []
                     ["[2s 6d 6h]"; "santy312: checks";
                      "TURN"; "[2s 6d 6h] [4s]"; "santy312: checks"])
              (Dec 0 0) eq_refl _ _).
    + intros H. destruct H.
    + intros H. apply list_contains_In in H. discriminate H.
Defined.

Lemma winners_marker_mismatch_witness :
  _parse_winners wonder_hand = Raise AttributeError.
Proof.
  refine (winners_marker_mismatch wonder_hand true 0
            "Seat 3: wonder folded before Flop (didn't bet)"
            eq_refl eq_refl _ eq_refl eq_refl).
  left. reflexivity.
Defined.

Lemma players_entries_witness :
  exists ps,
    run_stage (_parse_players seated_hand) seated_hand
    = set_players (Some ps) seated_hand /\
    Z.of_nat (List.length ps) = 9 /\
    forall (i : nat) p,
      ps !! i = Some p ->
      _init_seats 9 !! i = Some p \/
      exists line sn,
        In line (list_slice (_splitted seated_hand) 2 None) /\
        seat_line line = Some (sn, p) /\
        (Z.of_nat i = sn - 1 \/ (sn = 0 /\ Z.of_nat i = 9 - 1)).
Proof.
  refine (players_entries seated_hand _ 9 eq_refl _ _).
  - discriminate.
  - vm_compute. reflexivity.
Defined.

Lemma stages_keep_lines_witness :
  same_lines sample_hand (set_total_pot (Some 150) sample_hand).
Proof.
  refine (proj1 (proj2 (proj2 (proj2 (proj2 (proj2 (proj2 (proj2 (proj2
            (proj2 (stages_keep_lines sample_hand
                      (set_total_pot (Some 150) sample_hand))))))))))) _).
  vm_compute. reflexivity.
Defined.

Lemma color_six_hex_witness :
  Notes.color_matches "FF00AA" = true /\
  Notes.color_matches (String "F" (String "F" (String "0" (String "0"
    (String "A" (String "A" (String newline ""))))))) = true.
Proof.
  split.
  - refine (proj2 (color_six_hex "FF00AA") _).
    exists "F"%char, "F"%char, "0"%char, "0"%char, "A"%char, "A"%char, "".
    split; [reflexivity|]. split; [|now left].
    repeat (apply Forall_cons_2; [reflexivity|]). apply Forall_nil_2.
  - refine (proj2 (color_six_hex _) _).
    exists "F"%char, "F"%char, "0"%char, "0"%char, "A"%char, "A"%char,
      (String newline "").
    split; [reflexivity|]. split; [|now right].
    repeat (apply Forall_cons_2; [reflexivity|]). apply Forall_nil_2.
Defined.

Lemma board_line_round_trip_witness :
  _parse_board showdown_hand
  = OK (set_river (Some "Kc") (set_turn (Some "4s") showdown_hand)).
Proof.
  refine (proj2 (board_line_round_trip showdown_hand 31
                   ["2s"; "6d"; "6h"; "4s"; "Kc"] eq_refl eq_refl _)).
  repeat (apply Forall_cons_2;
          [eexists _, _; split; [reflexivity|split; reflexivity]|]).
  apply Forall_nil_2.
Defined.

Lemma preflop_lines_witness :
  _parse_preflop sample_hand
  = OK (set_preflop_actions
          (Some ["flettl2: folds"; "W2lkm2n: raises 40 to 60";
                 "santy312: calls 50"]) sample_hand, Dec 0 0).
Proof.
  exact (proj1 (preflop_lines sample_hand 6 12 eq_refl eq_refl)
           (take 9 sample_lines)
           ["flettl2: folds"; "W2lkm2n: raises 40 to 60";
            "santy312: calls 50"]
           (drop 12 sample_lines) eq_refl eq_refl eq_refl).
Defined.

Lemma empty_input_witness :
  _parse_pot (blank_hand [] []) = Raise IndexError /\
  _parse_flop (blank_hand [] []) (Dec 0 0)
  = OK (set_flop None (blank_hand [] [])).
Proof.
  destruct (empty_input (blank_hand [] []) eq_refl eq_refl)
    as (_ & _ & _ & _ & Hpot & _ & _ & _ & Hflop & _).
  split; [exact Hpot|exact (Hflop (Dec 0 0))].
Defined.

Lemma unmatched_line_raises_witness :
  _parse_hero three_card_hand = Raise AttributeError.
Proof.
  exact (proj1 (proj2 (proj2
           (unmatched_line_raises three_card_hand
              "Dealt to W2lkm2n [Ac Jh Td]")))
           0 eq_refl eq_refl eq_refl).
Defined.

End SampleRuns.

(** * What the claims as first stated miss *)

Section Misses.
#[local] Existing Instance sample_package.

(** The claim C2 as first stated has every action line classified.  Only
    the lines of the flop are: those before the flop and those of the
    turn and the river are kept as text.  With a line of no known shape
    among them every stage succeeds, and the line is among the actions
    kept. *)
Lemma unclassified_lines_are_kept :
  Flop.unrecognized "the dealer shuffles" /\
  _parse_preflop chatty_hand
  = OK (set_preflop_actions
          (Some ["W2lkm2n: calls 10"; "santy312: checks";
                 "the dealer shuffles"]) chatty_hand, Dec 0 0) /\
  _parse_street chatty_hand turn_street
  = OK (set_turn_actions
          (Some ["santy312: checks"; "the dealer shuffles";
                 "W2lkm2n: checks"]) chatty_hand) /\
  exists h,
    all_stages chatty_hand = OK h /\
    preflop_actions h
    = Some ["W2lkm2n: calls 10"; "santy312: checks"; "the dealer shuffles"] /\
    turn_actions h
    = Some ["santy312: checks"; "the dealer shuffles"; "W2lkm2n: checks"].
Proof.
  split; [repeat split|]. split; [reflexivity|]. split; [reflexivity|].
  eexists. split; [vm_compute; reflexivity|]. split; reflexivity.
Qed.

(** C3.  A hand that ends before the flop has no board line in its
    summary: the seat lines start at the third line after the last
    section boundary, where the board line would stand, and winner
    resolution reads from the fourth on.  The seat that collected is
    named on that third line; the seat pattern matches it and captures
    the name, yet every stage succeeds and the winners come out empty. *)
Theorem first_summary_line_not_read :
  getitem (_sections folded_hand) (-1) = OK 16 /\
  getitem (_splitted folded_hand) (16 + 3)
  = OK "Seat 1: flettl2 (button) collected (50)" /\
  contains "collected" "Seat 1: flettl2 (button) collected (50)" = true /\
  (exists m,
     re_match _winner_re "Seat 1: flettl2 (button) collected (50)" = Some m /\
     group m 2 = "flettl2 (button)") /\
  _parse_showdown folded_hand
  = OK (set_show_down (Some false) folded_hand) /\
  _parse_winners (set_show_down (Some false) folded_hand)
  = OK (set_winners (Some []) (set_show_down (Some false) folded_hand)) /\
  exists h,
    all_stages folded_hand = OK h /\
    show_down h = Some false /\ winners h = Some [].
Proof.
  split; [reflexivity|]. split; [reflexivity|]. split; [reflexivity|].
  split; [eexists; split; [vm_compute; reflexivity|reflexivity]|].
  split; [reflexivity|]. split; [vm_compute; reflexivity|].
  eexists. split; [vm_compute; reflexivity|]. split; reflexivity.
Qed.

(** The claim C7 as first stated has every group of a matching header
    decode.  The grammar takes any text for the blinds: a header with
    the small blind spelled out matches, and the stage raises on the
    decimal it cannot build. *)
Lemma matched_header_need_not_decode :
  (exists m,
     re_match _header_re worded_blinds_header = Some m /\
     group m g_sb = "ten" /\ group m g_bb = "20") /\
  parse_header (blank_hand [worded_blinds_header] [])
  = Raise InvalidOperation.
Proof.
  split; [|vm_compute; reflexivity].
  eexists. split; [vm_compute; reflexivity|]. split; reflexivity.
Qed.

End Misses.
